(** * EchoTruth: voice classification back end

    A shallow embedding of the EchoTruth back end (backend/app: the
    services, the adapter, the controller, the route of the API with its
    key check, the validators, the prompt and the configuration) and the
    properties of its heuristic scorer, its LLM reply parser, its decision
    orchestrator, its base64 acquisition step, its silence-ratio
    computation and its route.

    Conventions of the embedding.
    - Python [float] is IEEE 754 binary64, modelled by [spec_float] with the
      operations of [SpecFloat] at precision 53 and maximal exponent 1024
      (round to nearest, ties to even).  A decimal literal [m]e[k] of the
      source is written [dec m k] and denotes the correctly rounded value.
    - Python [str] is [string]; one [ascii] stands for one character of
      ASCII text.  [str.upper], which is not the ASCII case mapping on
      other text, is a library function, and what is stated on the
      characters of a text from outside is stated for ASCII text.
    - The frames that librosa returns are numbers of single precision;
      they are held as the binary64 numbers of the same value, and the
      arithmetic of numpy on them is a parameter, with the instances of
      [Float32] (precision 24, maximal exponent 128).
    - Python [dict] is an association list in insertion order.
    - A call that may raise is a computation in the monad [exc]; a
      [try ... except Exception] block is [try_except].  The diagnostics
      written with [print] are left out.
    - Functions of third-party libraries whose result the code only passes
      on (json.loads, float() on a string, str() on a non-string, the LLM
      providers, librosa, numpy) are parameters; [Reference] gives
      executable instances of them that are used to evaluate the code on
      concrete input.
    - A handler of the web framework returns a value or raises; the status
      that the framework gives to a returned value is left out. *)

From Stdlib Require Import ZArith Bool List String Ascii Lia DecimalString.
From Stdlib Require Import Floats.SpecFloat.
Import ListNotations.

Set Warnings "-register-all".

Local Open Scope Z_scope.
Local Open Scope string_scope.

(** ** Binary64 arithmetic *)

Module Float64.

Definition prec : Z := 53.
Definition emax : Z := 1024.

Definition float : Type := spec_float.

Definition fadd : float -> float -> float := SFadd prec emax.
Definition fdiv : float -> float -> float := SFdiv prec emax.

(** Python's [x < y], [x <= y], [x > y], [x >= y] and [x == y] on floats;
    each is false as soon as an operand is NaN. *)
Definition flt (x y : float) : bool := SFltb x y.
Definition fle (x y : float) : bool := SFleb x y.
Definition fgt (x y : float) : bool := SFltb y x.
Definition fge (x y : float) : bool := SFleb y x.
Definition feq (x y : float) : bool := SFeqb x y.

Definition is_nan (x : float) : bool :=
  match x with S754_nan => true | _ => false end.

Definition is_infinite (x : float) : bool :=
  match x with S754_infinity _ => true | _ => false end.

(** The float nearest to the integer [z]. *)
Definition Z2F (z : Z) : float := binary_normalize prec emax z 0 false.

(** The float nearest to the quotient [a / b] of two positive integers:
    the quotient is taken with enough bits and a sticky location, then
    rounded once. *)
Definition F_of_ratio (a b : positive) : float :=
  let '(mz, ez, lz) := SFdiv_core_binary prec emax (Zpos a) 0 (Zpos b) 0 in
  binary_round_aux prec emax false mz ez lz.

Definition F_of_pos_dec (p : positive) (e : Z) : float :=
  match e with
  | Zneg k => F_of_ratio p (Pos.pow 10 k)
  | _ => Z2F (Zpos p * 10 ^ e)
  end.

(** [dec m e] is the decimal literal [m]e[e], correctly rounded. *)
Definition dec (m e : Z) : float :=
  match m with
  | Z0 => S754_zero false
  | Zpos p => F_of_pos_dec p e
  | Zneg p => SFopp (F_of_pos_dec p e)
  end.

Definition f0_0 : float := S754_zero false.
Definition f1_0 : float := Z2F 1.

End Float64.

Import Float64.

(** ** Single precision *)

(** The numbers of binary32, each held as the binary64 number of the same
    value. *)
Module Float32.

Definition prec : Z := 24.
Definition emax : Z := 128.

(** The binary64 number of the same value. *)
Definition to_binary64 (x : spec_float) : float :=
  match x with
  | S754_finite s m e => binary_round Float64.prec Float64.emax s m e
  | _ => x
  end.

(** The binary32 number nearest to [x]. *)
Definition round (x : float) : float :=
  to_binary64
    (match x with
     | S754_finite s m e => binary_round prec emax s m e
     | _ => x
     end).

(** The product of two binary32 numbers, rounded to binary32. *)
Definition mul (x y : float) : float := to_binary64 (SFmul prec emax x y).

End Float32.

(** ** Exceptions *)

Inductive exn_kind : Type :=
  | ValueError
  | TypeError
  | AttributeError
  | KeyError
  | IndexError
  | OverflowError
  | JSONDecodeError
  | BinasciiError
  | OSError.

Record exn : Type := mk_exn { exn_type : exn_kind; exn_msg : string }.

Inductive exc (A : Type) : Type :=
  | Return (a : A)
  | Raise (e : exn).

Arguments Return {A} a.
Arguments Raise {A} e.

Definition bind {A B : Type} (c : exc A) (k : A -> exc B) : exc B :=
  match c with
  | Return a => k a
  | Raise e => Raise e
  end.

Notation "x <- c ;; k" := (bind c (fun x => k))
  (at level 61, c at next level, right associativity).

(** [try: c except Exception as e: h e] *)
Definition try_except {A : Type} (c : exc A) (h : exn -> exc A) : exc A :=
  match c with
  | Return a => Return a
  | Raise e => h e
  end.

(** ** Python strings *)

(** A string of the model is a list of [ascii]; it is the Python string
    with the same characters when the text is ASCII ([is_ascii] below).
    How a text beyond ASCII is read into the model is up to the library
    functions, which are parameters; lengths and slices may count
    differently there, so what is stated on the characters of a text from
    outside is stated for ASCII text. *)

Module Str.

(** [len(s)] *)
Definition len (s : string) : Z := Z.of_nat (String.length s).

(** [s.find(sub)]: the lowest index where [sub] starts, or [-1]. *)
Fixpoint find_from (sub s : string) (i : Z) : Z :=
  if prefix sub s then i
  else match s with
       | EmptyString => -1
       | String _ r => find_from sub r (i + 1)
       end.

Definition find (sub s : string) : Z := find_from sub s 0.

(** [s.rfind(sub)]: the highest index where [sub] starts, or [-1]. *)
Fixpoint rfind_from (sub s : string) (i : Z) : Z :=
  match s with
  | EmptyString => if prefix sub s then i else -1
  | String _ r =>
      let j := rfind_from sub r (i + 1) in
      if (0 <=? j)%Z then j else if prefix sub s then i else -1
  end.

Definition rfind (sub s : string) : Z := rfind_from sub s 0.

(** [sub in s] *)
Definition contains (sub s : string) : bool := (0 <=? find sub s)%Z.

(** Python's slice bounds: a negative bound counts from the end, and both
    are clipped to [0, len]. *)
Definition clip (n i : Z) : Z :=
  if (i <? 0)%Z then Z.max 0 (i + n) else Z.min i n.

(** [s[start:stop]] *)
Definition slice (s : string) (start stop : Z) : string :=
  let a := clip (len s) start in
  let b := clip (len s) stop in
  substring (Z.to_nat a) (Z.to_nat (b - a)) s.

(** [s[:stop]] *)
Definition take (s : string) (stop : Z) : string := slice s 0 stop.

Definition map (f : ascii -> ascii) : string -> string :=
  fix go (s : string) : string :=
    match s with
    | EmptyString => EmptyString
    | String c r => String (f c) (go r)
    end.

Definition is_lower (c : ascii) : bool :=
  let n := nat_of_ascii c in (97 <=? n)%nat && (n <=? 122)%nat.

Definition upper_char (c : ascii) : ascii :=
  if is_lower c then ascii_of_nat (nat_of_ascii c - 32) else c.

(** [s.upper()] on ASCII text only; the program takes [str.upper] from
    the library. *)
Definition upper (s : string) : string := map upper_char s.

(** The text is ASCII: every character is below 128. *)
Definition is_ascii (s : string) : bool :=
  forallb (fun c => (nat_of_ascii c <? 128)%nat) (list_ascii_of_string s).

(** [s.replace(old, new)] for a non-empty [old]; [skip] counts the
    characters of a match that are still to be dropped. *)
Fixpoint replace_go (old new s : string) (skip : nat) : string :=
  match s with
  | EmptyString => EmptyString
  | String c r =>
      match skip with
      | S k => replace_go old new r k
      | O =>
          if prefix old s
          then new ++ replace_go old new r (String.length old - 1)
          else String c (replace_go old new r 0)
      end
  end.

Definition replace (old new s : string) : string := replace_go old new s 0.

(** The characters removed by [s.strip()]. *)
Definition is_space (c : ascii) : bool :=
  let n := nat_of_ascii c in
  ((9 <=? n)%nat && (n <=? 13)%nat) || ((28 <=? n)%nat && (n <=? 32)%nat).

Fixpoint lstrip (s : string) : string :=
  match s with
  | EmptyString => EmptyString
  | String c r => if is_space c then lstrip r else s
  end.

Fixpoint rstrip (s : string) : string :=
  match s with
  | EmptyString => EmptyString
  | String c r =>
      match rstrip r with
      | EmptyString => if is_space c then EmptyString else String c EmptyString
      | r' => String c r'
      end
  end.

(** [s.strip()] *)
Definition strip (s : string) : string := rstrip (lstrip s).

(** [s.split(sep)] for a one-character separator: the list of the fields,
    never empty. *)
Fixpoint split (sep : ascii) (s : string) : list string :=
  match s with
  | EmptyString => [EmptyString]
  | String c r =>
      if Ascii.eqb c sep then EmptyString :: split sep r
      else match split sep r with
           | f :: fs => String c f :: fs
           | [] => [String c EmptyString]
           end
  end.

(** [sep.join(parts)] *)
Fixpoint join (sep : string) (parts : list string) : string :=
  match parts with
  | [] => EmptyString
  | [p] => p
  | p :: ps => p ++ sep ++ join sep ps
  end.

End Str.

(** ** Python values *)

(** The values that [json.loads] produces, which are also the values the
    result dictionaries hold. *)
Inductive pyval : Type :=
  | PNone
  | PBool (b : bool)
  | PInt (z : Z)
  | PFloat (f : float)
  | PStr (s : string)
  | PList (l : list pyval)
  | PDict (d : list (string * pyval)).

Definition dict (V : Type) : Type := list (string * V).

Module Dict.

Section Ops.
Context {V : Type}.

(** [d.get(k)] *)
Fixpoint get (k : string) (d : dict V) : option V :=
  match d with
  | [] => None
  | (k', v) :: r => if String.eqb k k' then Some v else get k r
  end.

(** [d.get(k, default)] *)
Definition get_default (k : string) (default : V) (d : dict V) : V :=
  match get k d with Some v => v | None => default end.

(** [k in d] *)
Definition mem (k : string) (d : dict V) : bool :=
  match get k d with Some _ => true | None => false end.

(** [d[k] = v]: an existing key keeps its place, a new one goes last. *)
Fixpoint set (k : string) (v : V) (d : dict V) : dict V :=
  match d with
  | [] => [(k, v)]
  | (k', v') :: r =>
      if String.eqb k k' then (k', v) :: r else (k', v') :: set k v r
  end.

End Ops.

End Dict.

Definition type_error (msg : string) : exn := mk_exn TypeError msg.

(** [bool(v)] *)
Definition py_truthy (v : pyval) : bool :=
  match v with
  | PNone => false
  | PBool b => b
  | PInt z => negb (z =? 0)%Z
  | PFloat f => negb (feq f f0_0)
  | PStr s => negb (String.eqb s EmptyString)
  | PList l => match l with [] => false | _ => true end
  | PDict d => match d with [] => false | _ => true end
  end.

Definition is_str (k : string) (v : pyval) : bool :=
  match v with PStr s => String.eqb s k | _ => false end.

(** [k in v] for a string [k] *)
Definition py_contains (k : string) (v : pyval) : exc bool :=
  match v with
  | PDict d => Return (Dict.mem k d)
  | PList l => Return (existsb (is_str k) l)
  | PStr s => Return (Str.contains k s)
  | _ => Raise (type_error "argument is not iterable")
  end.

(** [v[k]] for a string [k] *)
Definition py_getitem (v : pyval) (k : string) : exc pyval :=
  match v with
  | PDict d =>
      match Dict.get k d with
      | Some x => Return x
      | None => Raise (mk_exn KeyError k)
      end
  | PList _ | PStr _ => Raise (type_error "indices must be integers")
  | _ => Raise (type_error "object is not subscriptable")
  end.

(** [v[k] = x] for a string [k] *)
Definition py_setitem (v : pyval) (k : string) (x : pyval) : exc pyval :=
  match v with
  | PDict d => Return (PDict (Dict.set k x d))
  | PList _ => Raise (type_error "list indices must be integers")
  | _ => Raise (type_error "object does not support item assignment")
  end.

(** [float(z)] for an integer: the nearest float, and OverflowError when
    that is beyond the largest finite float. *)
Definition float_of_int (z : Z) : exc float :=
  let f := Z2F z in
  if is_infinite f
  then Raise (mk_exn OverflowError "int too large to convert to float")
  else Return f.

(** The two-argument [min(a, b)] and [max(a, b)] of Python: the first
    argument is kept unless the second is strictly better. *)
Definition py_min (a b : float) : float := if flt b a then b else a.
Definition py_max (a b : float) : float := if fgt b a then b else a.

(** ** The feature dictionary *)

Record FeatureSet : Type := mk_features {
  duration : float;
  silence_ratio : float;
  avg_volume : float;
  pitch_variance : float
}.

(** The dictionary built by the last statement of [extract_features]. *)
Definition features_dict (fs : FeatureSet) : dict float :=
  [ ("duration", duration fs);
    ("silence_ratio", silence_ratio fs);
    ("avg_volume", avg_volume fs);
    ("pitch_variance", pitch_variance fs) ].

(** ** Library functions taken as parameters *)

Record Library : Type := {
  (** [json.loads(s)]; raises JSONDecodeError on text that is not JSON. *)
  json_loads : string -> exc pyval;
  (** [float(s)] for a string [s]; raises ValueError. *)
  float_of_str : string -> exc float;
  (** [str(v)] for a value [v] that is not a string. *)
  repr : pyval -> string;
  (** [s.upper()], the case mapping of Unicode (it can change the length:
      the sharp s becomes SS). *)
  upper : string -> string
}.

(** [v.upper()] *)
Definition py_upper (L : Library) (v : pyval) : exc string :=
  match v with
  | PStr s => Return (upper L s)
  | _ => Raise (mk_exn AttributeError "object has no attribute 'upper'")
  end.

(** ** adapters/llm_adapter.py *)

Module LLMAdapter.

(** The fields set by [__init__]; [provider] is already in lower case. *)
Record t : Type := {
  provider : string;
  api_key : string;
  model : string
}.

(** The three provider calls [_call_openai], [_call_gemini] and
    [_call_groq]: remote calls that return the reply text, return None, or
    raise. *)
Record Providers : Type := {
  _call_openai : t -> string -> exc (option string);
  _call_gemini : t -> string -> exc (option string);
  _call_groq : t -> string -> exc (option string)
}.

Definition generate (P : Providers) (self : t) (prompt : string)
  : exc (option string) :=
  if String.eqb (api_key self) EmptyString then Return None
  else
    try_except
      (if String.eqb (provider self) "openai" then _call_openai P self prompt
       else if String.eqb (provider self) "gemini" then _call_gemini P self prompt
       else if String.eqb (provider self) "groq" then _call_groq P self prompt
       else Return None)
      (fun _ => Return None).

End LLMAdapter.

(** ** services/ai_service.py *)

Module AIService.

Definition default_confidence : float := dec 7 (-1).

Definition default_explanation : string :=
  "Classification based on audio feature analysis.".

(** [float(v)] *)
Definition py_float (L : Library) (v : pyval) : exc float :=
  match v with
  | PFloat f => Return f
  | PInt z => float_of_int z
  | PBool b => Return (if b then f1_0 else f0_0)
  | PStr s => float_of_str L s
  | _ => Raise (type_error "float() argument must be a string or a real number")
  end.

(** [str(v)] *)
Definition py_str (L : Library) (v : pyval) : string :=
  match v with
  | PStr s => s
  | _ => repr L v
  end.

(** [max(0.0, min(1.0, c))] *)
Definition clamp01 (c : float) : float := py_max f0_0 (py_min f1_0 c).

(** The text between the first opening and the last closing brace, or None
    when one of them is missing. *)
Definition extract_json (response : string) : option string :=
  let response := Str.strip response in
  let start := Str.find "{" response in
  let end_ := Str.rfind "}" response + 1 in
  if (start =? -1)%Z || (end_ =? 0)%Z then None
  else Some (Str.slice response start end_).

(** "Validate required fields": None without a classification, and the
    two defaults. *)
Definition apply_defaults (result : pyval) : exc (option pyval) :=
  has_classification <- py_contains "classification" result ;;
  if negb has_classification then Return None
  else
    has_confidence <- py_contains "confidence" result ;;
    result <- (if negb has_confidence
               then py_setitem result "confidence" (PFloat default_confidence)
               else Return result) ;;
    has_explanation <- py_contains "explanation" result ;;
    result <- (if negb has_explanation
               then py_setitem result "explanation" (PStr default_explanation)
               else Return result) ;;
    Return (Some result).

(** "Normalize classification value" on the upper-cased text with its
    spaces replaced. *)
Definition remap_classification (classification : string) : string :=
  if negb (String.eqb classification "AI_GENERATED"
           || String.eqb classification "HUMAN")
  then
    if Str.contains "AI" classification || Str.contains "SYNTHETIC" classification
    then "AI_GENERATED"
    else "HUMAN"
  else classification.

Definition normalize_classification (L : Library) (raw : string) : string :=
  remap_classification (Str.replace " " "_" (upper L raw)).

(** The statements after the defaults: classification, confidence and
    explanation are rewritten in place. *)
Definition normalize_result (L : Library) (result : pyval) : exc pyval :=
  raw <- py_getitem result "classification" ;;
  upper <- py_upper L raw ;;
  let classification := remap_classification (Str.replace " " "_" upper) in
  result <- py_setitem result "classification" (PStr classification) ;;
  confidence <- py_getitem result "confidence" ;;
  confidence <- py_float L confidence ;;
  result <- py_setitem result "confidence" (PFloat confidence) ;;
  result <- py_setitem result "confidence" (PFloat (clamp01 confidence)) ;;
  explanation <- py_getitem result "explanation" ;;
  result <- py_setitem result "explanation"
              (PStr (Str.take (py_str L explanation) 240)) ;;
  Return result.

(** The body of the [try] block. *)
Definition parse_body (L : Library) (response : string) : exc (option pyval) :=
  match extract_json response with
  | None => Return None
  | Some json_str =>
      result <- json_loads L json_str ;;
      defaulted <- apply_defaults result ;;
      match defaulted with
      | None => Return None
      | Some result =>
          result <- normalize_result L result ;;
          Return (Some result)
      end
  end.

Definition _parse_llm_response (L : Library) (response : string)
  : exc (option pyval) :=
  try_except (parse_body L response) (fun _ => Return None).

(** [get_classification_prompt] is the prompt builder of utils/prompts.py,
    a fixed text around the formatted features. *)
Definition classify_with_llm (L : Library)
  (get_classification_prompt : dict float -> string -> string)
  (P : LLMAdapter.Providers) (llm : LLMAdapter.t)
  (features : dict float) (language : string) : exc (option pyval) :=
  let prompt := get_classification_prompt features language in
  response <- LLMAdapter.generate P llm prompt ;;
  match response with
  | None => Return None
  | Some response =>
      if String.eqb response EmptyString then Return None
      else _parse_llm_response L response
  end.

End AIService.

(** ** decision_service.py *)

Definition AI_GENERATED : string := "AI_GENERATED".
Definition HUMAN : string := "HUMAN".

Definition mk_result (classification : string) (confidence : float)
  (explanation : string) : pyval :=
  PDict [ ("classification", PStr classification);
          ("confidence", PFloat confidence);
          ("explanation", PStr explanation) ].

Module DecisionService.

(** The state of [_heuristic_classify] after its three [if] statements:
    the accumulated [ai_score] and the list [reasons]. *)
Definition heuristic_scoring (features : dict float) : float * list string :=
  let pitch_variance := Dict.get_default "pitch_variance" (dec 5 (-1)) features in
  let silence_ratio := Dict.get_default "silence_ratio" (dec 1 (-1)) features in
  let avg_volume := Dict.get_default "avg_volume" (dec 5 (-2)) features in
  let ai_score := f0_0 in
  let reasons := @nil string in
  let '(ai_score, reasons) :=
    if flt pitch_variance (dec 15 (-2))
    then (fadd ai_score (dec 4 (-1)), (reasons ++ ["consistent pitch patterns"])%list)
    else (ai_score, reasons) in
  let '(ai_score, reasons) :=
    if flt silence_ratio (dec 5 (-2))
    then (fadd ai_score (dec 3 (-1)), (reasons ++ ["minimal natural pauses"])%list)
    else (ai_score, reasons) in
  let '(ai_score, reasons) :=
    if flt (dec 3 (-2)) avg_volume && flt avg_volume (dec 8 (-2))
    then (fadd ai_score (dec 2 (-1)), (reasons ++ ["normalized volume levels"])%list)
    else (ai_score, reasons) in
  (ai_score, reasons).

Definition ai_score (features : dict float) : float :=
  fst (heuristic_scoring features).

Definition reasons (features : dict float) : list string :=
  snd (heuristic_scoring features).

(** [a or b] on strings *)
Definition str_or (a b : string) : string :=
  if String.eqb a EmptyString then b else a.

Definition ai_explanation (reasons : list string) : string :=
  "Audio shows " ++ str_or (Str.join ", " reasons) "synthetic characteristics"
  ++ ". Features suggest machine-generated speech patterns.".

Definition human_explanation : string :=
  "Audio exhibits natural variations in pitch and rhythm consistent with authentic human speech patterns.".

Definition _heuristic_classify (features : dict float) : pyval :=
  let '(ai_score, reasons) := heuristic_scoring features in
  let '(classification, explanation) :=
    if fge ai_score (dec 5 (-1))
    then (AI_GENERATED, ai_explanation reasons)
    else (HUMAN, human_explanation) in
  let confidence := dec 55 (-2) in
  mk_result classification confidence (Str.take explanation 240).

(** [0 <= confidence <= 1] once [confidence] is known to be an int or a
    float; [bool] is a subclass of [int]. *)
Definition in_unit_interval (v : pyval) : bool :=
  match v with
  | PBool _ => true
  | PInt z => (0 <=? z)%Z && (z <=? 1)%Z
  | PFloat f => fle f0_0 f && fle f f1_0
  | _ => false
  end.

Definition is_int_or_float (v : pyval) : bool :=
  match v with
  | PBool _ | PInt _ | PFloat _ => true
  | _ => false
  end.

Definition is_enum_value (v : pyval) : bool :=
  is_str AI_GENERATED v || is_str HUMAN v.

Definition _validate_result (result : pyval) : bool :=
  match result with
  | PDict d =>
      let classification := Dict.get_default "classification" PNone d in
      let confidence := Dict.get_default "confidence" PNone d in
      let explanation := Dict.get_default "explanation" PNone d in
      if negb (is_enum_value classification) then false
      else if negb (is_int_or_float confidence) || negb (in_unit_interval confidence)
      then false
      else match explanation with
           | PStr s => if (Str.len s =? 0)%Z then false else true
           | _ => false
           end
  | _ => false
  end.

(** [classify_with_llm] stands for [self.ai_service.classify_with_llm]. *)
Definition classify
  (classify_with_llm : dict float -> string -> exc (option pyval))
  (features : dict float) (language : string) : exc pyval :=
  match classify_with_llm features language with
  | Return (Some result) =>
      if py_truthy result && _validate_result result
      then Return result
      else Return (_heuristic_classify features)
  | Return None => Return (_heuristic_classify features)
  | Raise _ => Return (_heuristic_classify features)
  end.

End DecisionService.

(** ** services/audio_service.py *)

(** A byte string; one [ascii] stands for one byte. *)
Definition bytes : Type := string.

(** The files of the temporary directory, by path. *)
Definition filesystem : Type := dict bytes.

Definition waveform : Type := list float.

(** The library calls of the acquisition step. *)
Record AcquisitionLib : Type := {
  (** [base64.b64decode(s)] *)
  b64decode : string -> exc bytes;
  (** [with open(path, "wb") as f: f.write(data)] *)
  write_file : string -> bytes -> filesystem -> exc filesystem
}.

(** The library calls of feature extraction.  The frames that numpy holds
    in single precision are represented by the binary64 numbers of the same
    value. *)
Record SignalLib : Type := {
  (** [librosa.load(path, sr=16000)] *)
  librosa_load : string -> filesystem -> exc waveform;
  librosa_get_duration : waveform -> float;
  (** [librosa.feature.rms(y=y)[0]] *)
  librosa_rms : waveform -> exc (list float);
  np_mean : list float -> float;
  (** [x * y] for a numpy scalar [x] of single precision and a Python
      float [y], in the precision that numpy chooses *)
  np_multiply : float -> float -> float;
  (** an element of [rms < t]: a frame of single precision against the
      threshold [t], in the precision that numpy chooses *)
  np_less : float -> float -> bool;
  (** the [f0] track of [librosa.pyin], NaN on unvoiced frames *)
  librosa_pyin : waveform -> exc (list float);
  np_var : list float -> float;
  (** [round(x, ndigits)] *)
  py_round : float -> Z -> float
}.

Module AudioService.

Definition decode_error (e : exn) : exn :=
  mk_exn ValueError ("Failed to decode base64 audio: " ++ exn_msg e).

Definition decode_base64 (A : AcquisitionLib) (base64_data output_path : string)
  (fs : filesystem) : exc filesystem :=
  try_except
    (base64_data <-
       (if Str.contains "," base64_data
        then match nth_error (Str.split "," base64_data) 1 with
             | Some field => Return field
             | None => Raise (mk_exn IndexError "list index out of range")
             end
        else Return base64_data) ;;
     audio_bytes <- b64decode A base64_data ;;
     write_file A output_path audio_bytes fs)
    (fun e => Raise (decode_error e)).

(** [np.maximum] of two numbers: a NaN wins. *)
Definition np_maximum (a b : float) : float :=
  if is_nan a then a else if is_nan b then b else if flt a b then b else a.

(** [np.max(xs)] *)
Definition np_max (xs : list float) : exc float :=
  match xs with
  | [] => Raise (mk_exn ValueError
            "zero-size array to reduction operation maximum which has no identity")
  | x :: r => Return (fold_left np_maximum r x)
  end.


Definition list_len {T : Type} (xs : list T) : Z := Z.of_nat (List.length xs).

(** [np.sum(rms < threshold)] *)
Definition np_sum_less (A : SignalLib) (rms : list float) (threshold : float) : Z :=
  Z.of_nat (List.length (filter (fun x => np_less A x threshold) rms)).

(** The "Silence detection" statements of [extract_features]. *)
Definition silence_detection (A : SignalLib) (rms : list float) : exc float :=
  m <- np_max rms ;;
  let silence_threshold := np_multiply A m (dec 1 (-1)) in
  let silence_frames := np_sum_less A rms silence_threshold in
  Return (if (list_len rms >? 0)%Z
          then fdiv (Z2F silence_frames) (Z2F (list_len rms))
          else f0_0).

Definition extraction_error (e : exn) : exn :=
  mk_exn ValueError ("Feature extraction failed: " ++ exn_msg e).

Definition extract_features (A : SignalLib) (wav_path : string)
  (fs : filesystem) : exc (dict float) :=
  try_except
    (y <- librosa_load A wav_path fs ;;
     let duration := librosa_get_duration A y in
     rms <- librosa_rms A y ;;
     let avg_volume := np_mean A rms in
     silence_ratio <- silence_detection A rms ;;
     f0 <- librosa_pyin A y ;;
     let voiced_f0 := filter (fun f => negb (is_nan f)) f0 in
     let pitch_variance :=
       if (list_len voiced_f0 >? 1)%Z
       then py_min (fdiv (np_var A voiced_f0) (Z2F 10000)) f1_0
       else f0_0 in
     Return [ ("duration", py_round A duration 2);
              ("silence_ratio", py_round A silence_ratio 4);
              ("avg_volume", py_round A avg_volume 6);
              ("pitch_variance", py_round A pitch_variance 4) ])
    (fun e => Raise (extraction_error e)).

End AudioService.

(** ** Executable instances of the library functions *)

Module Reference.

Definition digit_value (c : ascii) : option Z :=
  let n := nat_of_ascii c in
  if (48 <=? n)%nat && (n <=? 57)%nat then Some (Z.of_nat n - 48) else None.

(** The digits at the head of [s], as a number, their count and the rest. *)
Fixpoint read_digits (s : string) (acc : Z) (count : Z) : Z * Z * string :=
  match s with
  | EmptyString => (acc, count, s)
  | String c r =>
      match digit_value c with
      | Some d => read_digits r (10 * acc + d) (count + 1)
      | None => (acc, count, s)
      end
  end.

Definition signed (negative : bool) (f : float) : float :=
  if negative then SFopp f else f.

(** The float written [digits]e[exponent] with the given sign. *)
Definition decimal_float (negative : bool) (digits exponent : Z) : float :=
  signed negative (dec digits exponent).

(** An optional exponent part [e], [e+] or [e-] followed by digits. *)
Definition read_exponent (s : string) : option (Z * string) :=
  match s with
  | String c r =>
      if Ascii.eqb c "e" || Ascii.eqb c "E" then
        let '(negative, r') :=
          match r with
          | String "-" t => (true, t)
          | String "+" t => (false, t)
          | _ => (false, r)
          end in
        let '(e, n, rest) := read_digits r' 0 0 in
        if (n =? 0)%Z then None
        else Some (if negative then - e else e, rest)
      else None
  | EmptyString => None
  end.

(** A JSON number: an integer part without leading zero, then an optional
    fraction and an optional exponent.  Without both it is an [int]. *)
Definition read_number (s : string) : option (pyval * string) :=
  let '(negative, s1) :=
    match s with
    | String "-" t => (true, t)
    | _ => (false, s)
    end in
  let '(i, n, s2) := read_digits s1 0 0 in
  let leading_zero :=
    match s1 with String "0" _ => (1 <? n)%Z | _ => false end in
  if (n =? 0)%Z then None
  else
    let '(i, n, s2) := if leading_zero then (0, 1, substring 1 (String.length s1 - 1) s1)
                       else (i, n, s2) in
    let fraction :=
      match s2 with
      | String "." t =>
          let '(f, k, s3) := read_digits t 0 0 in
          if (k =? 0)%Z then None else Some (f, k, s3)
      | _ => None
      end in
    let '(digits, scale, s3, has_fraction) :=
      match fraction with
      | Some (f, k, s3) => (i * 10 ^ k + f, k, s3, true)
      | None => (i, 0, s2, false)
      end in
    match read_exponent s3 with
    | Some (e, s4) => Some (PFloat (decimal_float negative digits (e - scale)), s4)
    | None =>
        if has_fraction
        then Some (PFloat (decimal_float negative digits (- scale)), s3)
        else Some (PInt (if negative then - digits else digits), s3)
    end.

Definition hex_value (c : ascii) : option Z :=
  let n := nat_of_ascii c in
  if (48 <=? n)%nat && (n <=? 57)%nat then Some (Z.of_nat n - 48)
  else if (65 <=? n)%nat && (n <=? 70)%nat then Some (Z.of_nat n - 55)
  else if (97 <=? n)%nat && (n <=? 102)%nat then Some (Z.of_nat n - 87)
  else None.

Definition ascii_of_Z (z : Z) : ascii := ascii_of_nat (Z.to_nat z).

(** The double quote character. *)
Definition dquote : ascii := ascii_of_nat 34.

(** The four hexadecimal digits of a [\u] escape; only the characters of
    the 8-bit alphabet are represented. *)
Definition read_u_escape (s : string) : option (ascii * string) :=
  match s with
  | String a (String b (String c (String d r))) =>
      match hex_value a, hex_value b, hex_value c, hex_value d with
      | Some x, Some y, Some z, Some w =>
          let code := ((x * 16 + y) * 16 + z) * 16 + w in
          if (code <? 256)%Z then Some (ascii_of_Z code, r) else None
      | _, _, _, _ => None
      end
  | _ => None
  end.

(** The characters of a JSON string after its opening quote, up to the
    closing one. *)
Fixpoint read_string (fuel : nat) (s : string) : option (string * string) :=
  match fuel with
  | O => None
  | S fuel =>
      match s with
      | EmptyString => None
      | String c r =>
          if Ascii.eqb c dquote then Some (EmptyString, r)
          else if Ascii.eqb c "\" then
            match r with
            | String e r' =>
                let plain (x : ascii) :=
                  match read_string fuel r' with
                  | Some (t, rest) => Some (String x t, rest)
                  | None => None
                  end in
                if Ascii.eqb e dquote then plain dquote
                else if Ascii.eqb e "\" then plain "\"%char
                else if Ascii.eqb e "/" then plain "/"%char
                else if Ascii.eqb e "b" then plain (ascii_of_nat 8)
                else if Ascii.eqb e "f" then plain (ascii_of_nat 12)
                else if Ascii.eqb e "n" then plain (ascii_of_nat 10)
                else if Ascii.eqb e "r" then plain (ascii_of_nat 13)
                else if Ascii.eqb e "t" then plain (ascii_of_nat 9)
                else if Ascii.eqb e "u" then
                  match read_u_escape r' with
                  | Some (x, r'') =>
                      match read_string fuel r'' with
                      | Some (t, rest) => Some (String x t, rest)
                      | None => None
                      end
                  | None => None
                  end
                else None
            | EmptyString => None
            end
          else if (nat_of_ascii c <? 32)%nat then None
          else
            match read_string fuel r with
            | Some (t, rest) => Some (String c t, rest)
            | None => None
            end
      end
  end.

Definition is_json_space (c : ascii) : bool :=
  let n := nat_of_ascii c in
  (n =? 32)%nat || (n =? 9)%nat || (n =? 10)%nat || (n =? 13)%nat.

Fixpoint skip_ws (s : string) : string :=
  match s with
  | String c r => if is_json_space c then skip_ws r else s
  | EmptyString => s
  end.

Definition drop (n : nat) (s : string) : string :=
  substring n (String.length s - n) s.

(** A literal [word] at the head of [s]. *)
Definition read_word (word : string) (v : pyval) (s : string)
  : option (pyval * string) :=
  if prefix word s then Some (v, drop (String.length word) s) else None.

(** One JSON value at the head of [s] (after white space), and the rest.
    [members] reads the pairs of an object after its opening brace or a
    comma, [elements] the items of an array. *)
Fixpoint read_value (fuel : nat) (s : string) : option (pyval * string) :=
  match fuel with
  | O => None
  | S fuel =>
      match skip_ws s with
      | String "{" r =>
          match skip_ws r with
          | String "}" rest => Some (PDict [], rest)
          | _ =>
              match read_members fuel r [] with
              | Some (d, rest) => Some (PDict d, rest)
              | None => None
              end
          end
      | String "[" r =>
          match skip_ws r with
          | String "]" rest => Some (PList [], rest)
          | _ =>
              match read_elements fuel r with
              | Some (l, rest) => Some (PList l, rest)
              | None => None
              end
          end
      | String "n" _ as t => read_word "null" PNone t
      | String "t" _ as t => read_word "true" (PBool true) t
      | String "f" _ as t => read_word "false" (PBool false) t
      | String "N" _ as t => read_word "NaN" (PFloat S754_nan) t
      | String "I" _ as t => read_word "Infinity" (PFloat (S754_infinity false)) t
      | String "-" (String "I" _) as t =>
          read_word "-Infinity" (PFloat (S754_infinity true)) t
      | String c r as t =>
          if Ascii.eqb c dquote then
            match read_string (S (String.length r)) r with
            | Some (x, rest) => Some (PStr x, rest)
            | None => None
            end
          else read_number t
      | EmptyString => None
      end
  end
with read_members (fuel : nat) (s : string) (acc : dict pyval)
  : option (dict pyval * string) :=
  match fuel with
  | O => None
  | S fuel =>
      match skip_ws s with
      | String c r =>
          if negb (Ascii.eqb c dquote) then None
          else
            match read_string (S (String.length r)) r with
            | Some (key, r1) =>
                match skip_ws r1 with
                | String ":" r2 =>
                    match read_value fuel r2 with
                    | Some (v, r3) =>
                        let acc := Dict.set key v acc in
                        match skip_ws r3 with
                        | String "," r4 => read_members fuel r4 acc
                        | String "}" rest => Some (acc, rest)
                        | _ => None
                        end
                    | None => None
                    end
                | _ => None
                end
            | None => None
            end
      | EmptyString => None
      end
  end
with read_elements (fuel : nat) (s : string) : option (list pyval * string) :=
  match fuel with
  | O => None
  | S fuel =>
      match read_value fuel s with
      | Some (v, r) =>
          match skip_ws r with
          | String "," r' =>
              match read_elements fuel r' with
              | Some (l, rest) => Some (v :: l, rest)
              | None => None
              end
          | String "]" rest => Some ([v], rest)
          | _ => None
          end
      | None => None
      end
  end.

Definition json_error : exn := mk_exn JSONDecodeError "Expecting value".

(** [json.loads]: one value, white space around it, and nothing else. *)
Definition json_loads (s : string) : exc pyval :=
  match read_value (2 * String.length s + 2) s with
  | Some (v, rest) =>
      match skip_ws rest with
      | EmptyString => Return v
      | _ => Raise (mk_exn JSONDecodeError "Extra data")
      end
  | None => Raise json_error
  end.

(** *** float() on a string *)

Definition lower_char (c : ascii) : ascii :=
  let n := nat_of_ascii c in
  if (65 <=? n)%nat && (n <=? 90)%nat then ascii_of_nat (n + 32) else c.

Definition is_digit (c : ascii) : bool :=
  match digit_value c with Some _ => true | None => false end.

(** Underscores are accepted between two digits and carry no value. *)
Fixpoint drop_underscores (previous_is_digit : bool) (s : string)
  : option string :=
  match s with
  | EmptyString => Some EmptyString
  | String c r =>
      if Ascii.eqb c "_" then
        match r with
        | String d _ =>
            if previous_is_digit && is_digit d then drop_underscores false r
            else None
        | EmptyString => None
        end
      else
        match drop_underscores (is_digit c) r with
        | Some t => Some (String c t)
        | None => None
        end
  end.

Definition float_error : exn :=
  mk_exn ValueError "could not convert string to float".

(** Digits with an optional point, at least one digit in all, and an
    optional exponent; nothing may follow. *)
Definition read_decimal (negative : bool) (s : string) : exc float :=
  let '(i, n, s1) := read_digits s 0 0 in
  let '(f, k, s2) :=
    match s1 with
    | String "." t => read_digits t 0 0
    | _ => (0, 0, s1)
    end in
  if (n + k =? 0)%Z then Raise float_error
  else
    let digits := i * 10 ^ k + f in
    match s2 with
    | EmptyString => Return (decimal_float negative digits (- k))
    | _ =>
        match read_exponent s2 with
        | Some (e, EmptyString) => Return (decimal_float negative digits (e - k))
        | _ => Raise float_error
        end
    end.

Definition float_of_str (s : string) : exc float :=
  let s := Str.strip s in
  let '(negative, body) :=
    match s with
    | String "-" t => (true, t)
    | String "+" t => (false, t)
    | _ => (false, s)
    end in
  let word := Str.map lower_char body in
  if String.eqb word "inf" || String.eqb word "infinity"
  then Return (S754_infinity negative)
  else if String.eqb word "nan" then Return S754_nan
  else
    match drop_underscores false body with
    | Some plain => read_decimal negative plain
    | None => Raise float_error
    end.

(** *** base64.b64decode *)

Definition b64_value (c : ascii) : option Z :=
  let n := nat_of_ascii c in
  if (65 <=? n)%nat && (n <=? 90)%nat then Some (Z.of_nat n - 65)
  else if (97 <=? n)%nat && (n <=? 122)%nat then Some (Z.of_nat n - 71)
  else if (48 <=? n)%nat && (n <=? 57)%nat then Some (Z.of_nat n + 4)
  else if (n =? 43)%nat then Some 62
  else if (n =? 47)%nat then Some 63
  else None.

Definition byte_of (z : Z) : ascii := ascii_of_Z (Z.land z 255).

Definition emit (b : ascii) (rest : exc bytes) : exc bytes :=
  out <- rest ;; Return (String b out).

Definition string_of_Z (z : Z) : string :=
  DecimalString.NilZero.string_of_int (Z.to_int z).

Definition one_extra_character (written : Z) : exn :=
  mk_exn BinasciiError
    ("Invalid base64-encoded string: number of data characters ("
     ++ string_of_Z (written / 3 * 4 + 1)
     ++ ") cannot be 1 more than a multiple of 4").

Definition incorrect_padding : exn := mk_exn BinasciiError "Incorrect padding".

(** The decoding loop of the non-strict mode: a character outside the
    alphabet is skipped, a pad sequence that completes a quad ends the
    input, and the data characters must not stop inside a quad.
    [quad_pos] is the position in the current quad, [leftchar] the bits
    not yet written, [pads] the pads seen in a row, [written] the number
    of bytes produced so far. *)
Fixpoint a2b_base64 (s : string) (quad_pos leftchar pads written : Z)
  : exc bytes :=
  match s with
  | EmptyString =>
      if (quad_pos =? 0)%Z then Return EmptyString
      else if (quad_pos =? 1)%Z then Raise (one_extra_character written)
      else Raise incorrect_padding
  | String c r =>
      if Ascii.eqb c "=" then
        if (2 <=? quad_pos)%Z && (4 <=? quad_pos + (pads + 1))%Z
        then Return EmptyString
        else a2b_base64 r quad_pos leftchar
               (if (2 <=? quad_pos)%Z then pads + 1 else pads) written
      else
        match b64_value c with
        | None => a2b_base64 r quad_pos leftchar pads written
        | Some v =>
            if (quad_pos =? 0)%Z then a2b_base64 r 1 v 0 written
            else if (quad_pos =? 1)%Z then
              emit (byte_of (Z.lor (Z.shiftl leftchar 2) (Z.shiftr v 4)))
                   (a2b_base64 r 2 (Z.land v 15) 0 (written + 1))
            else if (quad_pos =? 2)%Z then
              emit (byte_of (Z.lor (Z.shiftl leftchar 4) (Z.shiftr v 2)))
                   (a2b_base64 r 3 (Z.land v 3) 0 (written + 1))
            else
              emit (byte_of (Z.lor (Z.shiftl leftchar 6) v))
                   (a2b_base64 r 0 0 0 (written + 1))
        end
  end.

Fixpoint all_ascii (s : string) : bool :=
  match s with
  | EmptyString => true
  | String c r => (nat_of_ascii c <? 128)%nat && all_ascii r
  end.

(** [base64.b64decode(s)] for a [str]: the text is encoded to ASCII, then
    decoded without validation. *)
Definition b64decode (s : string) : exc bytes :=
  if all_ascii s then a2b_base64 s 0 0 0 0
  else Raise (mk_exn ValueError
                "string argument should contain only ASCII characters").

(** Writing succeeds on every path but the empty one. *)
Definition write_file (path : string) (data : bytes) (fs : filesystem)
  : exc filesystem :=
  if String.eqb path EmptyString
  then Raise (mk_exn OSError "[Errno 2] No such file or directory: ''")
  else Return (Dict.set path data fs).


(** *** str() on a value that is not a string *)

(** [num / den >= 10 ^ k] for positive [num] and [den]. *)
Definition at_least_pow10 (num den k : Z) : bool :=
  if (0 <=? k)%Z then (den * 10 ^ k <=? num)%Z
  else (den <=? num * 10 ^ (- k))%Z.

(** The [k] with [10 ^ (k - 1) <= num / den < 10 ^ k], searched from [k]. *)
Fixpoint decimal_exponent (fuel : nat) (num den k : Z) : Z :=
  match fuel with
  | O => k
  | S fuel =>
      if at_least_pow10 num den k then decimal_exponent fuel num den (k + 1)
      else if at_least_pow10 num den (k - 1) then k
      else decimal_exponent fuel num den (k - 1)
  end.

(** The shortest decimal [digits]e[exponent] that reads back as the
    positive float [m * 2 ^ e]: with [n] digits, the two decimals around
    the value are tried, the nearer one first. *)
Fixpoint shortest_digits (fuel : nat) (m : positive) (e : Z)
  (num den k n : Z) : Z * Z :=
  let scale := n - k in
  let num' := if (0 <=? scale)%Z then num * 10 ^ scale else num in
  let den' := if (0 <=? scale)%Z then den else den * 10 ^ (- scale) in
  let lo := num' / den' in
  let hi := lo + 1 in
  let reads_back (c : Z) := SFeqb (dec c (k - n)) (S754_finite false m e) in
  let lo_nearer := (2 * num' <=? (lo + hi) * den')%Z in
  match fuel with
  | O => (if lo_nearer then lo else hi, k - n)
  | S fuel =>
      if lo_nearer && reads_back lo then (lo, k - n)
      else if reads_back hi then (hi, k - n)
      else if reads_back lo then (lo, k - n)
      else shortest_digits fuel m e num den k (n + 1)
  end.

Fixpoint zeros (n : nat) : string :=
  match n with
  | O => EmptyString
  | S n => String "0" (zeros n)
  end.

Definition two_digits (z : Z) : string :=
  if (z <? 10)%Z then String "0" (string_of_Z z) else string_of_Z z.

(** The layout of [repr]: plain notation when the decimal exponent is
    between -4 and 15, scientific notation otherwise. *)
Definition layout (digits point : Z) : string :=
  let d := string_of_Z digits in
  let n := Str.len d in
  let point := point + n in
  if (point - 1 <? -4)%Z || (16 <=? point - 1)%Z then
    let mantissa :=
      if (n =? 1)%Z then d
      else Str.slice d 0 1 ++ "." ++ Str.slice d 1 n in
    let x := point - 1 in
    mantissa ++ "e" ++ (if (x <? 0)%Z then "-" else "+") ++ two_digits (Z.abs x)
  else if (point <=? 0)%Z then "0." ++ zeros (Z.to_nat (- point)) ++ d
  else if (n <=? point)%Z then d ++ zeros (Z.to_nat (point - n)) ++ ".0"
  else Str.slice d 0 point ++ "." ++ Str.slice d point n.

(** Trailing zeros of the digits are moved into the exponent. *)
Fixpoint trim_zeros (fuel : nat) (digits exponent : Z) : Z * Z :=
  match fuel with
  | O => (digits, exponent)
  | S fuel =>
      if (digits mod 10 =? 0)%Z && negb (digits =? 0)%Z
      then trim_zeros fuel (digits / 10) (exponent + 1)
      else (digits, exponent)
  end.

Definition float_repr (f : float) : string :=
  match f with
  | S754_nan => "nan"
  | S754_infinity s => if s then "-inf" else "inf"
  | S754_zero s => if s then "-0.0" else "0.0"
  | S754_finite s m e =>
      let num := if (0 <=? e)%Z then Zpos m * 2 ^ e else Zpos m in
      let den := if (0 <=? e)%Z then 1 else 2 ^ (- e) in
      let k := decimal_exponent 800 num den 0 in
      let '(digits, exponent) := shortest_digits 17 m e num den k 1 in
      let '(digits, exponent) := trim_zeros 20 digits exponent in
      (if s then "-" else EmptyString) ++ layout digits exponent
  end.

Definition hex_digit (z : Z) : ascii :=
  if (z <? 10)%Z then ascii_of_Z (48 + z) else ascii_of_Z (87 + z).

Definition is_printable (n : nat) : bool :=
  ((32 <=? n)%nat && (n <? 127)%nat)
  || ((161 <=? n)%nat && negb (n =? 173)%nat).

Definition squote : ascii := ascii_of_nat 39.

(** The escapes of [repr] on a string delimited by [quote]. *)
Fixpoint escape (quote : ascii) (s : string) : string :=
  match s with
  | EmptyString => EmptyString
  | String c r =>
      let n := nat_of_ascii c in
      let head :=
        if Ascii.eqb c quote || Ascii.eqb c "\" then String "\" (String c EmptyString)
        else if (n =? 9)%nat then "\t"
        else if (n =? 10)%nat then "\n"
        else if (n =? 13)%nat then "\r"
        else if is_printable n then String c EmptyString
        else String "\" (String "x" (String (hex_digit (Z.of_nat n / 16))
               (String (hex_digit (Z.of_nat n mod 16)) EmptyString))) in
      head ++ escape quote r
  end.

Definition has_char (c : ascii) (s : string) : bool :=
  Str.contains (String c EmptyString) s.

Definition str_repr (s : string) : string :=
  let quote :=
    if has_char squote s && negb (has_char dquote s) then dquote else squote in
  String quote (escape quote s ++ String quote EmptyString).

Fixpoint repr (v : pyval) : string :=
  match v with
  | PNone => "None"
  | PBool b => if b then "True" else "False"
  | PInt z => string_of_Z z
  | PFloat f => float_repr f
  | PStr s => str_repr s
  | PList l => "[" ++ Str.join ", " (List.map repr l) ++ "]"
  | PDict d =>
      "{" ++ Str.join ", "
               (List.map (fun kv => let '(k, x) := kv in
                                    str_repr k ++ ": " ++ repr x) d)
      ++ "}"
  end.

(** [upper] is the case mapping of ASCII letters. *)
Definition lib : Library := Build_Library json_loads float_of_str repr Str.upper.

Definition acquisition : AcquisitionLib := Build_AcquisitionLib b64decode write_file.

End Reference.

(** ** Notions used in the statements *)

(** [r.get(k)] on a result *)
Definition field (k : string) (r : pyval) : option pyval :=
  match r with
  | PDict d => Dict.get k d
  | _ => None
  end.

(** The three tests of [_heuristic_classify]. *)
Definition low_pitch_variance (features : dict float) : bool :=
  flt (Dict.get_default "pitch_variance" (dec 5 (-1)) features) (dec 15 (-2)).

Definition low_silence_ratio (features : dict float) : bool :=
  flt (Dict.get_default "silence_ratio" (dec 1 (-1)) features) (dec 5 (-2)).

Definition normalized_volume (features : dict float) : bool :=
  flt (dec 3 (-2)) (Dict.get_default "avg_volume" (dec 5 (-2)) features)
  && flt (Dict.get_default "avg_volume" (dec 5 (-2)) features) (dec 8 (-2)).

(** The score in the words of the specification: start from 0.0, add 0.4,
    0.3 and 0.2 for the tests that hold, in this order. *)
Definition accumulated_score (low_pitch low_silence normalized : bool) : float :=
  let score := f0_0 in
  let score := if low_pitch then fadd score (dec 4 (-1)) else score in
  let score := if low_silence then fadd score (dec 3 (-1)) else score in
  if normalized then fadd score (dec 2 (-1)) else score.

(** A feature set on which the three tests hold. *)
Definition features_example : FeatureSet :=
  mk_features (dec 3 0) (dec 1 (-2)) (dec 5 (-2)) (dec 1 (-1)).

(** The validity check in the words of the specification: the
    classification is exactly one of the two enum values, the confidence
    is a number in [0, 1] (Python counts [bool] among the integers), and
    the explanation is a non-empty string. *)
Definition number_in_unit_interval (v : pyval) : Prop :=
  match v with
  | PBool _ => True
  | PInt z => (0 <= z <= 1)%Z
  | PFloat f => fle f0_0 f = true /\ fle f f1_0 = true
  | _ => False
  end.

Definition valid_llm_result (r : pyval) : Prop :=
  exists d, r = PDict d
  /\ (Dict.get "classification" d = Some (PStr AI_GENERATED)
      \/ Dict.get "classification" d = Some (PStr HUMAN))
  /\ (exists c, Dict.get "confidence" d = Some c /\ number_in_unit_interval c)
  /\ (exists e, Dict.get "explanation" d = Some (PStr e) /\ e <> EmptyString).

(** The parser on a reply whose JSON text decodes to the dictionary [d],
    as a function of [d]: the dictionary after the two defaults, the
    dictionary after the three rewrites, and the value returned. *)
Definition with_defaults (d : dict pyval) : dict pyval :=
  let d :=
    if Dict.mem "confidence" d then d
    else Dict.set "confidence" (PFloat AIService.default_confidence) d in
  if Dict.mem "explanation" d then d
  else Dict.set "explanation" (PStr AIService.default_explanation) d.

Definition rewritten (L : Library) (d : dict pyval) (raw : string)
  (confidence : float) (explanation : pyval) : dict pyval :=
  Dict.set "explanation" (PStr (Str.take (AIService.py_str L explanation) 240))
    (Dict.set "confidence" (PFloat (AIService.clamp01 confidence))
       (Dict.set "confidence" (PFloat confidence)
          (Dict.set "classification"
             (PStr (AIService.normalize_classification L raw)) d))).

Definition parse_outcome (L : Library) (d : dict pyval) : option pyval :=
  match Dict.get "classification" d with
  | Some (PStr raw) =>
      let d1 := with_defaults d in
      match AIService.py_float L (Dict.get_default "confidence" PNone d1) with
      | Return confidence =>
          Some (PDict (rewritten L d1 raw confidence
                         (Dict.get_default "explanation" PNone d1)))
      | Raise _ => None
      end
  | _ => None
  end.

(** The character [c] occurs in [s]. *)
Definition occurs (c : ascii) (s : string) : Prop :=
  In c (list_ascii_of_string s).

Definition char (c : ascii) : string := String c EmptyString.

(** The invariant of a classification result. *)
Definition well_formed_result (r : pyval) : Prop :=
  (field "classification" r = Some (PStr AI_GENERATED)
   \/ field "classification" r = Some (PStr HUMAN))
  /\ (exists c, field "confidence" r = Some (PFloat c)
               /\ fle f0_0 c = true /\ fle c f1_0 = true)
  /\ (exists e, field "explanation" r = Some (PStr e) /\ (Str.len e <= 240)%Z).

(** [s] between double quotes. *)
Definition quoted (s : string) : string :=
  String Reference.dquote (s ++ String Reference.dquote EmptyString).

(** The reply of the specification's example: a JSON object with the
    classification ai, the confidence 2 and the explanation x, between two
    words. *)
Definition reply_example : string :=
  "blah {" ++ quoted "classification" ++ ":" ++ quoted "ai" ++ ","
  ++ quoted "confidence" ++ ":2," ++ quoted "explanation" ++ ":" ++ quoted "x"
  ++ "} blah".


(** A reply whose classification is the number 1 and whose explanation is
    the empty string. *)
Definition reply_numeric_empty : string :=
  "{" ++ quoted "classification" ++ ":1," ++ quoted "explanation" ++ ":"
  ++ quoted EmptyString ++ "}".

(** A reply with a classification only. *)
Definition reply_classification_only : string :=
  "{" ++ quoted "classification" ++ ":" ++ quoted "human" ++ "}".

(** A reply with a classification and an empty explanation. *)
Definition reply_empty_explanation : string :=
  "{" ++ quoted "classification" ++ ":" ++ quoted "HUMAN" ++ ","
  ++ quoted "explanation" ++ ":" ++ quoted EmptyString ++ "}".

(** The JSON text of [reply_example] and the dictionary it decodes to. *)
Definition json_example : string :=
  "{" ++ quoted "classification" ++ ":" ++ quoted "ai" ++ ","
  ++ quoted "confidence" ++ ":2," ++ quoted "explanation" ++ ":" ++ quoted "x"
  ++ "}".


(** A provider that answers with the given text. *)
Definition answering (reply : string) : LLMAdapter.Providers :=
  LLMAdapter.Build_Providers
    (fun _ _ => Return (Some reply))
    (fun _ _ => Return (Some reply))
    (fun _ _ => Return (Some reply)).

Definition some_adapter : LLMAdapter.t :=
  LLMAdapter.Build_t "gemini" "secret" "gemini-1.5-flash".


(** The text that [decode_base64] hands to the decoder. *)
Definition payload (base64_data : string) : string :=
  if Str.contains "," base64_data
  then nth 1 (Str.split "," base64_data) EmptyString
  else base64_data.

(** Acquisition in the words of the specification: the prefix up to the
    first comma is removed and the remainder is decoded. *)
Definition after_first_comma (base64_data : string) : string :=
  if Str.contains "," base64_data
  then Str.slice base64_data (Str.find "," base64_data + 1) (Str.len base64_data)
  else base64_data.

Definition decode_remainder (A : AcquisitionLib) (base64_data output_path : string)
  (fs : filesystem) : exc filesystem :=
  try_except
    (audio_bytes <- b64decode A (after_first_comma base64_data) ;;
     write_file A output_path audio_bytes fs)
    (fun e => Raise (AudioService.decode_error e)).

(** Well-formed base64 text (RFC 4648): a multiple of four characters of
    the alphabet, the last one or two of which may be pads. *)
Fixpoint all_alphabet (s : string) : bool :=
  match s with
  | EmptyString => true
  | String c r =>
      match Reference.b64_value c with
      | Some _ => all_alphabet r
      | None => false
      end
  end.

Definition rfc4648_well_formed (s : string) : bool :=
  let n := Str.len s in
  (n mod 4 =? 0)%Z
  && (all_alphabet s
      || ((4 <=? n)%Z
          && ((all_alphabet (Str.slice s 0 (n - 1))
               && String.eqb (Str.slice s (n - 1) n) "=")
              || (all_alphabet (Str.slice s 0 (n - 2))
                  && String.eqb (Str.slice s (n - 2) n) "==")))).

(** ** controllers/detect.py *)

(** A step that reads and writes the temporary files: it gives a value or
    raises, and leaves a file system behind in both cases. *)
Definition io (A : Type) : Type := filesystem -> exc A * filesystem.

Definition io_bind {A B : Type} (c : io A) (k : A -> io B) : io B :=
  fun fs =>
    match c fs with
    | (Return a, fs') => k a fs'
    | (Raise e, fs') => (Raise e, fs')
    end.

Definition io_raise {A : Type} (e : exn) : io A := fun fs => (Raise e, fs).

(** [del d[k]] on a dictionary that has the key; nothing otherwise. *)
Fixpoint dict_remove {V : Type} (k : string) (d : dict V) : dict V :=
  match d with
  | [] => []
  | (k', v) :: r =>
      if String.eqb k k' then dict_remove k r else (k', v) :: dict_remove k r
  end.

(** [bool(s)] for an optional string: None and the empty string are
    false. *)
Definition given (s : option string) : bool :=
  match s with
  | Some t => negb (String.eqb t EmptyString)
  | None => false
  end.

Definition text (s : option string) : string :=
  match s with Some t => t | None => EmptyString end.

(** [os.path.join(a, b)] on POSIX paths. *)
Definition ends_with_slash (a : string) : bool :=
  String.eqb (Str.slice a (Str.len a - 1) (Str.len a)) "/".

Definition os_path_join (a b : string) : string :=
  if prefix "/" b then b
  else if String.eqb a EmptyString || ends_with_slash a then a ++ b
  else a ++ "/" ++ b.

Module DetectController.

(** The two collaborators held in [self.audio_service] and
    [self.decision_service]. *)
Record Services : Type := {
  download_audio : string -> string -> io unit;
  decode_base64 : string -> string -> io unit;
  convert_to_wav : string -> string -> io unit;
  extract_features : string -> io (dict float);
  classify : dict float -> string -> exc pyval
}.

Definition input_path (temp_dir file_id : string) : string :=
  os_path_join temp_dir (file_id ++ "_input.mp3").

Definition wav_path (temp_dir file_id : string) : string :=
  os_path_join temp_dir (file_id ++ "_processed.wav").

(** The statements of the [try] block after the file names are chosen. *)
Definition pipeline (S : Services) (input_path wav_path : string)
  (audio_url audio_base64 : option string) (language : string) : io pyval :=
  io_bind
    (if given audio_url then download_audio S (text audio_url) input_path
     else if given audio_base64 then decode_base64 S (text audio_base64) input_path
     else io_raise (mk_exn ValueError "No audio provided"))
    (fun _ =>
       io_bind (convert_to_wav S input_path wav_path)
         (fun _ =>
            io_bind (extract_features S wav_path)
              (fun features fs => (classify S features language, fs)))).

(** One round of the clean-up loop: the file is removed if it exists, and
    a failure of the removal is only reported. *)
Definition remove_if_exists (os_remove : string -> filesystem -> exc filesystem)
  (temp_file : string) (fs : filesystem) : filesystem :=
  if Dict.mem temp_file fs then
    match os_remove temp_file fs with
    | Return fs' => fs'
    | Raise _ => fs
    end
  else fs.

Definition cleanup (os_remove : string -> filesystem -> exc filesystem)
  (temp_files : list string) (fs : filesystem) : filesystem :=
  fold_left (fun fs temp_file => remove_if_exists os_remove temp_file fs)
    temp_files fs.

(** [file_id] is the identifier drawn from [uuid.uuid4()]. *)
Definition detect (S : Services)
  (os_remove : string -> filesystem -> exc filesystem)
  (temp_dir file_id : string)
  (audio_url audio_base64 : option string) (language : string) : io pyval :=
  fun fs =>
    let input_path := input_path temp_dir file_id in
    let wav_path := wav_path temp_dir file_id in
    let temp_files := [input_path; wav_path] in
    let '(outcome, fs') :=
      pipeline S input_path wav_path audio_url audio_base64 language fs in
    (outcome, cleanup os_remove temp_files fs').

(** [__init__]: [new_services] is the construction of the two services,
    [AudioService()] and [DecisionService()], which may raise, and
    [os_makedirs] is [os.makedirs(path, exist_ok=True)]. *)
Definition __init__ (new_services : exc Services)
  (os_makedirs : string -> io unit) (temp_dir : string) : io Services :=
  fun fs =>
    match new_services with
    | Raise e => (Raise e, fs)
    | Return self =>
        match os_makedirs temp_dir fs with
        | (Return _, fs') => (Return self, fs')
        | (Raise e, fs') => (Raise e, fs')
        end
    end.

End DetectController.

(** ** utils/validators.py and utils/prompts.py *)

Module Validators.

Fixpoint str_filter (keep : ascii -> bool) (s : string) : string :=
  match s with
  | EmptyString => EmptyString
  | String c r => if keep c then String c (str_filter keep r) else str_filter keep r
  end.

(** The characters of the class [/\\:\x00]. *)
Definition is_separator (c : ascii) : bool :=
  let n := nat_of_ascii c in
  (n =? 47)%nat || (n =? 92)%nat || (n =? 58)%nat || (n =? 0)%nat.

(** [s.lstrip('.')] *)
Fixpoint lstrip_dots (s : string) : string :=
  match s with
  | String c r => if Ascii.eqb c "." then lstrip_dots r else s
  | EmptyString => EmptyString
  end.

Definition sanitize_filename (filename : string) : string :=
  let filename := str_filter (fun c => negb (is_separator c)) filename in
  let filename := lstrip_dots filename in
  if negb (String.eqb filename EmptyString) then Str.take filename 100
  else "audio".

(** [s.lower()] *)
Definition lower (s : string) : string := Str.map Reference.lower_char s.

Definition supported : list string := ["en"; "hi"; "ta"; "te"; "ml"].

Definition validate_language (code : string) : bool :=
  existsb (String.eqb (lower code)) supported.

Definition languages : dict string :=
  [ ("en", "English"); ("hi", "Hindi"); ("ta", "Tamil");
    ("te", "Telugu"); ("ml", "Malayalam") ].

Definition get_language_name (code : string) : string :=
  Dict.get_default code "Unknown" languages.

End Validators.

(** ** The services of the controller, from the two service classes *)

(** The wrapper of [download_audio]: [requests_get] stands for the body of
    the [try] block (the request, the status check and the chunks written
    to the file) and [is_request_exception] tells a
    [requests.RequestException] from another exception. *)
Record Downloader : Type := {
  requests_get : string -> string -> io unit;
  is_request_exception : exn -> bool
}.

Definition download_error (e : exn) : exn :=
  mk_exn ValueError ("Failed to download audio: " ++ exn_msg e).

Definition download_audio (D : Downloader) (url output_path : string) : io unit :=
  fun fs =>
    match requests_get D url output_path fs with
    | (Raise e, fs') =>
        if is_request_exception D e
        then (Raise (download_error e), fs')
        else (Raise e, fs')
    | ok => ok
    end.

(** The wrapper of [convert_to_wav]: [ffmpeg_run] is the transcoder call,
    [is_ffmpeg_error] tells an [ffmpeg.Error] from another exception and
    [error_text] is [e.stderr.decode() if e.stderr else str(e)], which
    raises when the captured bytes do not decode. *)
Record Transcoder : Type := {
  ffmpeg_run : string -> string -> io unit;
  is_ffmpeg_error : exn -> bool;
  error_text : exn -> exc string
}.

Definition conversion_error (error_msg : string) : exn :=
  mk_exn ValueError ("Audio conversion failed: " ++ error_msg).

Definition convert_to_wav (T : Transcoder) (input_path output_path : string)
  : io unit :=
  fun fs =>
    match ffmpeg_run T input_path output_path fs with
    | (Raise e, fs') =>
        if is_ffmpeg_error T e
        then
          match error_text T e with
          | Return error_msg => (Raise (conversion_error error_msg), fs')
          | Raise e' => (Raise e', fs')
          end
        else (Raise e, fs')
    | ok => ok
    end.

(** A service step of type [filesystem -> exc filesystem] as an [io] step;
    [residue] is what a failed step leaves behind. *)
Definition writes (residue : filesystem -> filesystem)
  (step : filesystem -> exc filesystem) : io unit :=
  fun fs =>
    match step fs with
    | Return fs' => (Return tt, fs')
    | Raise e => (Raise e, residue fs)
    end.

Definition reads {A : Type} (step : filesystem -> exc A) : io A :=
  fun fs => (step fs, fs).

(** The controller's collaborators, built from the two service classes. *)
Definition services
  (D : Downloader) (A : AcquisitionLib) (residue : filesystem -> filesystem)
  (T : Transcoder) (G : SignalLib)
  (llm : dict float -> string -> exc (option pyval))
  : DetectController.Services :=
  DetectController.Build_Services
    (download_audio D)
    (fun base64_data output_path =>
       writes residue (AudioService.decode_base64 A base64_data output_path))
    (convert_to_wav T)
    (fun wav_path => reads (AudioService.extract_features G wav_path))
    (DecisionService.classify llm).

(** ** utils/prompts.py: the prompt *)

Module Prompts.

(** The three format specifications of the template, on a float:
    [format(x, '')], [format(x, '.2%')] and [format(x, '.<n>f')]. *)
Record Formatting : Type := {
  format_plain : float -> string;
  format_percent : float -> string;
  format_fixed : Z -> float -> string
}.

Definition newline : string := String (ascii_of_nat 10) EmptyString.

(** The lines of a text, joined by newlines. *)
Definition lines (ls : list string) : string := Str.join newline ls.

(** [features.get(k, 0)] under a format: the default is the integer 0. *)
Definition formatted (format : float -> string) (zero : string)
  (k : string) (features : dict float) : string :=
  match Dict.get k features with
  | Some x => format x
  | None => zero
  end.

(** The lines of [features_str] before the language. *)
Definition measurements (F : Formatting) (features : dict float) : list string :=
  [ EmptyString;
    "- Duration: " ++ formatted (format_plain F) "0" "duration" features
      ++ " seconds";
    "- Silence Ratio: "
      ++ formatted (format_percent F) "0.00%" "silence_ratio" features;
    "- Average Volume (RMS): "
      ++ formatted (format_fixed F 6) "0.000000" "avg_volume" features;
    "- Pitch Variance (normalized): "
      ++ formatted (format_fixed F 4) "0.0000" "pitch_variance" features ].

Definition features_str (F : Formatting) (features : dict float)
  (language : string) : string :=
  lines (measurements F features ++ ["- Language: " ++ language; EmptyString]).

(** The lines of the template before and after [features_str]; the arrow
    of the rules is held as the bytes of its UTF-8 encoding. *)
Definition preamble : list string :=
  [ "You are an audio forensic analyst specializing in detecting AI-generated speech.";
    EmptyString;
    "Given the following voice audio features:" ].

Definition instructions : list string :=
  [ EmptyString;
    "ANALYSIS RULES:";
    "- Overly consistent pitch (low pitch_variance < 0.15) → Suggests AI generation";
    "- Lack of micro-pauses (low silence_ratio < 0.05) → Suggests AI generation  ";
    "- Very normalized volume levels → Suggests AI processing";
    "- Natural pitch variation → Suggests human speech";
    "- Presence of breathing pauses → Suggests human speech";
    "- Variable volume dynamics → Suggests human speech";
    EmptyString;
    "Based on these features and rules, determine if this audio is AI-generated or authentic human speech.";
    EmptyString;
    "Return ONLY a valid JSON object with this exact structure:";
    "{";
    "    " ++ quoted "classification" ++ ": " ++ quoted "AI_GENERATED"
      ++ " or " ++ quoted "HUMAN" ++ ",";
    "    " ++ quoted "confidence" ++ ": <number between 0 and 1>,";
    "    " ++ quoted "explanation" ++ ": "
      ++ quoted "<explanation in max 240 characters>";
    "}";
    EmptyString;
    "Important:";
    "- Return ONLY the JSON, no other text";
    "- Confidence should reflect certainty (0.5 = uncertain, 1.0 = very certain)";
    "- Explanation should be concise and technical" ].

Definition get_classification_prompt (F : Formatting) (features : dict float)
  (language : string) : string :=
  lines (preamble ++ features_str F features language :: instructions).

End Prompts.

(** ** config.py *)

Module Config.

(** The settings, with the values that the code finds in them. *)
Record Settings : Type := {
  API_KEY : pyval;
  LLM_API_KEY : pyval;
  LLM_PROVIDER : pyval;
  LLM_MODEL : pyval;
  MAX_AUDIO_DURATION : Z;
  TEMP_DIR : pyval
}.

(** The value returned by [validate_config]; the warnings it prints are
    left out. *)
Definition validate_config (settings : Settings) : bool :=
  let errors : list string := [] in
  let errors :=
    if negb (py_truthy (API_KEY settings))
    then (errors ++ ["API_KEY is not set"])%list
    else errors in
  let errors :=
    if negb (py_truthy (LLM_API_KEY settings))
    then (errors ++
          ["LLM_API_KEY is not set - LLM features will use fallback heuristics"])%list
    else errors in
  (List.length
     (filter (fun e => Str.contains "not set" e && negb (Str.contains "LLM" e))
        errors) =? 0)%nat.

End Config.

(** ** What a handler of the web framework does *)

(** A handler, or a dependency of one, returns a value or raises.  An
    [HTTPException] is an answer, with its status, detail and headers; any
    other exception leaves the handler. *)
Inductive raised : Type :=
  | HTTPException (status_code : Z) (detail : string) (headers : dict string)
  | Uncaught (e : exn).

Inductive handled (A : Type) : Type :=
  | Returned (a : A)
  | Failed (r : raised).

Arguments Returned {A} a.
Arguments Failed {A} r.

(** ** middleware/api_key.py *)

Module ApiKey.

(** [credentials] is the value of [Security(security)]: None, or the
    credentials of the Authorization header, of which the token is read. *)
Definition verify_api_key (settings : Config.Settings)
  (credentials : option string) : handled bool :=
  match credentials with
  | None =>
      Failed (HTTPException 401 "Missing authorization header"
                [("WWW-Authenticate", "Bearer")])
  | Some token =>
      if negb (is_str token (Config.API_KEY settings))
      then Failed (HTTPException 401 "Invalid API key"
                     [("WWW-Authenticate", "Bearer")])
      else Returned true
  end.

(** [authorization] is the Authorization header of the request, if any. *)
Definition get_api_key_from_header (authorization : option string)
  : option string :=
  let auth_header :=
    match authorization with Some h => h | None => EmptyString end in
  if prefix "Bearer " auth_header
  then Some (Str.slice auth_header 7 (Str.len auth_header))
  else None.

End ApiKey.

(** ** api/v1.py *)

Module ApiV1.

Record DetectRequest : Type := {
  audio_url : option string;
  audio_base64 : option string;
  language : string
}.

(** What the handler finds around it: the construction of the two
    services, [os.makedirs], [os.remove], the temporary directory of the
    settings, the identifier drawn from [uuid.uuid4()] and the constructor
    of the response model. *)
Record Environment : Type := {
  new_services : exc DetectController.Services;
  makedirs : string -> io unit;
  remove : string -> filesystem -> exc filesystem;
  temp_dir : string;
  file_id : string;
  DetectResponse : pyval -> exc pyval
}.

(** [except ValueError] also catches the subclasses of ValueError. *)
Definition is_ValueError (k : exn_kind) : bool :=
  match k with
  | ValueError | JSONDecodeError | BinasciiError => true
  | _ => false
  end.

Definition missing_audio : string :=
  "Missing audio: provide either audio_url or audio_base64".

(** The handler; its second argument is the value of the dependency
    [verify_api_key].  The controller is built before the [try] block, so
    an exception of its constructor leaves the handler. *)
Definition detect_voice (E : Environment) (request : DetectRequest) (_ : bool)
  (fs : filesystem) : handled pyval * filesystem :=
  if negb (given (audio_url request)) && negb (given (audio_base64 request))
  then (Failed (HTTPException 400 missing_audio []), fs)
  else
    match DetectController.__init__ (new_services E) (makedirs E) (temp_dir E) fs with
    | (Raise e, fs1) => (Failed (Uncaught e), fs1)
    | (Return controller, fs1) =>
        let '(outcome, fs2) :=
          DetectController.detect controller (remove E) (temp_dir E) (file_id E)
            (audio_url request) (audio_base64 request) (language request) fs1 in
        match (result <- outcome ;; DetectResponse E result) with
        | Return response => (Returned response, fs2)
        | Raise e =>
            if is_ValueError (exn_type e)
            then (Failed (HTTPException 422 (exn_msg e) []), fs2)
            else (Failed (HTTPException 500 "Internal server error" []), fs2)
        end
    end.

(** The route [POST /detect].  The framework resolves the dependencies
    first: [security] is what [HTTPBearer] makes of the Authorization
    header, and [verify_api_key] is run on its value.  What a dependency
    raises is the answer, and the handler is not run. *)
Definition post_detect (settings : Config.Settings)
  (security : handled (option string)) (E : Environment)
  (request : DetectRequest) (fs : filesystem) : handled pyval * filesystem :=
  match security with
  | Failed r => (Failed r, fs)
  | Returned credentials =>
      match ApiKey.verify_api_key settings credentials with
      | Failed r => (Failed r, fs)
      | Returned ok => detect_voice E request ok fs
      end
  end.

End ApiV1.

(** ** Notions used in the further statements *)

(** The statements of the [try] block of [detect] before the
    classification: acquisition, conversion and extraction. *)
Definition audio_steps (S : DetectController.Services)
  (input_path wav_path : string) (audio_url audio_base64 : option string)
  : io (dict float) :=
  io_bind
    (if given audio_url
     then DetectController.download_audio S (text audio_url) input_path
     else if given audio_base64
     then DetectController.decode_base64 S (text audio_base64) input_path
     else io_raise (mk_exn ValueError "No audio provided"))
    (fun _ =>
       io_bind (DetectController.convert_to_wav S input_path wav_path)
         (fun _ => DetectController.extract_features S wav_path)).

(** [os.remove] does its work: on a file that exists it returns, the file
    is gone and the other files are as they were. *)
Definition removes (os_remove : string -> filesystem -> exc filesystem) : Prop :=
  forall path fs,
    Dict.mem path fs = true ->
    exists fs',
      os_remove path fs = Return fs'
      /\ Dict.mem path fs' = false
      /\ (forall q, q <> path -> Dict.get q fs' = Dict.get q fs).

(** [os.remove] on the files of the model. *)
Definition os_remove (path : string) (fs : filesystem) : exc filesystem :=
  if Dict.mem path fs then Return (dict_remove path fs)
  else Raise (mk_exn OSError "[Errno 2] No such file or directory").

(** A response model that takes the three fields of a well-formed result
    and rejects every other value. *)
Definition strict_response (r : pyval) : exc pyval :=
  match field "classification" r, field "confidence" r, field "explanation" r with
  | Some (PStr c), Some (PFloat f), Some (PStr e) =>
      if (String.eqb c AI_GENERATED || String.eqb c HUMAN)
         && fle f0_0 f && fle f f1_0 && (Str.len e <=? 240)%Z
      then Return (mk_result c f e)
      else Raise (mk_exn ValueError "validation error for DetectResponse")
  | _, _, _ => Raise (mk_exn ValueError "validation error for DetectResponse")
  end.

(** Collaborators on which the pipeline can be run: a download that always
    fails, a transcoder that copies the file, and a signal library with one
    frame per byte, whose numpy takes the product of a single-precision
    scalar and a Python float in single precision (the rule of numpy 2). *)
Definition offline : Downloader :=
  Build_Downloader
    (fun _ _ fs => (Raise (mk_exn OSError "Network is unreachable"), fs))
    (fun _ => true).

Definition copying : Transcoder :=
  Build_Transcoder
    (fun input_path output_path fs =>
       match Dict.get input_path fs with
       | Some data => (Return tt, Dict.set output_path data fs)
       | None => (Raise (mk_exn OSError "No such file or directory"), fs)
       end)
    (fun _ => true)
    (fun e => Return (exn_msg e)).

Definition one_frame_per_byte : SignalLib :=
  Build_SignalLib
    (fun path fs =>
       match Dict.get path fs with
       | Some data => Return (List.map (fun _ => f1_0) (list_ascii_of_string data))
       | None => Raise (mk_exn OSError "No such file or directory")
       end)
    (fun y => Z2F (Z.of_nat (List.length y)))
    (fun y => Return y)
    (fun _ => dec 5 (-2))
    (fun x y => Float32.mul x (Float32.round y))
    flt
    (fun y => Return y)
    (fun _ => f0_0)
    (fun x _ => x).



(** What the handler does with the outcome of its [try] block. *)
Definition answer (outcome : exc pyval) : handled pyval :=
  match outcome with
  | Return response => Returned response
  | Raise e =>
      if ApiV1.is_ValueError (exn_type e)
      then Failed (HTTPException 422 (exn_msg e) [])
      else Failed (HTTPException 500 "Internal server error" [])
  end.

(** The statements of the [try] block of [detect] after the acquisition:
    conversion, extraction and classification. *)
Definition after_acquisition (S : DetectController.Services)
  (input_path wav_path language : string) : io pyval :=
  io_bind (DetectController.convert_to_wav S input_path wav_path)
    (fun _ =>
       io_bind (DetectController.extract_features S wav_path)
         (fun features fs => (DetectController.classify S features language, fs))).

(** A run of [detect] that starts with the acquisition step [acquire] on
    the input file of the request, goes on with the rest of the [try] block
    and ends with the clean-up. *)
Definition runs (acquire : string -> io unit) (S : DetectController.Services)
  (os_remove : string -> filesystem -> exc filesystem)
  (temp_dir file_id language : string) : io pyval :=
  fun fs =>
    let input_path := DetectController.input_path temp_dir file_id in
    let wav_path := DetectController.wav_path temp_dir file_id in
    match acquire input_path fs with
    | (Return _, fs1) =>
        (fst (after_acquisition S input_path wav_path language fs1),
         DetectController.cleanup os_remove [input_path; wav_path]
           (snd (after_acquisition S input_path wav_path language fs1)))
    | (Raise e, fs1) =>
        (Raise e, DetectController.cleanup os_remove [input_path; wav_path] fs1)
    end.

(** An environment of the handler with [os.remove] on the files of the
    model, the temporary directory 'app/tmp' and a fixed identifier. *)
Definition environment (new_services : exc DetectController.Services)
  (makedirs : string -> io unit) (DetectResponse : pyval -> exc pyval)
  : ApiV1.Environment :=
  ApiV1.Build_Environment new_services makedirs os_remove "app/tmp" "1a2b3c4d"
    DetectResponse.

(** The four messages of a failed audio step. *)
Definition audio_failure (detail : string) : Prop :=
  prefix "Failed to download audio: " detail = true
  \/ prefix "Failed to decode base64 audio: " detail = true
  \/ prefix "Audio conversion failed: " detail = true
  \/ prefix "Feature extraction failed: " detail = true.

(** A reply with a key that the parser does not know. *)
Definition reply_with_model : string :=
  "{" ++ quoted "classification" ++ ":" ++ quoted "HUMAN" ++ ","
  ++ quoted "model" ++ ":" ++ quoted "v1" ++ "}".

(** A reply whose explanation has 241 characters. *)
Definition long_text : string := string_of_list_ascii (repeat "a"%char 241).

Definition reply_long : string :=
  "{" ++ quoted "classification" ++ ":" ++ quoted "HUMAN" ++ ","
  ++ quoted "explanation" ++ ":" ++ quoted long_text ++ "}".

(** * Properties *)

Section Heuristic.

Import DecisionService.

Lemma heuristic_scoring_cases (features : dict float) :
  heuristic_scoring features =
  (let s1 := if low_pitch_variance features then fadd f0_0 (dec 4 (-1)) else f0_0 in
   let s2 := if low_silence_ratio features then fadd s1 (dec 3 (-1)) else s1 in
   if normalized_volume features then fadd s2 (dec 2 (-1)) else s2,
   ((if low_pitch_variance features then ["consistent pitch patterns"] else [])
    ++ (if low_silence_ratio features then ["minimal natural pauses"] else [])
    ++ (if normalized_volume features then ["normalized volume levels"] else []))%list).
Proof.
  unfold heuristic_scoring, low_pitch_variance, low_silence_ratio, normalized_volume.
  destruct (flt (Dict.get_default "pitch_variance" _ _) _);
    destruct (flt (Dict.get_default "silence_ratio" _ _) _);
    destruct (flt _ (Dict.get_default "avg_volume" _ _) && _);
    reflexivity.
Qed.

Lemma features_dict_tests (fs : FeatureSet) :
  low_pitch_variance (features_dict fs) = flt (pitch_variance fs) (dec 15 (-2))
  /\ low_silence_ratio (features_dict fs) = flt (silence_ratio fs) (dec 5 (-2))
  /\ normalized_volume (features_dict fs) =
       flt (dec 3 (-2)) (avg_volume fs) && flt (avg_volume fs) (dec 8 (-2)).
Proof. repeat split. Qed.

(** C9. Whenever the accumulated score reaches 0.5, the list of reasons is
    not empty, so the explanation of an AI_GENERATED verdict is built from
    the joined reasons and never from the literal 'synthetic
    characteristics'. *)
Theorem heuristic_reasons_nonempty (features : dict float) :
  fge (ai_score features) (dec 5 (-1)) = true ->
  reasons features <> []
  /\ Str.join ", " (reasons features) <> EmptyString
  /\ field "explanation" (_heuristic_classify features) =
       Some (PStr (Str.take ("Audio shows " ++ Str.join ", " (reasons features)
         ++ ". Features suggest machine-generated speech patterns.") 240)).
Proof.
  unfold ai_score, reasons, _heuristic_classify.
  rewrite heuristic_scoring_cases.
  destruct (low_pitch_variance features), (low_silence_ratio features),
    (normalized_volume features); cbn [fst snd];
    intros H; vm_compute in H; try discriminate H;
    (split; [ discriminate | split; [ vm_compute; discriminate | ] ]);
    vm_compute; reflexivity.
Qed.

Lemma heuristic_reasons_nonempty_witness :
  fge (ai_score (features_dict features_example)) (dec 5 (-1)) = true
  /\ reasons (features_dict features_example) <> [].
Proof.
  split.
  - vm_compute. reflexivity.
  - apply (heuristic_reasons_nonempty (features_dict features_example)).
    vm_compute. reflexivity.
Defined.

(** The verdict follows the test [ai_score >= 0.5], and the confidence is
    the constant 0.55. *)
Lemma heuristic_classify_fields (features : dict float) :
  field "classification" (_heuristic_classify features) =
    Some (PStr (if fge (ai_score features) (dec 5 (-1)) then AI_GENERATED else HUMAN))
  /\ field "confidence" (_heuristic_classify features) = Some (PFloat (dec 55 (-2))).
Proof.
  unfold _heuristic_classify, ai_score.
  destruct (heuristic_scoring features) as [score rs]; cbn [fst].
  destruct (fge score (dec 5 (-1))); split; reflexivity.
Qed.

Lemma ai_score_accumulated (features : dict float) :
  ai_score features =
  accumulated_score (low_pitch_variance features) (low_silence_ratio features)
    (normalized_volume features).
Proof.
  unfold ai_score. rewrite heuristic_scoring_cases. reflexivity.
Qed.

(** C1, as stated, fails: on a feature set where the three tests hold the
    accumulated score is the binary64 sum ((0.0 + 0.4) + 0.3) + 0.2, which
    is 0.8999999999999999 and differs from the float 0.9. *)
Lemma heuristic_score_is_not_0_9 :
  flt (pitch_variance features_example) (dec 15 (-2)) = true
  /\ flt (silence_ratio features_example) (dec 5 (-2)) = true
  /\ flt (dec 3 (-2)) (avg_volume features_example)
     && flt (avg_volume features_example) (dec 8 (-2)) = true
  /\ ai_score (features_dict features_example) <> dec 9 (-1)
  /\ feq (ai_score (features_dict features_example)) (dec 9 (-1)) = false
  /\ flt (ai_score (features_dict features_example)) (dec 9 (-1)) = true.
Proof.
  repeat split; try (vm_compute; reflexivity).
  vm_compute. discriminate.
Qed.

(** C1, amended. For every feature set the score starts from 0.0 and gains
    0.4, 0.3 and 0.2 (in binary64 arithmetic) for the tests
    pitch_variance < 0.15, silence_ratio < 0.05 and
    0.03 < avg_volume < 0.08; the verdict is AI_GENERATED exactly when the
    score is >= 0.5 and HUMAN otherwise; the confidence is 0.55 in both
    cases.  When the three tests hold the score is 0.8999999999999999 and
    the verdict is AI_GENERATED; when none holds the score is 0.0 and the
    verdict is HUMAN. *)
Theorem heuristic_classify_spec (fs : FeatureSet) :
  ai_score (features_dict fs) =
    accumulated_score
      (flt (pitch_variance fs) (dec 15 (-2)))
      (flt (silence_ratio fs) (dec 5 (-2)))
      (flt (dec 3 (-2)) (avg_volume fs) && flt (avg_volume fs) (dec 8 (-2)))
  /\ field "classification" (_heuristic_classify (features_dict fs)) =
       Some (PStr (if fge (ai_score (features_dict fs)) (dec 5 (-1))
                   then AI_GENERATED else HUMAN))
  /\ field "confidence" (_heuristic_classify (features_dict fs)) =
       Some (PFloat (dec 55 (-2)))
  /\ (flt (pitch_variance fs) (dec 15 (-2)) = true ->
      flt (silence_ratio fs) (dec 5 (-2)) = true ->
      flt (dec 3 (-2)) (avg_volume fs) && flt (avg_volume fs) (dec 8 (-2)) = true ->
      ai_score (features_dict fs) = dec 8999999999999999 (-16)
      /\ field "classification" (_heuristic_classify (features_dict fs)) =
           Some (PStr AI_GENERATED))
  /\ (flt (pitch_variance fs) (dec 15 (-2)) = false ->
      flt (silence_ratio fs) (dec 5 (-2)) = false ->
      flt (dec 3 (-2)) (avg_volume fs) && flt (avg_volume fs) (dec 8 (-2)) = false ->
      ai_score (features_dict fs) = f0_0
      /\ field "classification" (_heuristic_classify (features_dict fs)) =
           Some (PStr HUMAN)).
Proof.
  destruct (heuristic_classify_fields (features_dict fs)) as [Hc Hf].
  destruct (features_dict_tests fs) as (Hp & Hs & Hv).
  assert (Hscore := ai_score_accumulated (features_dict fs)).
  rewrite Hp, Hs, Hv in Hscore.
  split; [exact Hscore|]. split; [exact Hc|]. split; [exact Hf|].
  split; intros H1 H2 H3; rewrite Hc, Hscore, H1, H2, H3;
    split; vm_compute; reflexivity.
Qed.

Lemma heuristic_classify_spec_witness :
  ai_score (features_dict features_example) = dec 8999999999999999 (-16)
  /\ field "classification" (_heuristic_classify (features_dict features_example)) =
       Some (PStr AI_GENERATED).
Proof.
  destruct (heuristic_classify_spec features_example) as (_ & _ & _ & H & _).
  apply H; vm_compute; reflexivity.
Defined.

End Heuristic.

(** ** Auxiliary facts on floats, dictionaries and strings *)

Section Auxiliary.

Lemma flt_fle (a b : float) : flt a b = true -> fle a b = true.
Proof.
  unfold flt, fle, SFltb, SFleb.
  destruct (SFcompare a b) as [[ | | ] | ]; intros H; try discriminate H; reflexivity.
Qed.

(** [max(0.0, min(1.0, c))] lies in [0, 1] for every float, NaN and the
    infinities included. *)
Lemma clamp01_range (c : float) :
  fle f0_0 (AIService.clamp01 c) = true /\ fle (AIService.clamp01 c) f1_0 = true.
Proof.
  unfold AIService.clamp01, py_min, py_max, fgt, flt.
  destruct (SFltb c f1_0) eqn:H1.
  - destruct (SFltb f0_0 c) eqn:H0.
    + split; apply flt_fle; assumption.
    + split; vm_compute; reflexivity.
  - split; vm_compute; reflexivity.
Qed.

Lemma get_set_same {V : Type} (k : string) (v : V) (d : dict V) :
  Dict.get k (Dict.set k v d) = Some v.
Proof.
  induction d as [ | [k' v'] r IH]; cbn.
  - rewrite String.eqb_refl. reflexivity.
  - destruct (String.eqb k k') eqn:E; cbn; rewrite E; [reflexivity | exact IH].
Qed.

Lemma get_set_other {V : Type} (k k' : string) (v : V) (d : dict V) :
  k <> k' -> Dict.get k (Dict.set k' v d) = Dict.get k d.
Proof.
  intros Hne. induction d as [ | [k0 v0] r IH]; cbn.
  - destruct (String.eqb k k') eqn:E; [ | reflexivity].
    apply String.eqb_eq in E. contradiction.
  - destruct (String.eqb k' k0) eqn:E'; cbn.
    + apply String.eqb_eq in E'. subst k0.
      destruct (String.eqb k k') eqn:E; [ | reflexivity].
      apply String.eqb_eq in E. contradiction.
    + destruct (String.eqb k k0); [reflexivity | exact IH].
Qed.

Lemma substring_length_le (s : string) (a n : nat) :
  (String.length (substring a n s) <= n)%nat.
Proof.
  revert a n. induction s as [ | c r IH]; intros a n.
  - destruct a, n; cbn; lia.
  - destruct a as [ | a]; cbn.
    + destruct n as [ | n]; cbn; [lia | ]. specialize (IH 0%nat n). lia.
    + apply IH.
Qed.

(** [s[:k]] has at most [k] characters. *)
Lemma take_length (s : string) (k : Z) :
  (0 <= k)%Z -> (Str.len (Str.take s k) <= k)%Z.
Proof.
  intros Hk. unfold Str.take, Str.slice, Str.len.
  set (n := Z.of_nat (String.length s)).
  assert (Hn : (0 <= n)%Z) by (unfold n; lia).
  pose proof (substring_length_le s (Z.to_nat (Str.clip n 0))
                (Z.to_nat (Str.clip n k - Str.clip n 0))) as H.
  assert (H0 : Str.clip n 0 = 0%Z).
  { unfold Str.clip. cbn. lia. }
  assert (H1 : (Str.clip n k <= k)%Z).
  { unfold Str.clip. destruct (k <? 0)%Z eqn:E; lia. }
  assert (H2 : (0 <= Str.clip n k)%Z).
  { unfold Str.clip. destruct (k <? 0)%Z eqn:E; lia. }
  rewrite H0 in *. lia.
Qed.

End Auxiliary.

(** ** The decision orchestrator *)

Section Orchestrator.

Import DecisionService.

Lemma is_str_eq (k : string) (v : pyval) :
  is_str k v = true <-> v = PStr k.
Proof.
  destruct v; cbn; split; intros H; try discriminate H.
  - apply String.eqb_eq in H. subst. reflexivity.
  - injection H as ->. apply String.eqb_refl.
Qed.

Lemma is_enum_value_eq (v : pyval) :
  is_enum_value v = true <-> v = PStr AI_GENERATED \/ v = PStr HUMAN.
Proof.
  unfold is_enum_value. rewrite orb_true_iff, !is_str_eq. reflexivity.
Qed.

Lemma in_unit_interval_eq (c : pyval) :
  is_int_or_float c && in_unit_interval c = true <-> number_in_unit_interval c.
Proof.
  destruct c; cbn; try (split; [discriminate | contradiction]).
  - split; auto.
  - rewrite andb_true_iff, !Z.leb_le. reflexivity.
  - rewrite andb_true_iff. reflexivity.
Qed.

Lemma len_zero (s : string) : (Str.len s =? 0)%Z = true <-> s = EmptyString.
Proof.
  unfold Str.len. destruct s; cbn; split; intros H; try reflexivity; discriminate H.
Qed.

(** The test [result and self._validate_result(result)] accepts exactly
    the results that the specification calls valid. *)
Lemma validate_result_spec (r : pyval) :
  py_truthy r && _validate_result r = true <-> valid_llm_result r.
Proof.
  split.
  - intros H. apply andb_true_iff in H as [_ H].
    destruct r; try discriminate H. cbn in H.
    unfold Dict.get_default in H.
    destruct (is_enum_value _) eqn:Hc; cbn in H; [ | discriminate H].
    destruct (negb (is_int_or_float _) || negb (in_unit_interval _)) eqn:Hn;
      [discriminate H | ].
    apply orb_false_iff in Hn as [Hn1 Hn2].
    apply negb_false_iff in Hn1, Hn2.
    apply is_enum_value_eq in Hc.
    exists d. split; [reflexivity | ]. repeat split.
    + destruct (Dict.get "classification" d) as [v | ];
        destruct Hc as [Hc | Hc]; try discriminate Hc; subst; auto.
    + destruct (Dict.get "confidence" d) as [c | ]; [ | discriminate Hn1].
      exists c. split; [reflexivity | ].
      apply in_unit_interval_eq. rewrite Hn1, Hn2. reflexivity.
    + destruct (Dict.get "explanation" d) as [[ | | | | e | | ] | ];
        try discriminate H.
      exists e. split; [reflexivity | ].
      intros ->. discriminate H.
  - intros (d & -> & Hc & (c & Hconf & Hnum) & (e & Hexp & Hne)).
    assert (Ht : py_truthy (PDict d) = true).
    { destruct d; [destruct Hc as [Hc | Hc]; discriminate Hc | reflexivity]. }
    rewrite Ht. cbn. unfold Dict.get_default. rewrite Hconf, Hexp.
    assert (He : is_enum_value
                   match Dict.get "classification" d with
                   | Some v => v | None => PNone end = true).
    { apply is_enum_value_eq. destruct Hc as [-> | ->]; auto. }
    rewrite He. cbn.
    apply in_unit_interval_eq in Hnum. apply andb_true_iff in Hnum as [-> ->].
    cbn. destruct (Str.len e =? 0)%Z eqn:E; [ | reflexivity].
    apply len_zero in E. contradiction.
Qed.

(** The heuristic result passes the validity check. *)
Lemma heuristic_result_valid (features : dict float) :
  valid_llm_result (_heuristic_classify features).
Proof.
  unfold _heuristic_classify. rewrite heuristic_scoring_cases.
  destruct (low_pitch_variance features), (low_silence_ratio features),
    (normalized_volume features);
    (eexists; split; [vm_compute; reflexivity | ]);
    (split; [first [left; reflexivity | right; reflexivity] | ]);
    (split; [eexists; split; [reflexivity | split; vm_compute; reflexivity]
            | eexists; split; [reflexivity | discriminate]]).
Qed.

(** C2. [classify] always returns: it returns the result of the LLM path
    exactly when that path yields a dictionary whose classification is one
    of the two enum values, whose confidence is a number in [0, 1] and whose
    explanation is a non-empty string; when the LLM path raises, yields
    None, or yields a result that fails the check, it returns the
    heuristic classification. *)
Theorem classify_falls_back
  (llm : dict float -> string -> exc (option pyval))
  (features : dict float) (language : string) :
  (exists r, classify llm features language = Return r)
  /\ (forall r, llm features language = Return (Some r) ->
       (valid_llm_result r -> classify llm features language = Return r)
       /\ (~ valid_llm_result r ->
           classify llm features language = Return (_heuristic_classify features))
       /\ (classify llm features language = Return r <-> valid_llm_result r))
  /\ (llm features language = Return None ->
      classify llm features language = Return (_heuristic_classify features))
  /\ (forall e, llm features language = Raise e ->
      classify llm features language = Return (_heuristic_classify features)).
Proof.
  assert (Hyes : forall r, llm features language = Return (Some r) ->
            valid_llm_result r -> classify llm features language = Return r).
  { intros r Hr Hv. unfold classify. rewrite Hr.
    apply validate_result_spec in Hv. rewrite Hv. reflexivity. }
  assert (Hno : forall r, llm features language = Return (Some r) ->
            ~ valid_llm_result r ->
            classify llm features language = Return (_heuristic_classify features)).
  { intros r Hr Hv. unfold classify. rewrite Hr.
    destruct (py_truthy r && _validate_result r) eqn:E; [ | reflexivity].
    apply validate_result_spec in E. contradiction. }
  split; [ | split; [ | split]].
  - unfold classify.
    destruct (llm features language) as [[r | ] | e]; eauto.
    destruct (py_truthy r && _validate_result r); eauto.
  - intros r Hr.
    split; [exact (Hyes r Hr) | ].
    split; [exact (Hno r Hr) | ].
    split; [ | exact (Hyes r Hr)].
    intros Hc. destruct (py_truthy r && _validate_result r) eqn:E.
    + apply validate_result_spec. exact E.
    + unfold classify in Hc. rewrite Hr, E in Hc. injection Hc as <-.
      apply heuristic_result_valid.
  - intros H. unfold classify. rewrite H. reflexivity.
  - intros e H. unfold classify. rewrite H. reflexivity.
Qed.

Lemma classify_falls_back_witness :
  classify (fun _ _ => Return (Some (mk_result HUMAN (dec 8 (-1)) "natural prosody")))
    (features_dict features_example) "en"
  = Return (mk_result HUMAN (dec 8 (-1)) "natural prosody").
Proof.
  destruct (classify_falls_back
              (fun _ _ => Return (Some (mk_result HUMAN (dec 8 (-1)) "natural prosody")))
              (features_dict features_example) "en") as (_ & H & _).
  destruct (H _ eq_refl) as (Hv & _).
  apply Hv.
  eexists. split; [reflexivity | ].
  split; [right; reflexivity | ].
  split; [eexists; split; [reflexivity | split; vm_compute; reflexivity]
         | eexists; split; [reflexivity | discriminate]].
Defined.

End Orchestrator.

(** ** The LLM reply parser *)

Section Parser.

Import AIService.

Variable L : Library.

Lemma with_defaults_classification (d : dict pyval) :
  Dict.get "classification" (with_defaults d) = Dict.get "classification" d.
Proof.
  unfold with_defaults.
  destruct (Dict.mem "confidence" d);
    destruct (Dict.mem "explanation" _);
    rewrite ?get_set_other by discriminate; reflexivity.
Qed.

Lemma with_defaults_confidence (d : dict pyval) :
  Dict.get "confidence" (with_defaults d) =
  match Dict.get "confidence" d with
  | Some c => Some c
  | None => Some (PFloat default_confidence)
  end.
Proof.
  unfold with_defaults, Dict.mem.
  destruct (Dict.get "confidence" d) as [c | ] eqn:Hc.
  - destruct (Dict.get "explanation" d);
      rewrite ?get_set_other by discriminate; exact Hc.
  - destruct (Dict.get "explanation" (Dict.set "confidence" _ d));
      rewrite ?get_set_other by discriminate; apply get_set_same.
Qed.

Lemma with_defaults_explanation (d : dict pyval) :
  Dict.get "explanation" (with_defaults d) =
  match Dict.get "explanation" d with
  | Some e => Some e
  | None => Some (PStr default_explanation)
  end.
Proof.
  unfold with_defaults, Dict.mem.
  destruct (Dict.get "confidence" d) as [c | ].
  - destruct (Dict.get "explanation" d) as [e | ] eqn:He;
      [exact He | apply get_set_same].
  - rewrite (get_set_other "explanation" "confidence") by discriminate.
    destruct (Dict.get "explanation" d) as [e | ] eqn:He.
    + rewrite get_set_other by discriminate. exact He.
    + apply get_set_same.
Qed.

(** The statements "Validate required fields" on a dictionary. *)
Lemma apply_defaults_dict (d : dict pyval) :
  apply_defaults (PDict d) =
  Return (if Dict.mem "classification" d then Some (PDict (with_defaults d))
          else None).
Proof.
  unfold apply_defaults, with_defaults. cbn.
  destruct (Dict.mem "classification" d); cbn; [ | reflexivity].
  destruct (Dict.mem "confidence" d); cbn;
    destruct (Dict.mem "explanation" _); reflexivity.
Qed.

(** The statements after the defaults, on a dictionary that has the three
    keys. *)
Lemma normalize_result_dict (d : dict pyval) (v c e : pyval) :
  Dict.get "classification" d = Some v ->
  Dict.get "confidence" d = Some c ->
  Dict.get "explanation" d = Some e ->
  normalize_result L (PDict d) =
  match v with
  | PStr raw =>
      match py_float L c with
      | Return f => Return (PDict (rewritten L d raw f e))
      | Raise x => Raise x
      end
  | _ => Raise (mk_exn AttributeError "object has no attribute 'upper'")
  end.
Proof.
  intros Hv Hc He. unfold normalize_result. cbn. rewrite Hv. cbn.
  destruct v; try reflexivity. cbn.
  rewrite (get_set_other "confidence" "classification") by discriminate.
  rewrite Hc. cbn.
  destruct (py_float L c) as [f | x]; [ | reflexivity]. cbn.
  rewrite !(get_set_other "explanation") by discriminate.
  rewrite He. reflexivity.
Qed.

(** The parser on a reply whose JSON text decodes to a dictionary. *)
Lemma parse_dict (response json_str : string) (d : dict pyval) :
  extract_json response = Some json_str ->
  json_loads L json_str = Return (PDict d) ->
  _parse_llm_response L response = Return (parse_outcome L d).
Proof.
  intros Hx Hj. unfold _parse_llm_response, parse_body, parse_outcome.
  rewrite Hx, Hj. unfold bind at 1. rewrite apply_defaults_dict.
  unfold bind at 1. unfold Dict.mem.
  destruct (Dict.get "classification" d) as [v | ] eqn:Hv; [ | reflexivity].
  pose proof (with_defaults_classification d) as H1. rewrite Hv in H1.
  pose proof (with_defaults_confidence d) as H2.
  pose proof (with_defaults_explanation d) as H3.
  destruct (Dict.get "confidence" (with_defaults d)) as [c | ] eqn:Hc;
    [ | destruct (Dict.get "confidence" d); discriminate H2].
  destruct (Dict.get "explanation" (with_defaults d)) as [e | ] eqn:He;
    [ | destruct (Dict.get "explanation" d); discriminate H3].
  rewrite (normalize_result_dict _ _ _ _ H1 Hc He).
  unfold Dict.get_default. rewrite Hc, He.
  destruct v; try reflexivity.
  destruct (py_float L c); reflexivity.
Qed.

End Parser.

(** ** Searching a character *)

Section Search.

Lemma prefix_char (c a : ascii) (r : string) :
  prefix (char c) (String a r) = if Ascii.eqb c a then true else false.
Proof.
  unfold char. cbn. destruct (ascii_dec c a) as [-> | Hne].
  - rewrite Ascii.eqb_refl. destruct r; reflexivity.
  - destruct (Ascii.eqb c a) eqn:E; [ | reflexivity].
    apply Ascii.eqb_eq in E. contradiction.
Qed.

Lemma occurs_cons (c a : ascii) (r : string) :
  occurs c (String a r) <-> a = c \/ occurs c r.
Proof. unfold occurs. cbn. reflexivity. Qed.

Lemma find_from_absent (c : ascii) (s : string) (i : Z) :
  ~ occurs c s -> Str.find_from (char c) s i = (-1)%Z.
Proof.
  revert i. induction s as [ | a r IH]; intros i H.
  - reflexivity.
  - rewrite occurs_cons in H.
    cbn [Str.find_from]. rewrite prefix_char.
    destruct (Ascii.eqb c a) eqn:E.
    + apply Ascii.eqb_eq in E. subst. tauto.
    + apply IH. tauto.
Qed.

(** When [c] occurs, [find] gives the index of its first occurrence. *)
Lemma find_from_first (c : ascii) (s : string) (i : Z) :
  occurs c s ->
  exists n : nat,
    Str.find_from (char c) s i = (i + Z.of_nat n)%Z
    /\ String.get n s = Some c
    /\ forall m : nat, (m < n)%nat -> String.get m s <> Some c.
Proof.
  revert i. induction s as [ | a r IH]; intros i H.
  - contradiction.
  - cbn [Str.find_from]. rewrite prefix_char.
    destruct (Ascii.eqb c a) eqn:E.
    + apply Ascii.eqb_eq in E. subst a. exists 0%nat.
      split; [lia | ]. split; [reflexivity | ]. intros m Hm. lia.
    + apply occurs_cons in H as [H | H].
      * subst. rewrite Ascii.eqb_refl in E. discriminate E.
      * destruct (IH (i + 1)%Z H) as (n & Hn & Hg & Hmin).
        exists (S n). split; [rewrite Hn; lia | ]. split; [exact Hg | ].
        intros [ | m] Hm; cbn.
        -- intros Heq. injection Heq as ->.
           rewrite Ascii.eqb_refl in E. discriminate E.
        -- apply Hmin. lia.
Qed.

Lemma rfind_from_absent (c : ascii) (s : string) (i : Z) :
  ~ occurs c s -> Str.rfind_from (char c) s i = (-1)%Z.
Proof.
  revert i. induction s as [ | a r IH]; intros i H.
  - reflexivity.
  - rewrite occurs_cons in H.
    cbn [Str.rfind_from]. rewrite IH by tauto. rewrite prefix_char.
    destruct (Ascii.eqb c a) eqn:E; [ | reflexivity].
    apply Ascii.eqb_eq in E. subst. tauto.
Qed.

(** When [c] occurs, [rfind] gives the index of its last occurrence. *)
Lemma rfind_from_last (c : ascii) (s : string) (i : Z) :
  (0 <= i)%Z ->
  occurs c s ->
  exists n : nat,
    Str.rfind_from (char c) s i = (i + Z.of_nat n)%Z
    /\ String.get n s = Some c
    /\ forall m : nat, (n < m)%nat -> String.get m s <> Some c.
Proof.
  revert i. induction s as [ | a r IH]; intros i Hi H.
  - contradiction.
  - cbn [Str.rfind_from].
    destruct (in_dec ascii_dec c (list_ascii_of_string r)) as [Hr | Hr].
    + destruct (IH (i + 1)%Z ltac:(lia) Hr) as (n & Hn & Hg & Hmax).
      rewrite Hn.
      replace (0 <=? i + 1 + Z.of_nat n)%Z with true
        by (symmetry; apply Z.leb_le; lia).
      exists (S n). split; [lia | ]. split; [exact Hg | ].
      intros [ | m] Hm; [lia | ]. cbn. apply Hmax. lia.
    + rewrite (rfind_from_absent c r (i + 1) Hr). cbn [Z.leb Z.compare].
      rewrite prefix_char.
      apply occurs_cons in H as [H | H]; [ | contradiction].
      subst a. rewrite Ascii.eqb_refl.
      exists 0%nat. split; [lia | ]. split; [reflexivity | ].
      intros [ | m] Hm; [lia | ]. cbn.
      intros Hg. apply Hr. clear - Hg.
      revert m Hg. induction r as [ | b r IH]; intros m Hg.
      * destruct m; discriminate Hg.
      * destruct m as [ | m]; cbn in Hg.
        -- injection Hg as ->. left. reflexivity.
        -- right. apply (IH m Hg).
Qed.

Lemma lstrip_occurs (c : ascii) (s : string) :
  Str.is_space c = false -> (occurs c (Str.lstrip s) <-> occurs c s).
Proof.
  intros Hc. induction s as [ | a r IH]; [reflexivity | ].
  cbn [Str.lstrip]. destruct (Str.is_space a) eqn:Ha; [ | reflexivity].
  rewrite IH, occurs_cons. split; [tauto | ].
  intros [-> | H]; [congruence | exact H].
Qed.

Lemma rstrip_occurs (c : ascii) (s : string) :
  Str.is_space c = false -> (occurs c (Str.rstrip s) <-> occurs c s).
Proof.
  intros Hc. induction s as [ | a r IH]; [reflexivity | ].
  cbn [Str.rstrip]. rewrite occurs_cons.
  destruct (Str.rstrip r) as [ | b t] eqn:Hr.
  - destruct (Str.is_space a) eqn:Ha.
    + split; [contradiction | ].
      intros [-> | H]; [congruence | apply IH in H; contradiction].
    + rewrite occurs_cons. rewrite <- IH. tauto.
  - rewrite occurs_cons, IH. reflexivity.
Qed.

(** Stripping white space keeps the occurrences of a visible character. *)
Lemma strip_occurs (c : ascii) (s : string) :
  Str.is_space c = false -> (occurs c (Str.strip s) <-> occurs c s).
Proof.
  intros Hc. unfold Str.strip.
  rewrite rstrip_occurs, lstrip_occurs by exact Hc. reflexivity.
Qed.

End Search.

(** ** The parser never raises *)

Section ParserTotal.

Import AIService.

Lemma extract_json_absent (response : string) :
  ~ occurs "{" response \/ ~ occurs "}" response ->
  extract_json response = None.
Proof.
  intros H. unfold extract_json, Str.find, Str.rfind.
  change (String "{" EmptyString) with (char "{").
  change (String "}" EmptyString) with (char "}").
  destruct H as [H | H].
  - rewrite <- (strip_occurs "{" response eq_refl) in H.
    rewrite (find_from_absent "{" _ 0 H). reflexivity.
  - rewrite <- (strip_occurs "}" response eq_refl) in H.
    rewrite (rfind_from_absent "}" _ 0 H).
    rewrite orb_true_r. reflexivity.
Qed.

Lemma extract_json_present (response : string) :
  occurs "{" response -> occurs "}" response ->
  exists first last : nat,
    String.get first (Str.strip response) = Some "{"%char
    /\ (forall m, (m < first)%nat -> String.get m (Str.strip response) <> Some "{"%char)
    /\ String.get last (Str.strip response) = Some "}"%char
    /\ (forall m, (last < m)%nat -> String.get m (Str.strip response) <> Some "}"%char)
    /\ extract_json response =
         Some (Str.slice (Str.strip response) (Z.of_nat first) (Z.of_nat last + 1)).
Proof.
  intros Ho Hc.
  rewrite <- (strip_occurs "{" response eq_refl) in Ho.
  rewrite <- (strip_occurs "}" response eq_refl) in Hc.
  destruct (find_from_first "{" _ 0 Ho) as (first & Hf & Hfg & Hfm).
  destruct (rfind_from_last "}" _ 0 ltac:(lia) Hc) as (last & Hl & Hlg & Hlm).
  exists first, last. repeat (split; [assumption | ]).
  unfold extract_json, Str.find, Str.rfind.
  change (String "{" EmptyString) with (char "{").
  change (String "}" EmptyString) with (char "}").
  rewrite Hf, Hl.
  replace (0 + Z.of_nat first =? -1)%Z with false by (symmetry; apply Z.eqb_neq; lia).
  replace (0 + Z.of_nat last + 1 =? 0)%Z with false by (symmetry; apply Z.eqb_neq; lia).
  reflexivity.
Qed.

(** C3. The parser returns for every reply.  Without an opening or without
    a closing brace in the reply it returns None; otherwise it decodes the
    text of the stripped reply from the first opening brace to the last
    closing brace, and returns None when that text is not JSON. *)
Theorem parse_llm_response_never_raises (L : Library) (response : string) :
  (exists r, _parse_llm_response L response = Return r)
  /\ (~ occurs "{" response \/ ~ occurs "}" response ->
      _parse_llm_response L response = Return None)
  /\ (occurs "{" response -> occurs "}" response ->
      exists first last : nat,
        String.get first (Str.strip response) = Some "{"%char
        /\ (forall m, (m < first)%nat ->
              String.get m (Str.strip response) <> Some "{"%char)
        /\ String.get last (Str.strip response) = Some "}"%char
        /\ (forall m, (last < m)%nat ->
              String.get m (Str.strip response) <> Some "}"%char)
        /\ extract_json response =
             Some (Str.slice (Str.strip response) (Z.of_nat first) (Z.of_nat last + 1)))
  /\ (forall json_str e,
        extract_json response = Some json_str ->
        json_loads L json_str = Raise e ->
        _parse_llm_response L response = Return None).
Proof.
  split; [ | split; [ | split]].
  - unfold _parse_llm_response, try_except.
    destruct (parse_body L response) as [r | e]; eauto.
  - intros H. unfold _parse_llm_response, parse_body.
    rewrite (extract_json_absent response H). reflexivity.
  - apply extract_json_present.
  - intros json_str e Hx Hj. unfold _parse_llm_response, parse_body.
    rewrite Hx, Hj. reflexivity.
Qed.

Lemma parse_llm_response_never_raises_witness :
  _parse_llm_response Reference.lib "I cannot tell." = Return None.
Proof.
  destruct (parse_llm_response_never_raises Reference.lib "I cannot tell.")
    as (_ & H & _).
  apply H. left. unfold occurs. cbn.
  intros Hin. repeat (destruct Hin as [Hin | Hin]; [discriminate Hin | ]).
  exact Hin.
Defined.

End ParserTotal.

(** ** What the parser returns *)

Section ParserResult.

Import AIService.

Variable L : Library.

Lemma try_except_return {A : Type} (c : exc (option A)) (o : option A) :
  try_except c (fun _ => Return None) = Return o ->
  c = Return o \/ (o = None /\ exists e, c = Raise e).
Proof.
  destruct c as [a | e]; cbn; intros H.
  - left. exact H.
  - right. injection H as <-. eauto.
Qed.

Lemma try_except_some {A : Type} (c : exc (option A)) (r : A) :
  try_except c (fun _ => Return None) = Return (Some r) -> c = Return (Some r).
Proof.
  intros H. apply try_except_return in H as [H | [H _]]; [exact H | discriminate H].
Qed.

Lemma normalize_classification_enum (raw : string) :
  normalize_classification L raw = AI_GENERATED
  \/ normalize_classification L raw = HUMAN.
Proof.
  unfold normalize_classification, remap_classification.
  set (u := Str.replace " " "_" (upper L raw)).
  destruct (String.eqb u "AI_GENERATED") eqn:E1; cbn.
  - apply String.eqb_eq in E1. left. exact E1.
  - destruct (String.eqb u "HUMAN") eqn:E2; cbn.
    + apply String.eqb_eq in E2. right. exact E2.
    + destruct (Str.contains "AI" u || Str.contains "SYNTHETIC" u); auto.
Qed.


Lemma default_confidence_float (d : dict pyval) :
  Dict.get_default "confidence" PNone (with_defaults d) =
  Dict.get_default "confidence" (PFloat default_confidence) d.
Proof.
  unfold Dict.get_default. rewrite with_defaults_confidence.
  destruct (Dict.get "confidence" d); reflexivity.
Qed.

Lemma default_explanation_str (d : dict pyval) :
  Dict.get_default "explanation" PNone (with_defaults d) =
  Dict.get_default "explanation" (PStr default_explanation) d.
Proof.
  unfold Dict.get_default. rewrite with_defaults_explanation.
  destruct (Dict.get "explanation" d); reflexivity.
Qed.

Lemma rewritten_fields (d : dict pyval) (raw : string) (f : float) (e : pyval) :
  Dict.get "classification" (rewritten L d raw f e) =
    Some (PStr (normalize_classification L raw))
  /\ Dict.get "confidence" (rewritten L d raw f e) = Some (PFloat (clamp01 f))
  /\ Dict.get "explanation" (rewritten L d raw f e) =
       Some (PStr (Str.take (py_str L e) 240)).
Proof.
  unfold rewritten. repeat split.
  - rewrite !(get_set_other "classification") by discriminate. apply get_set_same.
  - rewrite (get_set_other "confidence" "explanation") by discriminate.
    apply get_set_same.
  - apply get_set_same.
Qed.

(** The value returned on a dictionary [d]: a result exists exactly when
    the classification is a string and the confidence converts to a float,
    and its three fields are the normalised classification, the clamped
    confidence and the truncated explanation. *)
Lemma parse_outcome_some (d : dict pyval) (r : pyval) :
  parse_outcome L d = Some r <->
  exists raw f,
    Dict.get "classification" d = Some (PStr raw)
    /\ py_float L (Dict.get_default "confidence" (PFloat default_confidence) d)
       = Return f
    /\ r = PDict (rewritten L (with_defaults d) raw f
                    (Dict.get_default "explanation" (PStr default_explanation) d)).
Proof.
  unfold parse_outcome.
  rewrite default_confidence_float, default_explanation_str.
  split.
  - destruct (Dict.get "classification" d) as [[ | | | | raw | | ] | ];
      try discriminate.
    destruct (py_float L _) as [f | x]; [ | discriminate].
    intros H. injection H as <-. exists raw, f. auto.
  - intros (raw & f & -> & -> & ->). reflexivity.
Qed.

Lemma parse_outcome_none (d : dict pyval) :
  parse_outcome L d = None <->
  (forall raw, Dict.get "classification" d <> Some (PStr raw))
  \/ (exists x,
        py_float L (Dict.get_default "confidence" (PFloat default_confidence) d)
        = Raise x).
Proof.
  unfold parse_outcome. rewrite default_confidence_float.
  split.
  - destruct (Dict.get "classification" d) as [[ | | | | raw | | ] | ];
      try (intros _; left; intros raw' H; discriminate H).
    destruct (py_float L _) as [f | x]; [discriminate | ].
    intros _. right. exists x. reflexivity.
  - intros [H | [x H]].
    + destruct (Dict.get "classification" d) as [[ | | | | raw | | ] | ];
        try reflexivity.
      exfalso. apply (H raw). reflexivity.
    + rewrite H.
      destruct (Dict.get "classification" d) as [[ | | | | raw | | ] | ];
        reflexivity.
Qed.

(** A reply whose JSON text does not decode to a dictionary gives no
    result. *)
Lemma parse_not_dict (v : pyval) :
  (forall d, v <> PDict d) ->
  forall r,
    (defaulted <- apply_defaults v ;;
     match defaulted with
     | None => Return None
     | Some result => result <- normalize_result L result ;; Return (Some result)
     end) <> Return (Some r).
Proof.
  intros Hv r.
  destruct v as [ | b | z | f | s | l | d];
    [ | | | | | | exfalso; apply (Hv d); reflexivity ];
    unfold apply_defaults; cbn;
    try discriminate;
    repeat match goal with
           | |- context [if ?b then _ else _] => destruct b; cbn
           end;
    discriminate.
Qed.

(** Every result of the parser is well formed. *)
Lemma parse_result_well_formed (response : string) (r : pyval) :
  _parse_llm_response L response = Return (Some r) -> well_formed_result r.
Proof.
  intros H.
  assert (Hd : exists d, parse_outcome L d = Some r).
  { unfold _parse_llm_response, parse_body in H.
    destruct (extract_json response) as [json_str | ] eqn:Hx; [ | discriminate H].
    destruct (json_loads L json_str) as [v | x] eqn:Hj; [ | discriminate H].
    apply try_except_some in H.
    destruct v as [ | b | z | f | s | l | d];
      try (exfalso; revert H; apply parse_not_dict; intros d; discriminate).
    exists d.
    assert (Hp := parse_dict L response json_str d Hx Hj).
    unfold _parse_llm_response, parse_body in Hp. rewrite Hx, Hj in Hp.
    rewrite H in Hp. cbn in Hp. injection Hp as Hp. symmetry. exact Hp. }
  destruct Hd as [d Hd]. apply parse_outcome_some in Hd as (raw & f & _ & _ & ->).
  destruct (rewritten_fields (with_defaults d) raw f
              (Dict.get_default "explanation" (PStr default_explanation) d))
    as (Hc & Hf & He).
  unfold well_formed_result, field. rewrite Hc, Hf, He.
  split; [ | split].
  - destruct (normalize_classification_enum raw) as [-> | ->]; auto.
  - exists (clamp01 f). split; [reflexivity | apply clamp01_range].
  - eexists. split; [reflexivity | apply take_length; lia].
Qed.

End ParserResult.

(** ** Normalisation, defaults and the invariant of results *)

Section ParserClaims.

Import AIService.




(** C7. For every reply whose JSON text decodes to an object: without a
    classification key the parser returns None; an absent confidence key is
    given the value 0.7 and an absent explanation key the template text,
    in the dictionary after the defaulting step and in every result the
    parser returns; and with a string classification and no confidence key
    the parser does return a result. *)
Theorem parse_defaults (L : Library) (response json_str : string)
  (d : dict pyval) :
  extract_json response = Some json_str ->
  json_loads L json_str = Return (PDict d) ->
  (Dict.get "classification" d = None ->
   _parse_llm_response L response = Return None)
  /\ apply_defaults (PDict d) =
       Return (if Dict.mem "classification" d
               then Some (PDict (with_defaults d)) else None)
  /\ (Dict.get "confidence" d = None ->
      Dict.get "confidence" (with_defaults d) = Some (PFloat (dec 7 (-1))))
  /\ (Dict.get "explanation" d = None ->
      Dict.get "explanation" (with_defaults d) =
        Some (PStr "Classification based on audio feature analysis."))
  /\ (forall r,
        _parse_llm_response L response = Return (Some r) ->
        (Dict.get "confidence" d = None ->
         field "confidence" r = Some (PFloat (dec 7 (-1))))
        /\ (Dict.get "explanation" d = None ->
            field "explanation" r =
              Some (PStr "Classification based on audio feature analysis.")))
  /\ (forall raw,
        Dict.get "classification" d = Some (PStr raw) ->
        Dict.get "confidence" d = None ->
        exists r, _parse_llm_response L response = Return (Some r)).
Proof.
  intros Hx Hj. rewrite (parse_dict L response json_str d Hx Hj).
  split; [ | split; [ | split; [ | split; [ | split]]]].
  - intros H. unfold parse_outcome. rewrite H. reflexivity.
  - apply apply_defaults_dict.
  - intros H. rewrite with_defaults_confidence, H. reflexivity.
  - intros H. rewrite with_defaults_explanation, H. reflexivity.
  - intros r Hr. injection Hr as Hr.
    apply parse_outcome_some in Hr as (raw & f & Hc & Hf & ->).
    destruct (rewritten_fields L (with_defaults d) raw f
                (Dict.get_default "explanation" (PStr default_explanation) d))
      as (_ & H2 & H3).
    unfold field. rewrite H2, H3. split; intros Hn.
    + unfold Dict.get_default in Hf. rewrite Hn in Hf. cbn in Hf.
      injection Hf as <-. vm_compute. reflexivity.
    + unfold Dict.get_default. rewrite Hn. vm_compute. reflexivity.
  - intros raw Hc Hn. eexists. f_equal. apply parse_outcome_some.
    exists raw, default_confidence. split; [exact Hc | ].
    split; [ | reflexivity].
    unfold Dict.get_default. rewrite Hn. reflexivity.
Qed.

Lemma parse_defaults_witness :
  exists r,
    _parse_llm_response Reference.lib reply_classification_only = Return (Some r)
    /\ field "classification" r = Some (PStr HUMAN)
    /\ field "confidence" r = Some (PFloat (dec 7 (-1)))
    /\ field "explanation" r =
         Some (PStr "Classification based on audio feature analysis.").
Proof.
  assert (Hx : extract_json reply_classification_only = Some reply_classification_only)
    by (vm_compute; reflexivity).
  assert (Hj : json_loads Reference.lib reply_classification_only =
               Return (PDict [("classification", PStr "human")]))
    by (vm_compute; reflexivity).
  destruct (parse_defaults Reference.lib _ _ _ Hx Hj) as (_ & _ & _ & _ & Hr & Hex).
  destruct (Hex "human" eq_refl eq_refl) as (r & Hp).
  exists r. split; [exact Hp | ].
  destruct (Hr r Hp) as (Hc & He).
  split; [ | split; [apply Hc; reflexivity | apply He; reflexivity]].
  vm_compute in Hp. injection Hp as <-. reflexivity.
Defined.

End ParserClaims.

(** ** The two classification paths together *)

Section Paths.

Import AIService DecisionService.

(** The adapter absorbs every failure of a provider. *)
Lemma generate_returns (P : LLMAdapter.Providers) (llm : LLMAdapter.t)
  (prompt : string) :
  exists o, LLMAdapter.generate P llm prompt = Return o.
Proof.
  unfold LLMAdapter.generate.
  destruct (String.eqb (LLMAdapter.api_key llm) EmptyString); [eauto | ].
  unfold try_except.
  match goal with
  | |- exists o, match ?c with _ => _ end = _ => destruct c; eauto
  end.
Qed.

Lemma parse_returns (L : Library) (response : string) :
  exists o, _parse_llm_response L response = Return o.
Proof.
  unfold _parse_llm_response, try_except.
  destruct (parse_body L response) as [o | e]; eauto.
Qed.

(** The LLM path never raises: it yields None or what the parser returns
    on the reply of the provider. *)
Lemma classify_with_llm_returns (L : Library)
  (prompt : dict float -> string -> string)
  (P : LLMAdapter.Providers) (llm : LLMAdapter.t)
  (features : dict float) (language : string) :
  classify_with_llm L prompt P llm features language = Return None
  \/ exists response,
       LLMAdapter.generate P llm (prompt features language) = Return (Some response)
       /\ response <> EmptyString
       /\ classify_with_llm L prompt P llm features language =
            _parse_llm_response L response.
Proof.
  unfold classify_with_llm.
  destruct (generate_returns P llm (prompt features language)) as [[response | ] H];
    rewrite H; cbn; [ | left; reflexivity].
  destruct (String.eqb response EmptyString) eqn:E; [left; reflexivity | ].
  right. exists response. split; [reflexivity | ].
  split; [ | reflexivity].
  apply String.eqb_neq. exact E.
Qed.

Lemma heuristic_result_well_formed (features : dict float) :
  well_formed_result (_heuristic_classify features).
Proof.
  unfold _heuristic_classify.
  destruct (heuristic_scoring features) as [score rs].
  destruct (fge score (dec 5 (-1)));
    (split; [auto | ]);
    (split; [eexists; split; [reflexivity | split; vm_compute; reflexivity]
            | eexists; split; [reflexivity | apply take_length; lia]]).
Qed.

(** C5. Every result of the parser, every result of the heuristic and every
    result of the orchestrator over the two has a classification equal to
    AI_GENERATED or HUMAN, a confidence in [0, 1] and an explanation of at
    most 240 characters; the orchestrator always produces such a result;
    clamping and truncation are defined on every float and every string. *)
Theorem results_well_formed (L : Library) :
  (forall response r,
     _parse_llm_response L response = Return (Some r) -> well_formed_result r)
  /\ (forall features, well_formed_result (_heuristic_classify features))
  /\ (forall prompt P llm features language,
        exists r,
          classify (classify_with_llm L prompt P llm) features language = Return r
          /\ well_formed_result r)
  /\ (forall c, fle f0_0 (clamp01 c) = true /\ fle (clamp01 c) f1_0 = true)
  /\ (forall s, (Str.len (Str.take s 240) <= 240)%Z).
Proof.
  split; [ | split; [ | split; [ | split]]].
  - apply parse_result_well_formed.
  - apply heuristic_result_well_formed.
  - intros prompt P llm features language.
    unfold classify.
    destruct (classify_with_llm_returns L prompt P llm features language)
      as [H | (response & _ & _ & H)]; rewrite H.
    + eexists. split; [reflexivity | apply heuristic_result_well_formed].
    + destruct (parse_returns L response) as [o Ho].
      rewrite Ho. destruct o as [r | ].
      * destruct (py_truthy r && _validate_result r).
        -- exists r. split; [reflexivity | ].
           apply (parse_result_well_formed L response r Ho).
        -- eexists. split; [reflexivity | apply heuristic_result_well_formed].
      * eexists. split; [reflexivity | apply heuristic_result_well_formed].
  - apply clamp01_range.
  - intros s. apply take_length. lia.
Qed.

Lemma results_well_formed_witness :
  well_formed_result
    (PDict [ ("classification", PStr "AI_GENERATED");
             ("confidence", PFloat f1_0); ("explanation", PStr "x") ]).
Proof.
  destruct (results_well_formed Reference.lib) as (H & _).
  apply (H reply_example). vm_compute. reflexivity.
Defined.

(** C10, as stated, fails: a reply whose object has a classification key
    and an empty explanation does not always make the parser return a
    result; with the classification 1 it returns None. *)
Lemma parse_empty_explanation_is_none :
  json_loads Reference.lib reply_numeric_empty =
    Return (PDict [("classification", PInt 1); ("explanation", PStr EmptyString)])
  /\ extract_json reply_numeric_empty = Some reply_numeric_empty
  /\ _parse_llm_response Reference.lib reply_numeric_empty = Return None.
Proof. repeat split; vm_compute; reflexivity. Qed.

(** C10, amended. For a reply whose JSON text decodes to an object with a
    classification key and the empty string as explanation: when the
    classification is a string and the confidence (0.7 if absent) converts
    to a float, the parser returns a result whose explanation is still
    empty, and the validity check rejects it; otherwise the parser returns
    None.  In both cases the orchestrator returns the heuristic
    classification, whose confidence is 0.55. *)
Theorem empty_explanation_falls_back (L : Library)
  (prompt : dict float -> string -> string)
  (P : LLMAdapter.Providers) (llm : LLMAdapter.t)
  (features : dict float) (language : string)
  (response json_str : string) (d : dict pyval) (v : pyval) :
  LLMAdapter.generate P llm (prompt features language) = Return (Some response) ->
  extract_json response = Some json_str ->
  json_loads L json_str = Return (PDict d) ->
  Dict.get "classification" d = Some v ->
  Dict.get "explanation" d = Some (PStr EmptyString) ->
  (forall raw f,
     v = PStr raw ->
     py_float L (Dict.get_default "confidence" (PFloat default_confidence) d)
       = Return f ->
     exists r,
       _parse_llm_response L response = Return (Some r)
       /\ field "explanation" r = Some (PStr EmptyString)
       /\ _validate_result r = false)
  /\ ((forall raw, v <> PStr raw)
      \/ (exists x,
            py_float L (Dict.get_default "confidence" (PFloat default_confidence) d)
            = Raise x) ->
      _parse_llm_response L response = Return None)
  /\ classify (classify_with_llm L prompt P llm) features language =
       Return (_heuristic_classify features)
  /\ field "confidence" (_heuristic_classify features) = Some (PFloat (dec 55 (-2))).
Proof.
  intros Hg Hx Hj Hv He.
  assert (Hp := parse_dict L response json_str d Hx Hj).
  assert (Hsome : forall r, parse_outcome L d = Some r ->
            field "explanation" r = Some (PStr EmptyString)
            /\ _validate_result r = false).
  { intros r Hr. apply parse_outcome_some in Hr as (raw & f & _ & _ & ->).
    assert (Hgd : Dict.get_default "explanation" (PStr default_explanation) d
                  = PStr EmptyString).
    { unfold Dict.get_default. rewrite He. reflexivity. }
    rewrite Hgd.
    destruct (rewritten_fields L (with_defaults d) raw f (PStr EmptyString))
      as (H1 & H2 & H3).
    cbn in H3.
    split; [exact H3 | ].
    unfold _validate_result, Dict.get_default. rewrite H1, H2, H3.
    destruct (negb (is_enum_value _)); [reflexivity | ].
    destruct (negb (is_int_or_float _) || negb (in_unit_interval _)); reflexivity. }
  split; [ | split; [ | split]].
  - intros raw f -> Hf.
    assert (Hr : exists r, parse_outcome L d = Some r).
    { eexists. apply parse_outcome_some. exists raw, f. auto. }
    destruct Hr as [r Hr]. exists r. rewrite Hp, Hr.
    split; [reflexivity | apply Hsome; exact Hr].
  - intros H. rewrite Hp. f_equal. apply parse_outcome_none.
    destruct H as [H | H]; [left | right; exact H].
    intros raw Hr. rewrite Hv in Hr. injection Hr as ->. apply (H raw eq_refl).
  - unfold classify, classify_with_llm. rewrite Hg. cbn.
    destruct (String.eqb response EmptyString) eqn:E.
    + reflexivity.
    + rewrite Hp. destruct (parse_outcome L d) as [r | ] eqn:Hr; [ | reflexivity].
      destruct (Hsome r eq_refl) as [_ Hval]. rewrite Hval.
      rewrite andb_false_r. reflexivity.
  - apply heuristic_classify_fields.
Qed.

Lemma empty_explanation_falls_back_witness :
  classify
    (classify_with_llm Reference.lib (fun _ language => language)
       (answering reply_empty_explanation) some_adapter)
    (features_dict features_example) "en"
  = Return (_heuristic_classify (features_dict features_example)).
Proof.
  assert (Hj : json_loads Reference.lib reply_empty_explanation =
               Return (PDict [ ("classification", PStr "HUMAN");
                               ("explanation", PStr EmptyString) ]))
    by (vm_compute; reflexivity).
  assert (Hx : extract_json reply_empty_explanation = Some reply_empty_explanation)
    by (vm_compute; reflexivity).
  destruct (empty_explanation_falls_back Reference.lib (fun _ language => language)
              (answering reply_empty_explanation) some_adapter
              (features_dict features_example) "en"
              reply_empty_explanation reply_empty_explanation _ (PStr "HUMAN")
              eq_refl Hx Hj eq_refl eq_refl) as (_ & _ & H & _).
  exact H.
Defined.

End Paths.

(** ** Silence detection *)

Section Silence.

Import AudioService.

(** With at least one frame the guard [len(rms) > 0] holds and the ratio
    is the quotient of the two counts. *)
Lemma silence_detection_frames (A : SignalLib) (x : float) (r : list float) :
  silence_detection A (x :: r) =
  Return (fdiv
            (Z2F (np_sum_less A (x :: r)
                    (np_multiply A (fold_left np_maximum r x) (dec 1 (-1)))))
            (Z2F (list_len (x :: r)))).
Proof.
  assert (H : (list_len (x :: r) >? 0)%Z = true).
  { unfold list_len. cbn [List.length]. apply Z.gtb_lt. lia. }
  unfold silence_detection. cbn [np_max bind]. rewrite H. reflexivity.
Qed.





End Silence.

(** ** Acquisition of inline base64 audio *)

Section Acquisition.

Import AudioService.

Lemma contains_occurs (c : ascii) (s : string) :
  Str.contains (char c) s = true <-> occurs c s.
Proof.
  unfold Str.contains, Str.find. split.
  - intros H. destruct (in_dec ascii_dec c (list_ascii_of_string s)) as [Hin | Hin];
      [exact Hin | ].
    rewrite (find_from_absent c s 0 Hin) in H. discriminate H.
  - intros H. destruct (find_from_first c s 0 H) as (n & -> & _).
    apply Z.leb_le. lia.
Qed.

Lemma split_not_nil (c : ascii) (s : string) : Str.split c s <> [].
Proof.
  induction s as [ | a r IH]; cbn; [discriminate | ].
  destruct (Ascii.eqb a c); [discriminate | ].
  destruct (Str.split c r); [contradiction | discriminate].
Qed.

Lemma split_absent (c : ascii) (s : string) :
  ~ occurs c s -> Str.split c s = [s].
Proof.
  induction s as [ | a r IH]; intros H; [reflexivity | ].
  rewrite occurs_cons in H. cbn.
  destruct (Ascii.eqb a c) eqn:E.
  - apply Ascii.eqb_eq in E. tauto.
  - rewrite IH by tauto. reflexivity.
Qed.

(** The fields around the first separator. *)
Lemma split_first (c : ascii) (p rest : string) :
  ~ occurs c p ->
  Str.split c (p ++ String c rest) = p :: Str.split c rest.
Proof.
  induction p as [ | a r IH]; intros H; cbn.
  - rewrite Ascii.eqb_refl. reflexivity.
  - rewrite occurs_cons in H.
    destruct (Ascii.eqb a c) eqn:E.
    + apply Ascii.eqb_eq in E. tauto.
    + rewrite IH by tauto. reflexivity.
Qed.

Lemma split_two_fields (c : ascii) (s : string) :
  occurs c s -> (2 <= List.length (Str.split c s))%nat.
Proof.
  induction s as [ | a r IH]; intros H; [contradiction | ].
  cbn. destruct (Ascii.eqb a c) eqn:E.
  - pose proof (split_not_nil c r) as Hn.
    destruct (Str.split c r); [contradiction | cbn; lia].
  - apply occurs_cons in H as [H | H].
    + subst. rewrite Ascii.eqb_refl in E. discriminate E.
    + specialize (IH H). destruct (Str.split c r); cbn in *; lia.
Qed.

(** [decode_base64] decodes [payload base64_data], writes the bytes, and
    turns every exception into the ValueError of the acquisition step. *)
Lemma decode_base64_payload (A : AcquisitionLib) (base64_data output_path : string)
  (fs : filesystem) :
  decode_base64 A base64_data output_path fs =
  try_except
    (audio_bytes <- b64decode A (payload base64_data) ;;
     write_file A output_path audio_bytes fs)
    (fun e => Raise (decode_error e)).
Proof.
  unfold decode_base64, payload.
  destruct (Str.contains "," base64_data) eqn:E; [ | reflexivity].
  change (Str.contains (char ",") base64_data = true) in E.
  apply contains_occurs in E. apply split_two_fields in E.
  destruct (Str.split "," base64_data) as [ | f0 [ | f1 l]]; cbn in E; try lia.
  reflexivity.
Qed.

Lemma payload_plain (s : string) : ~ occurs "," s -> payload s = s.
Proof.
  intros H. unfold payload.
  destruct (Str.contains "," s) eqn:E; [ | reflexivity].
  change (Str.contains (char ",") s = true) in E.
  apply contains_occurs in E. contradiction.
Qed.

Lemma occurs_app (c : ascii) (p q : string) :
  occurs c (p ++ q) <-> occurs c p \/ occurs c q.
Proof.
  induction p as [ | a r IH]; cbn [append].
  - split; [auto | ]. intros [H | H]; [contradiction | exact H].
  - rewrite !occurs_cons, IH. tauto.
Qed.

(** With one comma the payload is the text after it; with more, the text
    between the first and the second. *)
Lemma payload_fields (p q : string) :
  ~ occurs "," p -> ~ occurs "," q ->
  payload (p ++ String "," q) = q
  /\ forall rest, payload (p ++ String "," (q ++ String "," rest)) = q.
Proof.
  intros Hp Hq.
  assert (Hc : forall t, Str.contains "," (p ++ String "," t) = true).
  { intros t. change (Str.contains (char ",") (p ++ String "," t) = true).
    apply contains_occurs. apply occurs_app. right. apply occurs_cons. auto. }
  split.
  - unfold payload. rewrite Hc, (split_first "," p q Hp), (split_absent "," q Hq).
    reflexivity.
  - intros rest. unfold payload.
    rewrite Hc, (split_first "," p _ Hp), (split_first "," q rest Hq). reflexivity.
Qed.

Lemma prefix_contains (sub s : string) :
  prefix sub s = true -> Str.contains sub s = true.
Proof.
  intros H. unfold Str.contains, Str.find.
  destruct s; cbn [Str.find_from]; rewrite H; reflexivity.
Qed.

Lemma prefix_app (p s : string) : prefix p (p ++ s) = true.
Proof.
  induction p as [ | a r IH]; cbn.
  - destruct s; reflexivity.
  - destruct (ascii_dec a a) as [_ | Hn]; [exact IH | contradiction].
Qed.

(** C8, as stated, fails.  With two commas the text after the second one
    is dropped instead of decoded; and text that is not well-formed base64
    (a character outside the alphabet, a length that is no multiple of
    four) is decoded without an error. *)
Lemma decode_base64_counterexample :
  decode_base64 Reference.acquisition "data:audio/mpeg;base64,QUJD,REVG" "in.mp3" []
    = Return [("in.mp3", "ABC")]
  /\ decode_remainder Reference.acquisition "data:audio/mpeg;base64,QUJD,REVG" "in.mp3" []
    = Return [("in.mp3", "ABCDEF")]
  /\ rfc4648_well_formed "QUJD*" = false
  /\ decode_base64 Reference.acquisition "QUJD*" "in.mp3" []
    = Return [("in.mp3", "ABC")].
Proof. repeat split; vm_compute; reflexivity. Qed.

(** C8, amended. For every inline base64 string the step keeps the whole
    text when it has no comma and otherwise the text between the first and
    the second comma (the text after the comma when there is one comma),
    decodes it and writes the bytes; whenever the decoder or the write
    raises, it fails with a ValueError whose message starts with 'Failed to
    decode base64 audio: ' and goes on with the message of the cause. *)
Theorem decode_base64_failures (A : AcquisitionLib)
  (base64_data output_path : string) (fs : filesystem) :
  (forall audio fs',
     b64decode A (payload base64_data) = Return audio ->
     write_file A output_path audio fs = Return fs' ->
     decode_base64 A base64_data output_path fs = Return fs')
  /\ (forall e,
        b64decode A (payload base64_data) = Raise e ->
        decode_base64 A base64_data output_path fs =
          Raise (mk_exn ValueError ("Failed to decode base64 audio: " ++ exn_msg e)))
  /\ (forall audio e,
        b64decode A (payload base64_data) = Return audio ->
        write_file A output_path audio fs = Raise e ->
        decode_base64 A base64_data output_path fs =
          Raise (mk_exn ValueError ("Failed to decode base64 audio: " ++ exn_msg e)))
  /\ (forall e,
        decode_base64 A base64_data output_path fs = Raise e ->
        exn_type e = ValueError
        /\ prefix "Failed to decode base64 audio: " (exn_msg e) = true
        /\ Str.contains "Failed to decode base64 audio" (exn_msg e) = true)
  /\ (~ occurs "," base64_data -> payload base64_data = base64_data)
  /\ (forall p q,
        ~ occurs "," p -> ~ occurs "," q ->
        base64_data = p ++ String "," q -> payload base64_data = q)
  /\ (forall p q rest,
        ~ occurs "," p -> ~ occurs "," q ->
        base64_data = p ++ String "," (q ++ String "," rest) ->
        payload base64_data = q).
Proof.
  rewrite decode_base64_payload.
  split; [ | split; [ | split; [ | split; [ | split; [ | split]]]]].
  - intros audio fs' Hd Hw. rewrite Hd. cbn. rewrite Hw. reflexivity.
  - intros e Hd. rewrite Hd. reflexivity.
  - intros audio e Hd Hw. rewrite Hd. cbn. rewrite Hw. reflexivity.
  - intros e H.
    assert (Hc : exists x, e = decode_error x).
    { destruct (b64decode A (payload base64_data)) as [audio | x]; cbn in H.
      - destruct (write_file A output_path audio fs) as [fs' | x]; cbn in H;
          [discriminate H | ].
        injection H as <-. eauto.
      - injection H as <-. eauto. }
    destruct Hc as [x ->]. unfold decode_error. cbn [exn_type exn_msg].
    split; [reflexivity | ].
    split; [apply prefix_app | ].
    apply prefix_contains.
    change ("Failed to decode base64 audio: " ++ exn_msg x)
      with ("Failed to decode base64 audio" ++ (": " ++ exn_msg x)).
    apply prefix_app.
  - apply payload_plain.
  - intros p q Hp Hq ->. apply (payload_fields p q Hp Hq).
  - intros p q rest Hp Hq ->. apply (payload_fields p q Hp Hq).
Qed.

Lemma decode_base64_failures_witness :
  decode_base64 Reference.acquisition "data:audio/mpeg;base64,QUJ" "in.mp3" [] =
    Raise (mk_exn ValueError "Failed to decode base64 audio: Incorrect padding").
Proof.
  destruct (decode_base64_failures Reference.acquisition
              "data:audio/mpeg;base64,QUJ" "in.mp3" []) as (_ & H & _).
  apply (H (mk_exn BinasciiError "Incorrect padding")).
  vm_compute. reflexivity.
Defined.

End Acquisition.

(** ** Evaluations *)

Section Evaluations.

(** The literals of the heuristic, as binary64 numbers. *)
Example literal_0_4 : dec 4 (-1) = S754_finite false 7205759403792794 (-54).
Proof. vm_compute. reflexivity. Qed.

Example literal_0_55 : dec 55 (-2) = S754_finite false 4953959590107546 (-53).
Proof. vm_compute. reflexivity. Qed.

(** The four sums that reach the threshold, and the three that do not. *)
Example sums_of_weights :
  List.map Reference.float_repr
    [ accumulated_score true true true; accumulated_score true true false;
      accumulated_score true false true; accumulated_score false true true;
      accumulated_score true false false; accumulated_score false true false;
      accumulated_score false false true; accumulated_score false false false ]
  = [ "0.8999999999999999"; "0.7"; "0.6000000000000001"; "0.5";
      "0.4"; "0.3"; "0.2"; "0.0" ].
Proof. vm_compute. reflexivity. Qed.

Example heuristic_on_example :
  DecisionService._heuristic_classify (features_dict features_example) =
  mk_result "AI_GENERATED" (dec 55 (-2))
    "Audio shows consistent pitch patterns, minimal natural pauses, normalized volume levels. Features suggest machine-generated speech patterns.".
Proof. vm_compute. reflexivity. Qed.

Example parse_reply_example :
  AIService._parse_llm_response Reference.lib reply_example =
  Return (Some (mk_result "AI_GENERATED" f1_0 "x")).
Proof. vm_compute. reflexivity. Qed.

Example parse_without_braces :
  AIService._parse_llm_response Reference.lib "The audio sounds synthetic." =
  Return None.
Proof. vm_compute. reflexivity. Qed.

Example parse_braces_reversed :
  AIService._parse_llm_response Reference.lib "} {" = Return None.
Proof. vm_compute. reflexivity. Qed.

Example b64decode_examples :
  List.map Reference.b64decode ["QUJD"; "QUJDRA=="; "Q U J D"; "QUJDRA"]
  = [ Return "ABC"; Return "ABCD"; Return "ABC";
      Raise (mk_exn BinasciiError "Incorrect padding") ].
Proof. vm_compute. reflexivity. Qed.

End Evaluations.

(** * Further properties *)

(** ** The heuristic and the orchestrator *)

Section HeuristicMore.

Import DecisionService.

(** X1. The verdict of the heuristic is a majority vote: it is AI_GENERATED
    exactly when at least two of the three tests hold (the sum 0.3 + 0.2 of
    the two smallest weights is exactly 0.5), and HUMAN otherwise. *)
Theorem heuristic_majority (features : dict float) :
  field "classification" (_heuristic_classify features) =
  Some (PStr (if (low_pitch_variance features && low_silence_ratio features)
                 || (low_pitch_variance features && normalized_volume features)
                 || (low_silence_ratio features && normalized_volume features)
              then AI_GENERATED else HUMAN)).
Proof.
  destruct (heuristic_classify_fields features) as [-> _].
  rewrite ai_score_accumulated.
  destruct (low_pitch_variance features), (low_silence_ratio features),
    (normalized_volume features); vm_compute; reflexivity.
Qed.

(** X2. The explanation of the heuristic is never cut: it is the whole
    sentence built from the reasons in their fixed order, or the whole
    sentence of the HUMAN verdict, and it has at most 141 characters. *)
Theorem heuristic_explanation_whole (features : dict float) :
  exists e,
    field "explanation" (_heuristic_classify features) = Some (PStr e)
    /\ e = (if fge (ai_score features) (dec 5 (-1))
            then ai_explanation (reasons features) else human_explanation)
    /\ (0 < Str.len e <= 141)%Z.
Proof.
  unfold _heuristic_classify, ai_score, reasons.
  rewrite heuristic_scoring_cases.
  destruct (low_pitch_variance features), (low_silence_ratio features),
    (normalized_volume features);
    (eexists; split; [vm_compute; reflexivity | ]);
    (split; [vm_compute; reflexivity | vm_compute; split; [reflexivity | discriminate]]).
Qed.

(** X3. The heuristic reads only the keys pitch_variance, silence_ratio and
    avg_volume: two feature dictionaries that agree on them get the same
    result, whatever their duration and their other keys. *)
Theorem heuristic_reads_three_keys (f1 f2 : dict float) :
  Dict.get "pitch_variance" f1 = Dict.get "pitch_variance" f2 ->
  Dict.get "silence_ratio" f1 = Dict.get "silence_ratio" f2 ->
  Dict.get "avg_volume" f1 = Dict.get "avg_volume" f2 ->
  _heuristic_classify f1 = _heuristic_classify f2.
Proof.
  intros Hp Hs Hv.
  unfold _heuristic_classify, heuristic_scoring, Dict.get_default.
  rewrite Hp, Hs, Hv. reflexivity.
Qed.

Lemma heuristic_reads_three_keys_witness :
  _heuristic_classify
    (features_dict (mk_features (dec 3 0) (dec 1 (-2)) (dec 5 (-2)) (dec 1 (-1))))
  = _heuristic_classify
      (features_dict (mk_features (dec 250 0) (dec 1 (-2)) (dec 5 (-2)) (dec 1 (-1)))).
Proof.
  apply heuristic_reads_three_keys; reflexivity.
Defined.

(** X4. Whatever the LLM path does, the result of the orchestrator passes
    the orchestrator's own validity check. *)
Theorem classify_result_passes_check
  (llm : dict float -> string -> exc (option pyval))
  (features : dict float) (language : string) :
  exists r,
    classify llm features language = Return r
    /\ py_truthy r && _validate_result r = true.
Proof.
  assert (Hh : py_truthy (_heuristic_classify features)
               && _validate_result (_heuristic_classify features) = true).
  { apply validate_result_spec. apply heuristic_result_valid. }
  unfold classify.
  destruct (llm features language) as [[r | ] | e]; eauto.
  destruct (py_truthy r && _validate_result r) eqn:E; eauto.
Qed.

End HeuristicMore.

(** ** Comparison of floats *)

Section FloatOrder.

Lemma SFcompare_swap (x y : float) :
  SFcompare y x =
  match SFcompare x y with
  | Some c => Some (CompOpp c)
  | None => None
  end.
Proof.
  destruct x as [sx | sx | | sx mx ex], y as [sy | sy | | sy my ey]; cbn;
    try reflexivity;
    try (destruct sx; reflexivity);
    try (destruct sy; reflexivity);
    try (destruct sx, sy; reflexivity).
  pose proof (Pos.compare_cont_antisym mx my Eq) as Hm. cbn in Hm.
  destruct sx, sy; try reflexivity;
    rewrite (Z.compare_antisym ex ey);
    destruct (Z.compare ex ey); cbn; try reflexivity;
    rewrite <- Hm;
    destruct (Pos.compare_cont Eq mx my); reflexivity.
Qed.

(** [x <= y] excludes [y < x]. *)
Lemma fle_not_flt (x y : float) : fle x y = true -> flt y x = false.
Proof.
  unfold fle, flt, SFleb, SFltb. rewrite (SFcompare_swap x y).
  destruct (SFcompare x y) as [[ | | ] | ]; intros H;
    try discriminate H; reflexivity.
Qed.

Lemma f1_0_value : f1_0 = S754_finite false 4503599627370496 (-52).
Proof. vm_compute. reflexivity. Qed.

(** A float that is at most 0.0 is below 1.0. *)
Lemma nonpositive_below_one (c : float) : fle c f0_0 = true -> flt c f1_0 = true.
Proof.
  rewrite f1_0_value. intros H.
  destruct c as [s | s | | s m e]; try destruct s; cbn in H;
    first [discriminate H | reflexivity].
Qed.

End FloatOrder.

(** ** More on the result of the parser *)

Section ParserMore.

Import AIService DecisionService.

(** X5. The confidence of a reply is clamped as follows: a NaN becomes
    1.0, a number that is at most 0.0 (minus zero and minus infinity
    included) becomes 0.0, a number that is at least 1.0 becomes 1.0, and a
    number strictly between 0.0 and 1.0 is kept. *)
Theorem clamp01_cases (c : float) :
  (is_nan c = true -> clamp01 c = f1_0)
  /\ (fle c f0_0 = true -> clamp01 c = f0_0)
  /\ (fle f1_0 c = true -> clamp01 c = f1_0)
  /\ (flt f0_0 c = true -> flt c f1_0 = true -> clamp01 c = c).
Proof.
  unfold clamp01, py_min, py_max, fgt.
  split; [ | split; [ | split]].
  - intros H. destruct c; cbn in H; try discriminate H. vm_compute. reflexivity.
  - intros H. rewrite (nonpositive_below_one c H).
    pose proof (fle_not_flt c f0_0 H) as H0. unfold flt in H0.
    rewrite H0. reflexivity.
  - intros H. rewrite (fle_not_flt f1_0 c H). vm_compute. reflexivity.
  - intros H0 H1. rewrite H1. unfold flt in H0. rewrite H0. reflexivity.
Qed.

Lemma clamp01_cases_witness :
  clamp01 (dec (-25) (-1)) = f0_0 /\ clamp01 (dec 2 0) = f1_0
  /\ clamp01 (dec 7 (-1)) = dec 7 (-1).
Proof.
  split; [ | split].
  - destruct (clamp01_cases (dec (-25) (-1))) as (_ & H & _).
    apply H. vm_compute. reflexivity.
  - destruct (clamp01_cases (dec 2 0)) as (_ & _ & H & _).
    apply H. vm_compute. reflexivity.
  - destruct (clamp01_cases (dec 7 (-1))) as (_ & _ & _ & H).
    apply H; vm_compute; reflexivity.
Defined.

Lemma well_formed_valid (r : pyval) :
  well_formed_result r ->
  (py_truthy r && _validate_result r = true
   <-> field "explanation" r <> Some (PStr EmptyString)).
Proof.
  intros (Hc & (c & Hf & H0 & H1) & (e & He & _)).
  rewrite validate_result_spec. rewrite He.
  destruct r as [ | | | | | | d];
    try (destruct Hc as [Hc | Hc]; discriminate Hc).
  cbn [field] in *.
  split.
  - intros (d' & Hd & _ & _ & (e' & He' & Hne)). injection Hd as <-.
    rewrite He in He'. injection He' as <-. congruence.
  - intros Hne. exists d. split; [reflexivity | ].
    split; [exact Hc | ].
    split; [exists (PFloat c); cbn; auto | ].
    exists e. split; [exact He | ]. intros ->. apply Hne. reflexivity.
Qed.

(** X6. A result of the parser passes the validity check of the
    orchestrator exactly when its explanation is not empty; so an empty
    explanation is the only reason for the orchestrator to discard what the
    parser returns. *)
Theorem parsed_result_check (L : Library) (response : string) (r : pyval) :
  _parse_llm_response L response = Return (Some r) ->
  (py_truthy r && _validate_result r = true
   <-> field "explanation" r <> Some (PStr EmptyString))
  /\ (forall features language,
        classify (fun _ _ => _parse_llm_response L response) features language =
        Return (if py_truthy r && _validate_result r
                then r else _heuristic_classify features)).
Proof.
  intros H. split.
  - apply well_formed_valid. apply (parse_result_well_formed L response r H).
  - intros features language. unfold classify. rewrite H.
    destruct (py_truthy r && _validate_result r); reflexivity.
Qed.

Lemma parsed_result_check_witness :
  classify (fun _ _ => _parse_llm_response Reference.lib reply_example)
    (features_dict features_example) "en"
  = Return (mk_result "AI_GENERATED" f1_0 "x").
Proof.
  destruct (parsed_result_check Reference.lib reply_example
              (mk_result "AI_GENERATED" f1_0 "x")) as (_ & H).
  - vm_compute. reflexivity.
  - rewrite H. reflexivity.
Defined.

Lemma with_defaults_other (d : dict pyval) (k : string) :
  k <> "confidence" -> k <> "explanation" ->
  Dict.get k (with_defaults d) = Dict.get k d.
Proof.
  intros H1 H2. unfold with_defaults.
  destruct (Dict.mem "confidence" d);
    destruct (Dict.mem "explanation" _);
    rewrite ?get_set_other by assumption; reflexivity.
Qed.

(** X7. The parser rewrites three keys and keeps the rest: every other key
    of the decoded object is in the result with its value unchanged, and
    the result has no key that the object did not have, the three apart. *)
Theorem parse_keeps_other_keys (L : Library) (response json_str : string)
  (d : dict pyval) (r : pyval) (k : string) :
  extract_json response = Some json_str ->
  json_loads L json_str = Return (PDict d) ->
  _parse_llm_response L response = Return (Some r) ->
  k <> "classification" -> k <> "confidence" -> k <> "explanation" ->
  field k r = Dict.get k d.
Proof.
  intros Hx Hj Hr H1 H2 H3.
  rewrite (parse_dict L response json_str d Hx Hj) in Hr.
  injection Hr as Hr. apply parse_outcome_some in Hr as (raw & f & _ & _ & ->).
  unfold field, rewritten.
  rewrite !get_set_other by assumption.
  apply with_defaults_other; assumption.
Qed.

Lemma parse_keeps_other_keys_witness :
  field "model"
    (PDict [("classification", PStr "HUMAN"); ("model", PStr "v1");
            ("confidence", PFloat (dec 7 (-1)));
            ("explanation",
             PStr "Classification based on audio feature analysis.")])
  = Some (PStr "v1").
Proof.
  rewrite (parse_keeps_other_keys Reference.lib reply_with_model
             reply_with_model
             [("classification", PStr "HUMAN"); ("model", PStr "v1")]
             _ "model").
  - reflexivity.
  - vm_compute. reflexivity.
  - vm_compute. reflexivity.
  - vm_compute. reflexivity.
  - intros H. discriminate H.
  - intros H. discriminate H.
  - intros H. discriminate H.
Defined.

End ParserMore.

(** ** The controller *)

Section Controller.

Import DetectController.

Lemma get_remove_same {V : Type} (k : string) (d : dict V) :
  Dict.get k (dict_remove k d) = None.
Proof.
  induction d as [ | [k' v] r IH]; cbn; [reflexivity | ].
  destruct (String.eqb k k') eqn:E; [exact IH | ].
  cbn. rewrite E. exact IH.
Qed.

Lemma get_remove_other {V : Type} (k k' : string) (d : dict V) :
  k <> k' -> Dict.get k (dict_remove k' d) = Dict.get k d.
Proof.
  intros Hk. induction d as [ | [k'' v] r IH]; cbn; [reflexivity | ].
  destruct (String.eqb k' k'') eqn:E.
  - apply String.eqb_eq in E. subst k''.
    apply String.eqb_neq in Hk. rewrite Hk. exact IH.
  - cbn. rewrite IH. reflexivity.
Qed.

Lemma os_remove_removes : removes os_remove.
Proof.
  intros path fs H. exists (dict_remove path fs). unfold os_remove. rewrite H.
  split; [reflexivity | ].
  split.
  - unfold Dict.mem. rewrite get_remove_same. reflexivity.
  - intros q Hq. apply get_remove_other. exact Hq.
Qed.

Lemma remove_if_exists_spec (rm : string -> filesystem -> exc filesystem)
  (path : string) (fs : filesystem) :
  removes rm ->
  Dict.mem path (remove_if_exists rm path fs) = false
  /\ (forall q, q <> path ->
        Dict.get q (remove_if_exists rm path fs) = Dict.get q fs).
Proof.
  intros Hrm. unfold remove_if_exists.
  destruct (Dict.mem path fs) eqn:E.
  - destruct (Hrm path fs E) as (fs' & -> & H1 & H2). auto.
  - auto.
Qed.

Lemma mem_get_eq {V : Type} (k : string) (d d' : dict V) :
  Dict.get k d = Dict.get k d' -> Dict.mem k d = Dict.mem k d'.
Proof. unfold Dict.mem. intros ->. reflexivity. Qed.

Lemma detect_eq (S : Services) (rm : string -> filesystem -> exc filesystem)
  (temp_dir file_id : string) (audio_url audio_base64 : option string)
  (language : string) (fs : filesystem) :
  detect S rm temp_dir file_id audio_url audio_base64 language fs =
  (fst (pipeline S (input_path temp_dir file_id) (wav_path temp_dir file_id)
          audio_url audio_base64 language fs),
   remove_if_exists rm (wav_path temp_dir file_id)
     (remove_if_exists rm (input_path temp_dir file_id)
        (snd (pipeline S (input_path temp_dir file_id) (wav_path temp_dir file_id)
                audio_url audio_base64 language fs)))).
Proof.
  unfold detect.
  destruct (pipeline S _ _ audio_url audio_base64 language fs) as [outcome fs'].
  reflexivity.
Qed.

Lemma pipeline_eq (S : Services) (input_path wav_path : string)
  (audio_url audio_base64 : option string) (language : string) (fs : filesystem) :
  pipeline S input_path wav_path audio_url audio_base64 language fs =
  match audio_steps S input_path wav_path audio_url audio_base64 fs with
  | (Return features, fs') => (classify S features language, fs')
  | (Raise e, fs') => (Raise e, fs')
  end.
Proof.
  unfold pipeline, audio_steps, io_bind.
  match goal with
  | |- context [match ?c fs with _ => _ end] => destruct (c fs) as [[u | e] fs1]
  end; [ | reflexivity].
  destruct (convert_to_wav S input_path wav_path fs1) as [[u' | e] fs2];
    [ | reflexivity].
  destruct (extract_features S wav_path fs2) as [[features | e] fs3]; reflexivity.
Qed.

(** X8. Whatever the pipeline does, returning or raising, the two
    temporary files of the request do not exist when [detect] is over, the
    other files are as the pipeline left them, and the outcome of [detect]
    is the outcome of the pipeline (given an [os.remove] that removes). *)
Theorem detect_cleans_up (S : Services)
  (rm : string -> filesystem -> exc filesystem)
  (temp_dir file_id : string) (audio_url audio_base64 : option string)
  (language : string) (fs : filesystem) :
  removes rm ->
  Dict.mem (input_path temp_dir file_id)
    (snd (detect S rm temp_dir file_id audio_url audio_base64 language fs)) = false
  /\ Dict.mem (wav_path temp_dir file_id)
       (snd (detect S rm temp_dir file_id audio_url audio_base64 language fs)) = false
  /\ (forall q,
        q <> input_path temp_dir file_id -> q <> wav_path temp_dir file_id ->
        Dict.get q
          (snd (detect S rm temp_dir file_id audio_url audio_base64 language fs)) =
        Dict.get q
          (snd (pipeline S (input_path temp_dir file_id) (wav_path temp_dir file_id)
                  audio_url audio_base64 language fs)))
  /\ fst (detect S rm temp_dir file_id audio_url audio_base64 language fs) =
     fst (pipeline S (input_path temp_dir file_id) (wav_path temp_dir file_id)
            audio_url audio_base64 language fs).
Proof.
  intros Hrm. rewrite detect_eq. cbn [fst snd].
  set (ip := input_path temp_dir file_id).
  set (wp := wav_path temp_dir file_id).
  set (fs1 := snd (pipeline S ip wp audio_url audio_base64 language fs)).
  destruct (remove_if_exists_spec rm ip fs1 Hrm) as (Hi1 & Hi2).
  destruct (remove_if_exists_spec rm wp (remove_if_exists rm ip fs1) Hrm)
    as (Hw1 & Hw2).
  split; [ | split; [exact Hw1 | split; [ | reflexivity]]].
  - destruct (string_dec ip wp) as [E | N].
    + rewrite E at 1. exact Hw1.
    + rewrite (mem_get_eq ip _ (remove_if_exists rm ip fs1) (Hw2 ip N)).
      exact Hi1.
  - intros q Hq1 Hq2. rewrite (Hw2 q Hq2). apply Hi2. exact Hq1.
Qed.

Lemma detect_cleans_up_witness :
  Dict.mem "app/tmp/1a2b3c4d_input.mp3"
    (snd (detect
            (services offline Reference.acquisition (fun fs => fs) copying
               one_frame_per_byte (fun _ _ => Return None))
            os_remove "app/tmp" "1a2b3c4d" None (Some "QUJD") "en"
            [("app/tmp/keep.wav", "RIFF")])) = false
  /\ Dict.mem "app/tmp/1a2b3c4d_input.mp3"
       (snd (pipeline
               (services offline Reference.acquisition (fun fs => fs) copying
                  one_frame_per_byte (fun _ _ => Return None))
               "app/tmp/1a2b3c4d_input.mp3" "app/tmp/1a2b3c4d_processed.wav"
               None (Some "QUJD") "en"
               [("app/tmp/keep.wav", "RIFF")])) = true.
Proof.
  split.
  - apply (detect_cleans_up
             (services offline Reference.acquisition (fun fs => fs) copying
                one_frame_per_byte (fun _ _ => Return None))
             os_remove "app/tmp" "1a2b3c4d" None (Some "QUJD") "en"
             [("app/tmp/keep.wav", "RIFF")] os_remove_removes).
  - vm_compute. reflexivity.
Defined.

(** X9. The audio of a request is chosen as follows.  With a non-empty
    audio_url, [detect] is the run that starts with the download of that
    URL into the input file of the request: what the download raises,
    [detect] raises once the clean-up is done, and the base64 text and the
    decoder play no part.  With no audio_url (or an empty one) and a
    non-empty audio_base64, it is the run that starts with the decoder on
    that text, and the download plays no part.  With neither, [detect]
    raises ValueError 'No audio provided' and no service is called. *)
Theorem detect_input_selection (S : Services)
  (rm : string -> filesystem -> exc filesystem)
  (temp_dir file_id : string) (audio_url audio_base64 : option string)
  (language : string) (fs : filesystem) :
  (given audio_url = true ->
   detect S rm temp_dir file_id audio_url audio_base64 language fs =
     runs (download_audio S (text audio_url)) S rm temp_dir file_id language fs
   /\ (forall e fs1,
         download_audio S (text audio_url) (input_path temp_dir file_id) fs =
           (Raise e, fs1) ->
         detect S rm temp_dir file_id audio_url audio_base64 language fs =
           (Raise e,
            cleanup rm [input_path temp_dir file_id; wav_path temp_dir file_id] fs1))
   /\ (forall other_base64 other_decoder,
         detect S rm temp_dir file_id audio_url audio_base64 language fs =
         detect (Build_Services (download_audio S) other_decoder (convert_to_wav S)
                   (extract_features S) (classify S))
           rm temp_dir file_id audio_url other_base64 language fs))
  /\ (given audio_url = false -> given audio_base64 = true ->
      detect S rm temp_dir file_id audio_url audio_base64 language fs =
        runs (decode_base64 S (text audio_base64)) S rm temp_dir file_id language fs
      /\ (forall e fs1,
            decode_base64 S (text audio_base64) (input_path temp_dir file_id) fs =
              (Raise e, fs1) ->
            detect S rm temp_dir file_id audio_url audio_base64 language fs =
              (Raise e,
               cleanup rm [input_path temp_dir file_id; wav_path temp_dir file_id]
                 fs1))
      /\ (forall other_url other_download,
            given other_url = false ->
            detect S rm temp_dir file_id audio_url audio_base64 language fs =
            detect (Build_Services other_download (decode_base64 S) (convert_to_wav S)
                      (extract_features S) (classify S))
              rm temp_dir file_id other_url audio_base64 language fs))
  /\ (given audio_url = false -> given audio_base64 = false ->
      detect S rm temp_dir file_id audio_url audio_base64 language fs =
      (Raise (mk_exn ValueError "No audio provided"),
       cleanup rm [input_path temp_dir file_id; wav_path temp_dir file_id] fs)).
Proof.
  split; [ | split].
  - intros Hu.
    assert (Hrun :
      detect S rm temp_dir file_id audio_url audio_base64 language fs =
      runs (download_audio S (text audio_url)) S rm temp_dir file_id language fs).
    { unfold detect, pipeline, runs, after_acquisition, io_bind. rewrite Hu.
      destruct (download_audio S (text audio_url) (input_path temp_dir file_id) fs)
        as [[u | e] fs1]; [ | reflexivity].
      destruct (convert_to_wav S _ _ fs1) as [[u' | e] fs2]; [ | reflexivity].
      destruct (extract_features S _ fs2) as [[features | e] fs3]; reflexivity. }
    split; [exact Hrun | split].
    + intros e fs1 He. rewrite Hrun. unfold runs. rewrite He. reflexivity.
    + intros other_base64 other_decoder.
      unfold detect, pipeline. cbn [download_audio decode_base64 convert_to_wav
                                     extract_features classify].
      rewrite Hu. reflexivity.
  - intros Hu Hb.
    assert (Hrun :
      detect S rm temp_dir file_id audio_url audio_base64 language fs =
      runs (decode_base64 S (text audio_base64)) S rm temp_dir file_id language fs).
    { unfold detect, pipeline, runs, after_acquisition, io_bind. rewrite Hu, Hb.
      destruct (decode_base64 S (text audio_base64) (input_path temp_dir file_id) fs)
        as [[u | e] fs1]; [ | reflexivity].
      destruct (convert_to_wav S _ _ fs1) as [[u' | e] fs2]; [ | reflexivity].
      destruct (extract_features S _ fs2) as [[features | e] fs3]; reflexivity. }
    split; [exact Hrun | split].
    + intros e fs1 He. rewrite Hrun. unfold runs. rewrite He. reflexivity.
    + intros other_url other_download Ho.
      unfold detect, pipeline. cbn [download_audio decode_base64 convert_to_wav
                                     extract_features classify].
      rewrite Hu, Hb, Ho. reflexivity.
  - intros Hu Hb. unfold detect, pipeline, io_bind, io_raise.
    rewrite Hu, Hb. reflexivity.
Qed.

Lemma detect_input_selection_witness :
  detect (services offline Reference.acquisition (fun fs => fs) copying
            one_frame_per_byte (fun _ _ => Return None))
    os_remove "app/tmp" "1a2b3c4d" (Some "http://host/a.mp3") (Some "QUJD") "en" []
  = (Raise (mk_exn ValueError "Failed to download audio: Network is unreachable"),
     [])
  /\ fst (detect (services offline Reference.acquisition (fun fs => fs) copying
                    one_frame_per_byte (fun _ _ => Return None))
            os_remove "app/tmp" "1a2b3c4d" (Some EmptyString) (Some "QUJD") "en" [])
     = Return (DecisionService._heuristic_classify
                 [("duration", dec 3 0); ("silence_ratio", f0_0);
                  ("avg_volume", dec 5 (-2)); ("pitch_variance", f0_0)]).
Proof.
  split.
  - destruct (detect_input_selection
                (services offline Reference.acquisition (fun fs => fs) copying
                   one_frame_per_byte (fun _ _ => Return None))
                os_remove "app/tmp" "1a2b3c4d" (Some "http://host/a.mp3")
                (Some "QUJD") "en" [])
      as (H & _).
    destruct (H eq_refl) as (_ & H1 & _).
    rewrite (H1 (mk_exn ValueError "Failed to download audio: Network is unreachable")
               []); [reflexivity | vm_compute; reflexivity].
  - destruct (detect_input_selection
                (services offline Reference.acquisition (fun fs => fs) copying
                   one_frame_per_byte (fun _ _ => Return None))
                os_remove "app/tmp" "1a2b3c4d" (Some EmptyString)
                (Some "QUJD") "en" [])
      as (_ & H & _).
    destruct (H eq_refl eq_refl) as (H1 & _).
    rewrite H1. vm_compute. reflexivity.
Defined.

(** X10. A request fails only in its audio steps: when acquisition,
    conversion and extraction give the features, [detect] returns the
    result of the orchestrator on them, which passes the validity check;
    when one of them raises, [detect] raises the same exception.  The
    classification itself never makes a request fail. *)
Theorem detect_fails_only_in_audio_steps (S : Services)
  (llm : dict float -> string -> exc (option pyval))
  (rm : string -> filesystem -> exc filesystem)
  (temp_dir file_id : string) (audio_url audio_base64 : option string)
  (language : string) (fs : filesystem) :
  classify S = DecisionService.classify llm ->
  match fst (audio_steps S (input_path temp_dir file_id) (wav_path temp_dir file_id)
               audio_url audio_base64 fs) with
  | Return features =>
      exists r,
        fst (detect S rm temp_dir file_id audio_url audio_base64 language fs) =
          Return r
        /\ DecisionService.classify llm features language = Return r
        /\ py_truthy r && DecisionService._validate_result r = true
  | Raise e =>
      fst (detect S rm temp_dir file_id audio_url audio_base64 language fs) = Raise e
  end.
Proof.
  intros Hc. rewrite detect_eq, pipeline_eq. cbn [fst].
  destruct (audio_steps S _ _ audio_url audio_base64 fs) as [[features | e] fs'];
    cbn [fst]; [ | reflexivity].
  rewrite Hc.
  assert (Hh : py_truthy (DecisionService._heuristic_classify features)
               && DecisionService._validate_result
                    (DecisionService._heuristic_classify features) = true).
  { apply validate_result_spec. apply heuristic_result_valid. }
  unfold DecisionService.classify.
  destruct (llm features language) as [[r | ] | e]; eauto.
  destruct (py_truthy r && DecisionService._validate_result r) eqn:E; eauto.
Qed.

Lemma detect_fails_only_in_audio_steps_witness :
  exists r,
    fst (detect
           (services offline Reference.acquisition (fun fs => fs) copying
              one_frame_per_byte (fun _ _ => Return None))
           os_remove "app/tmp" "1a2b3c4d" None (Some "QUJD") "en" []) = Return r
    /\ py_truthy r && DecisionService._validate_result r = true.
Proof.
  pose proof (detect_fails_only_in_audio_steps
                (services offline Reference.acquisition (fun fs => fs) copying
                   one_frame_per_byte (fun _ _ => Return None))
                (fun _ _ => Return None)
                os_remove "app/tmp" "1a2b3c4d" None (Some "QUJD") "en" [] eq_refl)
    as H.
  destruct (audio_steps _ _ _ None (Some "QUJD") []) as [[features | e] fs'] eqn:E.
  - destruct H as (r & H1 & _ & H2). exists r. split; assumption.
  - vm_compute in E. discriminate E.
Defined.

End Controller.

(** ** The endpoint *)

Section Api.

Import ApiV1.

Lemma detect_voice_missing (E : Environment) (request : DetectRequest)
  (ok : bool) (fs : filesystem) :
  given (audio_url request) = false -> given (audio_base64 request) = false ->
  detect_voice E request ok fs =
    (Failed (HTTPException 400 missing_audio []), fs).
Proof. intros Hu Hb. unfold detect_voice. rewrite Hu, Hb. reflexivity. Qed.

Lemma negb_and_given (request : DetectRequest) :
  given (audio_url request) || given (audio_base64 request) = true ->
  negb (given (audio_url request)) && negb (given (audio_base64 request)) = false.
Proof.
  destruct (given (audio_url request)), (given (audio_base64 request));
    intros H; try discriminate H; reflexivity.
Qed.

Lemma detect_voice_init_raise (E : Environment) (request : DetectRequest)
  (ok : bool) (fs fs1 : filesystem) (e : exn) :
  given (audio_url request) || given (audio_base64 request) = true ->
  DetectController.__init__ (new_services E) (makedirs E) (temp_dir E) fs =
    (Raise e, fs1) ->
  detect_voice E request ok fs = (Failed (Uncaught e), fs1).
Proof.
  intros Hg Hi. unfold detect_voice. rewrite (negb_and_given request Hg), Hi.
  reflexivity.
Qed.

Lemma detect_voice_run (E : Environment) (request : DetectRequest)
  (ok : bool) (fs fs1 : filesystem) (controller : DetectController.Services) :
  given (audio_url request) || given (audio_base64 request) = true ->
  DetectController.__init__ (new_services E) (makedirs E) (temp_dir E) fs =
    (Return controller, fs1) ->
  fst (detect_voice E request ok fs) =
    answer (result <- fst (DetectController.detect controller (remove E)
                             (temp_dir E) (file_id E) (audio_url request)
                             (audio_base64 request) (language request) fs1) ;;
            DetectResponse E result).
Proof.
  intros Hg Hi. unfold detect_voice. rewrite (negb_and_given request Hg), Hi.
  destruct (DetectController.detect controller (remove E) (temp_dir E) (file_id E)
              (audio_url request) (audio_base64 request) (language request) fs1)
    as [outcome fs2].
  cbn [fst]. unfold answer.
  destruct (result <- outcome ;; DetectResponse E result) as [response | e];
    [reflexivity | ].
  destruct (is_ValueError (exn_type e)); reflexivity.
Qed.

Lemma pyval_PStr_dec (v : pyval) (token : string) :
  v = PStr token \/ v <> PStr token.
Proof.
  destruct (is_str token v) eqn:E.
  - left. apply is_str_eq. exact E.
  - right. intros H. apply is_str_eq in H. rewrite H in E. discriminate E.
Qed.

Lemma post_detect_valid (settings : Config.Settings) (token : string)
  (E : Environment) (request : DetectRequest) (fs : filesystem) :
  Config.API_KEY settings = PStr token ->
  post_detect settings (Returned (Some token)) E request fs =
    detect_voice E request true fs.
Proof.
  intros Hk. unfold post_detect, ApiKey.verify_api_key.
  rewrite (proj2 (is_str_eq token _) Hk). reflexivity.
Qed.

Lemma post_detect_invalid (settings : Config.Settings) (token : string)
  (E : Environment) (request : DetectRequest) (fs : filesystem) :
  Config.API_KEY settings <> PStr token ->
  post_detect settings (Returned (Some token)) E request fs =
    (Failed (HTTPException 401 "Invalid API key" [("WWW-Authenticate", "Bearer")]),
     fs).
Proof.
  intros Hk. unfold post_detect, ApiKey.verify_api_key.
  destruct (is_str token (Config.API_KEY settings)) eqn:Ei; [ | reflexivity].
  apply is_str_eq in Ei. contradiction.
Qed.

Lemma answer_cases (outcome : exc pyval) :
  (exists response, outcome = Return response /\ answer outcome = Returned response)
  \/ (exists e, outcome = Raise e /\ is_ValueError (exn_type e) = true
                /\ answer outcome = Failed (HTTPException 422 (exn_msg e) []))
  \/ (exists e, outcome = Raise e /\ is_ValueError (exn_type e) = false
                /\ answer outcome =
                   Failed (HTTPException 500 "Internal server error" [])).
Proof.
  destruct outcome as [response | e]; [left; eauto | ].
  unfold answer. destruct (is_ValueError (exn_type e)) eqn:V.
  - right; left. exists e. rewrite V. auto.
  - right; right. exists e. rewrite V. auto.
Qed.

(** X11. The answers of the route.  An exception of the bearer scheme is
    the answer.  Without credentials the answer is 401 'Missing
    authorization header', with a token that is not the API key of the
    settings it is 401 'Invalid API key', both with the header
    WWW-Authenticate: Bearer, and the handler is not run.  With the right
    token: the answer is 400 when the request has neither a non-empty
    audio_url nor a non-empty audio_base64, and the controller is not built;
    otherwise the controller is built before the try block, so an exception
    of its constructor leaves the handler uncaught; once it is built, the
    handler returns the response when the controller returns a result that
    the response model accepts, raises 422 with the message of the
    exception when one of them raises a ValueError, and 500 with the fixed
    text 'Internal server error' when they raise anything else.  So the
    handler returns exactly in the one case, and an HTTP exception of the
    route has status 401, 400, 422 or 500, where 500 carries the fixed
    text. *)
Theorem endpoint_status (settings : Config.Settings)
  (credentials : option string) (E : Environment) (request : DetectRequest)
  (fs : filesystem) :
  (forall r, post_detect settings (Failed r) E request fs = (Failed r, fs))
  /\ (credentials = None ->
      post_detect settings (Returned credentials) E request fs =
        (Failed (HTTPException 401 "Missing authorization header"
                   [("WWW-Authenticate", "Bearer")]), fs))
  /\ (forall token,
        credentials = Some token -> Config.API_KEY settings <> PStr token ->
        post_detect settings (Returned credentials) E request fs =
          (Failed (HTTPException 401 "Invalid API key"
                     [("WWW-Authenticate", "Bearer")]), fs))
  /\ (forall token,
        credentials = Some token -> Config.API_KEY settings = PStr token ->
        (given (audio_url request) = false ->
         given (audio_base64 request) = false ->
         post_detect settings (Returned credentials) E request fs =
           (Failed (HTTPException 400
                      "Missing audio: provide either audio_url or audio_base64" []),
            fs))
        /\ (given (audio_url request) || given (audio_base64 request) = true ->
            (forall e fs1,
               DetectController.__init__ (new_services E) (makedirs E) (temp_dir E)
                 fs = (Raise e, fs1) ->
               post_detect settings (Returned credentials) E request fs =
                 (Failed (Uncaught e), fs1))
            /\ (forall controller fs1,
                  DetectController.__init__ (new_services E) (makedirs E)
                    (temp_dir E) fs = (Return controller, fs1) ->
                  fst (post_detect settings (Returned credentials) E request fs) =
                    answer
                      (result <- fst (DetectController.detect controller (remove E)
                                        (temp_dir E) (file_id E) (audio_url request)
                                        (audio_base64 request) (language request)
                                        fs1) ;;
                       DetectResponse E result))))
  /\ (forall response,
        fst (post_detect settings (Returned credentials) E request fs) =
          Returned response
        <-> exists token controller fs1,
              credentials = Some token
              /\ Config.API_KEY settings = PStr token
              /\ given (audio_url request) || given (audio_base64 request) = true
              /\ DetectController.__init__ (new_services E) (makedirs E)
                   (temp_dir E) fs = (Return controller, fs1)
              /\ (result <- fst (DetectController.detect controller (remove E)
                                   (temp_dir E) (file_id E) (audio_url request)
                                   (audio_base64 request) (language request) fs1) ;;
                  DetectResponse E result) = Return response)
  /\ (forall status_code detail headers,
        fst (post_detect settings (Returned credentials) E request fs) =
          Failed (HTTPException status_code detail headers) ->
        (status_code = 401
         /\ (detail = "Missing authorization header" \/ detail = "Invalid API key")
         /\ headers = [("WWW-Authenticate", "Bearer")])
        \/ (status_code = 400
            /\ detail = "Missing audio: provide either audio_url or audio_base64"
            /\ headers = [])
        \/ (status_code = 422 /\ headers = [])
        \/ (status_code = 500 /\ detail = "Internal server error" /\ headers = [])).
Proof.
  split; [intros r; reflexivity | ].
  destruct credentials as [token | ].
  2: { split; [reflexivity | ].
       split; [intros token H; discriminate H | ].
       split; [intros token H; discriminate H | ].
       split.
       - intros response. split; [intros H; discriminate H | ].
         intros (token & _ & _ & H & _). discriminate H.
       - intros status_code detail headers H. cbn in H. injection H as <- <- <-.
         left. auto. }
  split; [intros H; discriminate H | ].
  split; [intros t H; injection H as <-; apply post_detect_invalid | ].
  destruct (pyval_PStr_dec (Config.API_KEY settings) token) as [Hk | Hk].
  2: { split; [intros t H Ht; injection H as <-; contradiction | ].
       rewrite (post_detect_invalid settings token E request fs Hk). cbn [fst].
       split.
       - intros response. split; [intros H; discriminate H | ].
         intros (t & _ & _ & H & Ht & _). injection H as <-. contradiction.
       - intros status_code detail headers H. injection H as <- <- <-.
         left. auto. }
  rewrite (post_detect_valid settings token E request fs Hk).
  destruct (given (audio_url request) || given (audio_base64 request)) eqn:Hg.
  2: { apply orb_false_iff in Hg as [Hu Hb].
       rewrite (detect_voice_missing E request true fs Hu Hb). cbn [fst].
       split.
       - intros t _ _. split; [reflexivity | ]. intros H. discriminate H.
       - split.
         + intros response. split; [intros H; discriminate H | ].
           intros (_ & _ & _ & _ & _ & H & _). discriminate H.
         + intros status_code detail headers H. injection H as <- <- <-.
           right; left. auto. }
  destruct (DetectController.__init__ (new_services E) (makedirs E) (temp_dir E) fs)
    as [[controller | e] fs1] eqn:Hi.
  2: { rewrite (detect_voice_init_raise E request true fs fs1 e Hg Hi). cbn [fst].
       split.
       - intros t _ _. split.
         + intros Hu Hb. rewrite Hu, Hb in Hg. discriminate Hg.
         + intros _. split.
           * intros e' fs' H. injection H as <- <-. reflexivity.
           * intros c fs' H. discriminate H.
       - split.
         + intros response. split; [intros H; discriminate H | ].
           intros (_ & c & fs' & _ & _ & _ & H & _). discriminate H.
         + intros status_code detail headers H. discriminate H. }
  assert (Hrun := detect_voice_run E request true fs fs1 controller Hg Hi).
  split.
  - intros t _ _. split.
    + intros Hu Hb. rewrite Hu, Hb in Hg. discriminate Hg.
    + intros _. split.
      * intros e' fs' H. discriminate H.
      * intros c fs' H. injection H as <- <-. exact Hrun.
  - rewrite Hrun.
    destruct (answer_cases
                (result <- fst (DetectController.detect controller (remove E)
                                  (temp_dir E) (file_id E) (audio_url request)
                                  (audio_base64 request) (language request) fs1) ;;
                 DetectResponse E result))
      as [(response & Ho & ->) | [(e & Ho & V & ->) | (e & Ho & V & ->)]].
    + split.
      * intros response'. split.
        -- intros H. injection H as <-.
           exists token, controller, fs1. auto.
        -- intros (_ & c & fs' & _ & _ & _ & H & Hr).
           injection H as <- <-. rewrite Ho in Hr. injection Hr as <-. reflexivity.
      * intros status_code detail headers H. discriminate H.
    + split.
      * intros response'. split; [intros H; discriminate H | ].
        intros (_ & c & fs' & _ & _ & _ & H & Hr).
        injection H as <- <-. rewrite Ho in Hr. discriminate Hr.
      * intros status_code detail headers H. injection H as <- <- <-.
        right; right; left. auto.
    + split.
      * intros response'. split; [intros H; discriminate H | ].
        intros (_ & c & fs' & _ & _ & _ & H & Hr).
        injection H as <- <-. rewrite Ho in Hr. discriminate Hr.
      * intros status_code detail headers H. injection H as <- <- <-.
        right; right; right. auto.
Qed.

Lemma endpoint_status_witness :
  post_detect
    (Config.Build_Settings (PStr "demo-key-12345") (PStr EmptyString)
       (PStr "gemini") (PStr "gemini-1.5-flash") 300 (PStr "app/tmp"))
    (Returned (Some "demo-key"))
    (environment
       (Return (services offline Reference.acquisition (fun fs => fs) copying
                  one_frame_per_byte (fun _ _ => Return None)))
       (fun _ fs => (Raise (mk_exn OSError "[Errno 13] Permission denied"), fs))
       strict_response)
    (Build_DetectRequest None (Some "QUJD") "en") []
  = (Failed (HTTPException 401 "Invalid API key" [("WWW-Authenticate", "Bearer")]),
     [])
  /\ post_detect
       (Config.Build_Settings (PStr "demo-key-12345") (PStr EmptyString)
          (PStr "gemini") (PStr "gemini-1.5-flash") 300 (PStr "app/tmp"))
       (Returned (Some "demo-key-12345"))
       (environment
          (Return (services offline Reference.acquisition (fun fs => fs) copying
                     one_frame_per_byte (fun _ _ => Return None)))
          (fun _ fs => (Raise (mk_exn OSError "[Errno 13] Permission denied"), fs))
          strict_response)
       (Build_DetectRequest None (Some "QUJD") "en") []
     = (Failed (Uncaught (mk_exn OSError "[Errno 13] Permission denied")), []).
Proof.
  split.
  - destruct (endpoint_status
                (Config.Build_Settings (PStr "demo-key-12345") (PStr EmptyString)
                   (PStr "gemini") (PStr "gemini-1.5-flash") 300 (PStr "app/tmp"))
                (Some "demo-key")
                (environment
                   (Return (services offline Reference.acquisition (fun fs => fs)
                              copying one_frame_per_byte (fun _ _ => Return None)))
                   (fun _ fs =>
                      (Raise (mk_exn OSError "[Errno 13] Permission denied"), fs))
                   strict_response)
                (Build_DetectRequest None (Some "QUJD") "en") [])
      as (_ & _ & H & _).
    apply (H "demo-key"); [reflexivity | intros N; discriminate N].
  - destruct (endpoint_status
                (Config.Build_Settings (PStr "demo-key-12345") (PStr EmptyString)
                   (PStr "gemini") (PStr "gemini-1.5-flash") 300 (PStr "app/tmp"))
                (Some "demo-key-12345")
                (environment
                   (Return (services offline Reference.acquisition (fun fs => fs)
                              copying one_frame_per_byte (fun _ _ => Return None)))
                   (fun _ fs =>
                      (Raise (mk_exn OSError "[Errno 13] Permission denied"), fs))
                   strict_response)
                (Build_DetectRequest None (Some "QUJD") "en") [])
      as (_ & _ & _ & H & _).
    destruct (H "demo-key-12345" eq_refl eq_refl) as (_ & H1).
    destruct (H1 eq_refl) as (H2 & _).
    apply H2. reflexivity.
Defined.

Lemma decode_base64_raise (A : AcquisitionLib) (base64_data output_path : string)
  (fs : filesystem) (e : exn) :
  AudioService.decode_base64 A base64_data output_path fs = Raise e ->
  exists x, e = AudioService.decode_error x.
Proof.
  unfold AudioService.decode_base64, try_except.
  match goal with
  | |- match ?c with _ => _ end = _ -> _ => destruct c as [fs' | x]
  end; intros H; [discriminate H | ].
  injection H as <-. eauto.
Qed.

Lemma extract_features_raise (G : SignalLib) (wav_path : string)
  (fs : filesystem) (e : exn) :
  AudioService.extract_features G wav_path fs = Raise e ->
  exists x, e = AudioService.extraction_error x.
Proof.
  unfold AudioService.extract_features, try_except.
  match goal with
  | |- match ?c with _ => _ end = _ -> _ => destruct c as [d | x]
  end; intros H; [discriminate H | ].
  injection H as <-. eauto.
Qed.

(** The orchestrator over the LLM path gives a well-formed result that
    passes the validity check. *)
Lemma classify_well_formed (L : Library)
  (prompt : dict float -> string -> string)
  (P : LLMAdapter.Providers) (llm : LLMAdapter.t)
  (features : dict float) (language : string) :
  exists r,
    DecisionService.classify (AIService.classify_with_llm L prompt P llm)
      features language = Return r
    /\ well_formed_result r
    /\ py_truthy r && DecisionService._validate_result r = true.
Proof.
  assert (Hh : py_truthy (DecisionService._heuristic_classify features)
               && DecisionService._validate_result
                    (DecisionService._heuristic_classify features) = true).
  { apply validate_result_spec. apply heuristic_result_valid. }
  unfold DecisionService.classify.
  destruct (classify_with_llm_returns L prompt P llm features language)
    as [H | (response & _ & _ & H)]; rewrite H.
  - eexists. split; [reflexivity | ].
    split; [apply heuristic_result_well_formed | exact Hh].
  - destruct (parse_returns L response) as [o Ho].
    rewrite Ho. destruct o as [r | ].
    + destruct (py_truthy r && DecisionService._validate_result r) eqn:Ev.
      * exists r. split; [reflexivity | ].
        split; [apply (parse_result_well_formed L response r Ho) | exact Ev].
      * eexists. split; [reflexivity | ].
        split; [apply heuristic_result_well_formed | exact Hh].
    + eexists. split; [reflexivity | ].
      split; [apply heuristic_result_well_formed | exact Hh].
Qed.

Lemma audio_steps_raise (D : Downloader) (A : AcquisitionLib)
  (residue : filesystem -> filesystem) (T : Transcoder) (G : SignalLib)
  (llm : dict float -> string -> exc (option pyval))
  (input_path wav_path : string) (audio_url audio_base64 : option string)
  (fs : filesystem) (e : exn) :
  given audio_url || given audio_base64 = true ->
  (forall url output_path fs0 x,
     fst (requests_get D url output_path fs0) = Raise x ->
     is_request_exception D x = true) ->
  (forall input_path output_path fs0 x,
     fst (ffmpeg_run T input_path output_path fs0) = Raise x ->
     is_ffmpeg_error T x = true
     /\ exists error_msg, error_text T x = Return error_msg) ->
  fst (audio_steps (services D A residue T G llm) input_path wav_path
         audio_url audio_base64 fs) = Raise e ->
  exn_type e = ValueError /\ audio_failure (exn_msg e).
Proof.
  intros Hg HD HT.
  unfold audio_steps, services, io_bind, io_raise.
  cbn [DetectController.download_audio DetectController.decode_base64
       DetectController.convert_to_wav DetectController.extract_features].
  match goal with
  | |- fst (match ?c with _ => _ end) = _ -> _ => remember c as acq eqn:Eacq
  end.
  assert (Hacq :
    match fst acq with
    | Return _ => True
    | Raise x => exn_type x = ValueError /\ audio_failure (exn_msg x)
    end).
  { subst acq. destruct (given audio_url).
    - unfold download_audio.
      destruct (requests_get D (text audio_url) input_path fs) as [[v | x] fs0] eqn:E.
      + exact I.
      + assert (Hx := HD (text audio_url) input_path fs x).
        rewrite E in Hx. rewrite (Hx eq_refl). cbn [fst].
        split; [reflexivity | left; apply prefix_app].
    - destruct (given audio_base64); [ | discriminate Hg].
      unfold writes.
      destruct (AudioService.decode_base64 A (text audio_base64) input_path fs)
        as [fs0 | x] eqn:E.
      + exact I.
      + apply decode_base64_raise in E as [y ->]. cbn [fst].
        split; [reflexivity | right; left; apply prefix_app]. }
  clear Eacq. destruct acq as [[u | x] fs1]; cbn [fst] in Hacq.
  2: { cbn [fst]. intros H. injection H as <-. exact Hacq. }
  unfold convert_to_wav.
  destruct (ffmpeg_run T input_path wav_path fs1) as [[v | x] fs2] eqn:E1.
  - unfold reads.
    destruct (AudioService.extract_features G wav_path fs2) as [d | x] eqn:E2;
      cbn [fst]; intros H; [discriminate H | ].
    injection H as <-.
    apply extract_features_raise in E2 as [y ->].
    split; [reflexivity | right; right; right; apply prefix_app].
  - assert (Hx := HT input_path wav_path fs1 x). rewrite E1 in Hx.
    destruct (Hx eq_refl) as (Hf & error_msg & Hm).
    rewrite Hf, Hm. cbn [fst]. intros H. injection H as <-.
    split; [reflexivity | right; right; left; apply prefix_app].
Qed.

(** X12. The contract of the route over the two service classes.  For a
    request with the right token that carries audio, when the controller
    is built, the download fails only with request exceptions and the
    transcoder only with ffmpeg errors whose text decodes, one of two
    things happens.  Either an audio step fails and the answer is 422 with
    a message that starts with 'Failed to download audio: ', 'Failed to
    decode base64 audio: ', 'Audio conversion failed: ' or 'Feature
    extraction failed: '.  Or the response model is applied to a
    well-formed result that passes the validity check, and the answer is
    what the handler makes of it: the response when the model returns one,
    422 when it raises a ValueError and 500 when it raises anything else.
    Whatever the LLM provider does, nothing else makes the request fail. *)
Theorem request_contract (D : Downloader) (A : AcquisitionLib)
  (residue : filesystem -> filesystem) (T : Transcoder) (G : SignalLib)
  (L : Library) (prompt : dict float -> string -> string)
  (P : LLMAdapter.Providers) (llm : LLMAdapter.t)
  (settings : Config.Settings) (token : string) (E : Environment)
  (request : DetectRequest) (fs : filesystem) :
  Config.API_KEY settings = PStr token ->
  given (audio_url request) || given (audio_base64 request) = true ->
  new_services E =
    Return (services D A residue T G (AIService.classify_with_llm L prompt P llm)) ->
  fst (makedirs E (temp_dir E) fs) = Return tt ->
  (forall url output_path fs0 x,
     fst (requests_get D url output_path fs0) = Raise x ->
     is_request_exception D x = true) ->
  (forall input_path output_path fs0 x,
     fst (ffmpeg_run T input_path output_path fs0) = Raise x ->
     is_ffmpeg_error T x = true
     /\ exists error_msg, error_text T x = Return error_msg) ->
  (exists detail,
     fst (post_detect settings (Returned (Some token)) E request fs) =
       Failed (HTTPException 422 detail [])
     /\ audio_failure detail)
  \/ (exists r,
        well_formed_result r
        /\ py_truthy r && DecisionService._validate_result r = true
        /\ fst (post_detect settings (Returned (Some token)) E request fs) =
             answer (DetectResponse E r)).
Proof.
  intros Hk Hg Hs Hm HD HT.
  rewrite (post_detect_valid settings token E request fs Hk).
  assert (Hi : DetectController.__init__ (new_services E) (makedirs E) (temp_dir E)
                 fs =
               (Return (services D A residue T G
                          (AIService.classify_with_llm L prompt P llm)),
                snd (makedirs E (temp_dir E) fs))).
  { unfold DetectController.__init__. rewrite Hs.
    destruct (makedirs E (temp_dir E) fs) as [[u | e] fs1]; cbn [fst snd] in *;
      [reflexivity | discriminate Hm]. }
  rewrite (detect_voice_run E request true fs _ _ Hg Hi).
  rewrite detect_eq, pipeline_eq. cbn [fst].
  pose proof (audio_steps_raise D A residue T G
                (AIService.classify_with_llm L prompt P llm)
                (DetectController.input_path (temp_dir E) (file_id E))
                (DetectController.wav_path (temp_dir E) (file_id E))
                (audio_url request) (audio_base64 request)
                (snd (makedirs E (temp_dir E) fs))) as Hfail.
  destruct (audio_steps _ _ _ (audio_url request) (audio_base64 request)
              (snd (makedirs E (temp_dir E) fs)))
    as [[features | e] fs']; cbn [fst] in *.
  - right.
    destruct (classify_well_formed L prompt P llm features (language request))
      as (r & Hr & Hw & Hv).
    cbn [DetectController.classify services]. rewrite Hr. cbn [bind].
    exists r. auto.
  - left. destruct (Hfail e Hg HD HT eq_refl) as (Hv & Hmsg).
    exists (exn_msg e). cbn [bind]. unfold answer, is_ValueError.
    rewrite Hv. split; [reflexivity | exact Hmsg].
Qed.

Lemma request_contract_witness :
  exists r,
    well_formed_result r
    /\ answer (strict_response r) = Returned (mk_result "AI_GENERATED" f1_0 "x")
    /\ fst (post_detect
              (Config.Build_Settings (PStr "demo-key-12345") (PStr "k")
                 (PStr "gemini") (PStr "gemini-1.5-flash") 300 (PStr "app/tmp"))
              (Returned (Some "demo-key-12345"))
              (environment
                 (Return (services offline Reference.acquisition (fun fs => fs)
                            copying one_frame_per_byte
                            (AIService.classify_with_llm Reference.lib
                               (fun _ _ => "?") (answering reply_example)
                               some_adapter)))
                 (fun _ fs => (Return tt, fs)) strict_response)
              (Build_DetectRequest None (Some "QUJD") "en") []) =
         answer (strict_response r).
Proof.
  destruct (request_contract offline Reference.acquisition (fun fs => fs) copying
              one_frame_per_byte Reference.lib (fun _ _ => "?")
              (answering reply_example) some_adapter
              (Config.Build_Settings (PStr "demo-key-12345") (PStr "k")
                 (PStr "gemini") (PStr "gemini-1.5-flash") 300 (PStr "app/tmp"))
              "demo-key-12345"
              (environment
                 (Return (services offline Reference.acquisition (fun fs => fs)
                            copying one_frame_per_byte
                            (AIService.classify_with_llm Reference.lib
                               (fun _ _ => "?") (answering reply_example)
                               some_adapter)))
                 (fun _ fs => (Return tt, fs)) strict_response)
              (Build_DetectRequest None (Some "QUJD") "en") [])
    as [(detail & H & _) | (r & Hw & _ & H)].
  - reflexivity.
  - reflexivity.
  - reflexivity.
  - reflexivity.
  - intros url output_path fs0 x _. reflexivity.
  - intros input_path output_path fs0 x _.
    split; [reflexivity | eexists; reflexivity].
  - vm_compute in H. discriminate H.
  - change (DetectResponse (environment _ _ strict_response) r)
      with (strict_response r) in H.
    exists r. split; [exact Hw | ].
    split; [rewrite <- H; vm_compute; reflexivity | exact H].
Defined.

End Api.

(** ** Slices *)

Section Slices.

Lemma take_eq (s : string) (k : Z) :
  (0 <= k)%Z ->
  Str.take s k = substring 0 (Z.to_nat (Z.min k (Str.len s))) s.
Proof.
  intros Hk. unfold Str.take, Str.slice, Str.clip.
  assert (Hn : (0 <= Str.len s)%Z) by (unfold Str.len; lia).
  destruct (0 <? 0)%Z eqn:E0; [discriminate E0 | ].
  destruct (k <? 0)%Z eqn:E1; [apply Z.ltb_lt in E1; lia | ].
  rewrite (Z.min_l 0 (Str.len s)) by lia.
  rewrite Z.sub_0_r. reflexivity.
Qed.

Lemma substring_0_full (s : string) (m : nat) :
  (String.length s <= m)%nat -> substring 0 m s = s.
Proof.
  revert m. induction s as [ | c r IH]; intros m H.
  - destruct m; reflexivity.
  - destruct m as [ | m]; cbn in H; [lia | ].
    cbn. rewrite IH by lia. reflexivity.
Qed.

Lemma substring_0_length (s : string) (m : nat) :
  (m <= String.length s)%nat -> String.length (substring 0 m s) = m.
Proof.
  revert m. induction s as [ | c r IH]; intros m H.
  - destruct m; cbn in *; [reflexivity | lia].
  - destruct m as [ | m]; cbn in *; [reflexivity | ].
    rewrite IH by lia. reflexivity.
Qed.

Lemma substring_0_prefix (s : string) (m : nat) :
  prefix (substring 0 m s) s = true.
Proof.
  revert m. induction s as [ | c r IH]; intros m.
  - destruct m; reflexivity.
  - destruct m as [ | m]; cbn; [reflexivity | ].
    destruct (ascii_dec c c) as [_ | N]; [apply IH | contradiction].
Qed.

Lemma substring_0_occurs (c : ascii) (s : string) (m : nat) :
  occurs c (substring 0 m s) -> occurs c s.
Proof.
  unfold occurs. revert m. induction s as [ | a r IH]; intros m.
  - destruct m; cbn; auto.
  - destruct m as [ | m]; cbn; [contradiction | ].
    intros [H | H]; [left; exact H | right; apply (IH m H)].
Qed.

(** [s[:k]] is a prefix of [s] with [min(len(s), k)] characters, and [s]
    itself when [s] has at most [k] characters. *)
Lemma take_spec (s : string) (k : Z) :
  (0 <= k)%Z ->
  prefix (Str.take s k) s = true
  /\ Str.len (Str.take s k) = Z.min (Str.len s) k
  /\ ((Str.len s <= k)%Z -> Str.take s k = s).
Proof.
  intros Hk. rewrite (take_eq s k Hk).
  split; [apply substring_0_prefix | ].
  split.
  - unfold Str.len. rewrite substring_0_length; unfold Str.len; lia.
  - intros H. apply substring_0_full. unfold Str.len in *. lia.
Qed.

End Slices.

(** ** The explanation of a reply *)

Section Truncation.

Import AIService.

(** X13. The explanation of a reply is cut, never rewritten: when the
    decoded object holds an ASCII string under the key explanation, the
    explanation of the result is a prefix of it with min(n, 240) characters
    (n its length), and the string itself when n is at most 240. *)
Theorem parse_explanation_prefix (L : Library) (response json_str : string)
  (d : dict pyval) (r : pyval) (e : string) :
  extract_json response = Some json_str ->
  json_loads L json_str = Return (PDict d) ->
  Dict.get "explanation" d = Some (PStr e) ->
  Str.is_ascii e = true ->
  _parse_llm_response L response = Return (Some r) ->
  exists e',
    field "explanation" r = Some (PStr e')
    /\ prefix e' e = true
    /\ Str.len e' = Z.min (Str.len e) 240
    /\ ((Str.len e <= 240)%Z -> e' = e).
Proof.
  intros Hx Hj He _ Hr.
  rewrite (parse_dict L response json_str d Hx Hj) in Hr.
  injection Hr as Hr. apply parse_outcome_some in Hr as (raw & f & _ & _ & ->).
  destruct (rewritten_fields L (with_defaults d) raw f
              (Dict.get_default "explanation" (PStr default_explanation) d))
    as (_ & _ & H).
  unfold Dict.get_default in *. rewrite He in *. cbn [py_str] in H.
  exists (Str.take e 240). split; [exact H | ].
  apply take_spec. lia.
Qed.

Lemma parse_explanation_prefix_witness :
  exists r e',
    _parse_llm_response Reference.lib reply_long = Return (Some r)
    /\ field "explanation" r = Some (PStr e')
    /\ prefix e' long_text = true
    /\ Str.len long_text = 241%Z
    /\ Str.len e' = 240%Z.
Proof.
  destruct (_parse_llm_response Reference.lib reply_long) as [[r | ] | x] eqn:E;
    [ | vm_compute in E; discriminate E | vm_compute in E; discriminate E].
  destruct (parse_explanation_prefix Reference.lib reply_long reply_long
              [("classification", PStr "HUMAN"); ("explanation", PStr long_text)]
              r long_text)
    as (e' & H1 & H2 & H3 & _).
  - vm_compute. reflexivity.
  - vm_compute. reflexivity.
  - reflexivity.
  - vm_compute. reflexivity.
  - exact E.
  - exists r, e'. split; [reflexivity | ].
    split; [exact H1 | ].
    split; [exact H2 | ].
    split; [vm_compute; reflexivity | ].
    rewrite H3. vm_compute. reflexivity.
Defined.

End Truncation.

(** ** File names and language codes *)

Section Names.

Import Validators.

Lemma str_filter_occurs (keep : ascii -> bool) (c : ascii) (s : string) :
  occurs c (str_filter keep s) -> keep c = true /\ occurs c s.
Proof.
  unfold occurs. induction s as [ | a r IH]; cbn; [contradiction | ].
  destruct (keep a) eqn:E; cbn.
  - intros [H | H]; [subst a; auto | ].
    destruct (IH H) as [H1 H2]. auto.
  - intros H. destruct (IH H) as [H1 H2]. auto.
Qed.

Lemma str_filter_id (keep : ascii -> bool) (s : string) :
  (forall c, occurs c s -> keep c = true) -> str_filter keep s = s.
Proof.
  unfold occurs. induction s as [ | a r IH]; cbn; intros H; [reflexivity | ].
  rewrite (H a) by (left; reflexivity).
  rewrite IH; [reflexivity | ]. intros c Hc. apply H. right. exact Hc.
Qed.

Lemma lstrip_dots_occurs (c : ascii) (s : string) :
  occurs c (lstrip_dots s) -> occurs c s.
Proof.
  unfold occurs. induction s as [ | a r IH]; cbn; [contradiction | ].
  destruct (Ascii.eqb a "."); cbn; auto.
Qed.

Lemma lstrip_dots_head (s : string) : prefix "." (lstrip_dots s) = false.
Proof.
  induction s as [ | a r IH]; cbn [lstrip_dots]; [reflexivity | ].
  destruct (Ascii.eqb a ".") eqn:E; [exact IH | ].
  cbn [prefix]. destruct (ascii_dec "." a) as [H | H]; [ | reflexivity].
  subst a. discriminate E.
Qed.

Lemma lstrip_dots_id (s : string) : prefix "." s = false -> lstrip_dots s = s.
Proof.
  destruct s as [ | a r]; cbn [prefix lstrip_dots]; [reflexivity | ].
  destruct (ascii_dec "." a) as [H | H].
  - destruct r; discriminate.
  - intros _. destruct (Ascii.eqb a ".") eqn:E; [ | reflexivity].
    apply Ascii.eqb_eq in E. subst a. contradiction.
Qed.

Lemma take_head (c : ascii) (s : string) (k : Z) :
  (0 < k)%Z -> s <> EmptyString ->
  prefix (char c) (Str.take s k) = prefix (char c) s
  /\ Str.take s k <> EmptyString.
Proof.
  intros Hk Hs. rewrite take_eq by lia.
  destruct s as [ | a r]; [contradiction | ].
  assert (Hm : exists m, Z.to_nat (Z.min k (Str.len (String a r))) = S m).
  { exists (Nat.pred (Z.to_nat (Z.min k (Str.len (String a r))))).
    unfold Str.len. cbn [String.length]. lia. }
  destruct Hm as [m ->]. cbn [substring prefix char].
  split; [ | discriminate].
  destruct (ascii_dec c a); [ | reflexivity].
  destruct (substring 0 m r), r; reflexivity.
Qed.

(** The sanitised name is safe and is a fixed point. *)
Lemma sanitize_filename_facts (filename : string) :
  sanitize_filename filename <> EmptyString
  /\ (Str.len (sanitize_filename filename) <= 100)%Z
  /\ (forall c, occurs c (sanitize_filename filename) -> is_separator c = false)
  /\ prefix "." (sanitize_filename filename) = false.
Proof.
  unfold sanitize_filename.
  set (f1 := str_filter (fun c => negb (is_separator c)) filename).
  set (f2 := lstrip_dots f1).
  destruct (String.eqb f2 EmptyString) eqn:E; cbn [negb].
  - split; [discriminate | ].
    split; [vm_compute; discriminate | ].
    split; [ | reflexivity].
    intros c Hc. unfold occurs in Hc. cbn in Hc.
    repeat (destruct Hc as [<- | Hc]; [reflexivity | ]). contradiction.
  - apply String.eqb_neq in E.
    destruct (take_head "." f2 100 ltac:(lia) E) as [Hh Hne].
    split; [exact Hne | ].
    split; [apply take_length; lia | ].
    split.
    + intros c Hc. rewrite take_eq in Hc by lia.
      apply substring_0_occurs in Hc. apply lstrip_dots_occurs in Hc.
      apply str_filter_occurs in Hc as [Hk _].
      apply negb_true_iff in Hk. exact Hk.
    + change (String "."%char EmptyString) with (char "."). rewrite Hh.
      apply lstrip_dots_head.
Qed.

(** X14. The sanitised file name cannot leave its directory: it is not
    empty, has at most 100 characters, holds no slash, backslash, colon or
    NUL character, and does not start with a dot, so it is none of the
    names '.' and '..' and has no path component. *)
Theorem sanitize_filename_safe (filename : string) :
  sanitize_filename filename <> EmptyString
  /\ (0 < Str.len (sanitize_filename filename) <= 100)%Z
  /\ ~ occurs "/" (sanitize_filename filename)
  /\ ~ occurs "\" (sanitize_filename filename)
  /\ ~ occurs ":" (sanitize_filename filename)
  /\ ~ occurs "000" (sanitize_filename filename)
  /\ prefix "." (sanitize_filename filename) = false
  /\ sanitize_filename filename <> "."
  /\ sanitize_filename filename <> "..".
Proof.
  destruct (sanitize_filename_facts filename) as (Hne & Hl & Hs & Hd).
  split; [exact Hne | ].
  split.
  { split; [ | exact Hl].
    destruct (sanitize_filename filename); [contradiction | ].
    unfold Str.len. cbn [String.length]. lia. }
  split; [intros H; apply Hs in H; discriminate H | ].
  split; [intros H; apply Hs in H; discriminate H | ].
  split; [intros H; apply Hs in H; discriminate H | ].
  split; [intros H; apply Hs in H; discriminate H | ].
  split; [exact Hd | ].
  split; intros H; rewrite H in Hd; discriminate Hd.
Qed.

(** X15. Sanitising is idempotent: a sanitised name is left as it is. *)
Theorem sanitize_filename_idempotent (filename : string) :
  sanitize_filename (sanitize_filename filename) = sanitize_filename filename.
Proof.
  destruct (sanitize_filename_facts filename) as (Hne & Hl & Hs & Hd).
  set (r := sanitize_filename filename) in *.
  unfold sanitize_filename at 1.
  rewrite (str_filter_id _ r)
    by (intros c Hc; rewrite (Hs c Hc); reflexivity).
  rewrite (lstrip_dots_id r Hd).
  apply String.eqb_neq in Hne. rewrite Hne. cbn [negb].
  apply take_spec; lia.
Qed.

(** X16. The validator of language codes and the table of language names
    agree up to case: a code is accepted exactly when its lower-case form
    has a name in the table, while the table itself knows lower-case codes
    only. *)
Theorem validate_language_names (code : string) :
  (validate_language code = true
   <-> get_language_name (lower code) <> "Unknown")
  /\ (get_language_name code <> "Unknown" -> validate_language code = true)
  /\ validate_language "EN" = true
  /\ get_language_name "EN" = "Unknown".
Proof.
  assert (H : forall l,
            existsb (String.eqb l) supported = true
            <-> get_language_name l <> "Unknown").
  { intros l. unfold get_language_name, supported, languages, Dict.get_default.
    cbn [existsb Dict.get orb].
    destruct (String.eqb l "en");
      [split; [discriminate | reflexivity] | ].
    destruct (String.eqb l "hi");
      [split; [discriminate | reflexivity] | ].
    destruct (String.eqb l "ta");
      [split; [discriminate | reflexivity] | ].
    destruct (String.eqb l "te");
      [split; [discriminate | reflexivity] | ].
    destruct (String.eqb l "ml");
      [split; [discriminate | reflexivity] | ].
    cbn [orb]. split; [discriminate | intros N; contradiction N; reflexivity]. }
  split; [apply H | ].
  split; [ | split; reflexivity].
  intros Hn. unfold validate_language.
  assert (Hl : lower code = code).
  { unfold get_language_name, languages, Dict.get_default in Hn.
    cbn [Dict.get] in Hn.
    destruct (String.eqb code "en") eqn:E1;
      [apply String.eqb_eq in E1; subst code; reflexivity | ].
    destruct (String.eqb code "hi") eqn:E2;
      [apply String.eqb_eq in E2; subst code; reflexivity | ].
    destruct (String.eqb code "ta") eqn:E3;
      [apply String.eqb_eq in E3; subst code; reflexivity | ].
    destruct (String.eqb code "te") eqn:E4;
      [apply String.eqb_eq in E4; subst code; reflexivity | ].
    destruct (String.eqb code "ml") eqn:E5;
      [apply String.eqb_eq in E5; subst code; reflexivity | ].
    contradiction Hn. reflexivity. }
  rewrite Hl. apply H. exact Hn.
Qed.

End Names.

(** ** The LLM path without an answer *)

Section Adapter.

Import AIService DecisionService.

(** X17. Without an answer of the LLM the service is the heuristic.  When
    the LLM key is empty, or the provider is none of openai, gemini and
    groq, or the call of the selected provider raises or returns None, the
    adapter returns None (whatever the other providers would do) and the
    orchestrator returns the heuristic classification of the features. *)
Theorem heuristic_when_llm_unavailable (L : Library)
  (prompt : dict float -> string -> string)
  (P : LLMAdapter.Providers) (llm : LLMAdapter.t)
  (features : dict float) (language : string) :
  LLMAdapter.api_key llm = EmptyString
  \/ (LLMAdapter.provider llm <> "openai"
      /\ LLMAdapter.provider llm <> "gemini"
      /\ LLMAdapter.provider llm <> "groq")
  \/ (LLMAdapter.provider llm = "openai"
      /\ (LLMAdapter._call_openai P llm (prompt features language) = Return None
          \/ exists e,
               LLMAdapter._call_openai P llm (prompt features language) = Raise e))
  \/ (LLMAdapter.provider llm = "gemini"
      /\ (LLMAdapter._call_gemini P llm (prompt features language) = Return None
          \/ exists e,
               LLMAdapter._call_gemini P llm (prompt features language) = Raise e))
  \/ (LLMAdapter.provider llm = "groq"
      /\ (LLMAdapter._call_groq P llm (prompt features language) = Return None
          \/ exists e,
               LLMAdapter._call_groq P llm (prompt features language) = Raise e)) ->
  LLMAdapter.generate P llm (prompt features language) = Return None
  /\ classify_with_llm L prompt P llm features language = Return None
  /\ classify (classify_with_llm L prompt P llm) features language =
       Return (_heuristic_classify features).
Proof.
  intros H.
  assert (Hg : LLMAdapter.generate P llm (prompt features language) = Return None).
  { unfold LLMAdapter.generate.
    destruct (String.eqb (LLMAdapter.api_key llm) EmptyString) eqn:K;
      [reflexivity | ].
    destruct H as [H | [(H1 & H2 & H3) | [(Hp & Hc) | [(Hp & Hc) | (Hp & Hc)]]]].
    - rewrite H in K. discriminate K.
    - apply String.eqb_neq in H1, H2, H3. rewrite H1, H2, H3. reflexivity.
    - rewrite Hp. cbn [String.eqb Ascii.eqb Bool.eqb andb].
      destruct Hc as [-> | [e ->]]; reflexivity.
    - rewrite Hp. cbn [String.eqb Ascii.eqb Bool.eqb andb].
      destruct Hc as [-> | [e ->]]; reflexivity.
    - rewrite Hp. cbn [String.eqb Ascii.eqb Bool.eqb andb].
      destruct Hc as [-> | [e ->]]; reflexivity. }
  assert (Hc : classify_with_llm L prompt P llm features language = Return None).
  { unfold classify_with_llm. rewrite Hg. reflexivity. }
  split; [exact Hg | ].
  split; [exact Hc | ].
  unfold classify. rewrite Hc. reflexivity.
Qed.

Lemma heuristic_when_llm_unavailable_witness :
  classify
    (classify_with_llm Reference.lib (fun _ _ => "?") (answering reply_example)
       (LLMAdapter.Build_t "gemini" EmptyString "gemini-1.5-flash"))
    (features_dict features_example) "en"
  = Return (_heuristic_classify (features_dict features_example)).
Proof.
  apply (heuristic_when_llm_unavailable Reference.lib (fun _ _ => "?")
           (answering reply_example)
           (LLMAdapter.Build_t "gemini" EmptyString "gemini-1.5-flash")
           (features_dict features_example) "en").
  left. reflexivity.
Defined.

End Adapter.

(** ** Feature extraction *)

Section Extraction.

Import AudioService.

(** X18. Feature extraction fails with a ValueError only, whose message
    starts with 'Feature extraction failed: ', whatever the signal library
    raises; and when it returns, the signal has at least one frame, the
    dictionary holds exactly the four keys duration, silence_ratio,
    avg_volume and pitch_variance, in this order, so that the heuristic
    never falls back on its default values for extracted features, and
    its silence_ratio is the rounded quotient of the number of frames that
    numpy finds below the threshold and the number of frames. *)
Theorem extract_features_outcome (G : SignalLib) (wav_path : string)
  (fs : filesystem) :
  (forall e,
     extract_features G wav_path fs = Raise e ->
     exn_type e = ValueError
     /\ prefix "Feature extraction failed: " (exn_msg e) = true)
  /\ (forall features,
        extract_features G wav_path fs = Return features ->
        (exists F, features = features_dict F)
        /\ List.map fst features =
             ["duration"; "silence_ratio"; "avg_volume"; "pitch_variance"]
        /\ (exists y x rms,
              librosa_load G wav_path fs = Return y
              /\ librosa_rms G y = Return (x :: rms)
              /\ Dict.get "silence_ratio" features =
                   Some (py_round G
                           (fdiv
                              (Z2F (np_sum_less G (x :: rms)
                                      (np_multiply G (fold_left np_maximum rms x)
                                         (dec 1 (-1)))))
                              (Z2F (list_len (x :: rms)))) 4))).
Proof.
  split.
  - intros e H. apply extract_features_raise in H as [x ->].
    split; [reflexivity | apply prefix_app].
  - intros features. unfold extract_features, try_except.
    destruct (librosa_load G wav_path fs) as [y | e]; cbn [bind];
      [ | discriminate].
    destruct (librosa_rms G y) as [[ | x rms] | e] eqn:Er; cbn [bind];
      try discriminate.
    rewrite (silence_detection_frames G x rms). cbn [bind].
    destruct (librosa_pyin G y) as [f0 | e]; cbn [bind]; [ | discriminate].
    intros H. injection H as <-.
    split; [eexists (mk_features _ _ _ _); reflexivity | ].
    split; [reflexivity | ].
    exists y, x, rms.
    split; [reflexivity | split; [first [exact Er | reflexivity] | reflexivity]].
Qed.

Lemma extract_features_outcome_witness :
  (exn_type (extraction_error (mk_exn OSError "No such file or directory")) =
     ValueError
   /\ prefix "Feature extraction failed: "
        (exn_msg (extraction_error (mk_exn OSError "No such file or directory")))
      = true)
  /\ exists features,
       extract_features one_frame_per_byte "a.wav" [("a.wav", "RIFF")] =
         Return features
       /\ List.map fst features =
            ["duration"; "silence_ratio"; "avg_volume"; "pitch_variance"]
       /\ Dict.get "silence_ratio" features = Some f0_0.
Proof.
  split.
  - apply (extract_features_outcome one_frame_per_byte "missing.wav" []).
    vm_compute. reflexivity.
  - destruct (extract_features one_frame_per_byte "a.wav" [("a.wav", "RIFF")])
      as [features | e] eqn:E; [ | vm_compute in E; discriminate E].
    exists features. split; [reflexivity | ].
    destruct (extract_features_outcome one_frame_per_byte "a.wav"
                [("a.wav", "RIFF")]) as (_ & H).
    destruct (H features E) as (_ & Hk & _).
    split; [exact Hk | ].
    vm_compute in E. injection E as <-. reflexivity.
Defined.

End Extraction.

(** ** The prompt *)

Section Prompt.

Import Prompts.

Lemma string_app_assoc (a b c : string) : (a ++ b) ++ c = a ++ b ++ c.
Proof. induction a as [ | x a IH]; cbn; [reflexivity | rewrite IH; reflexivity]. Qed.

Lemma join_app (sep : string) (a b : list string) :
  a <> [] -> b <> [] ->
  Str.join sep (a ++ b)%list = Str.join sep a ++ sep ++ Str.join sep b.
Proof.
  intros Ha Hb. induction a as [ | p a IH]; [contradiction | ].
  destruct a as [ | q a].
  - destruct b as [ | r b]; [contradiction | ]. reflexivity.
  - change (Str.join sep ((p :: q :: a) ++ b)%list)
      with (p ++ sep ++ Str.join sep ((q :: a) ++ b)%list).
    rewrite IH by discriminate.
    change (Str.join sep (p :: q :: a)) with (p ++ sep ++ Str.join sep (q :: a)).
    rewrite !string_app_assoc. reflexivity.
Qed.

Lemma find_from_app (sub a b : string) (i : Z) :
  (0 <= i)%Z -> (0 <= Str.find_from sub (a ++ sub ++ b) i)%Z.
Proof.
  revert i. induction a as [ | x a IH]; intros i Hi.
  - cbn [append]. destruct (sub ++ b) eqn:E; cbn [Str.find_from];
      rewrite <- E, prefix_app; exact Hi.
  - cbn [append Str.find_from].
    destruct (prefix sub (String x (a ++ sub ++ b))); [exact Hi | ].
    apply IH. lia.
Qed.

Lemma contains_app (sub a b : string) : Str.contains sub (a ++ sub ++ b) = true.
Proof.
  unfold Str.contains, Str.find. apply Z.leb_le. apply find_from_app. lia.
Qed.

(** X19. The language code of a request is spliced into the prompt as it
    is: the prompt is a head, the code and a tail, where head and tail do
    not depend on the code.  No code is rejected, cut or escaped, so the
    line that starts with '- Language: ' and goes on with the whole code
    is in the prompt of every request. *)
Theorem prompt_splices_language (F : Formatting) (features : dict float) :
  exists head tail,
    (forall language,
       get_classification_prompt F features language = head ++ language ++ tail)
    /\ (forall language,
          Str.contains ("- Language: " ++ language ++ newline)
            (get_classification_prompt F features language) = true).
Proof.
  assert (H : forall language,
            get_classification_prompt F features language =
            (lines preamble ++ newline ++ lines (measurements F features) ++ newline)
            ++ ("- Language: " ++ language ++ newline)
            ++ (EmptyString ++ newline ++ lines instructions)).
  { intros language. unfold get_classification_prompt, features_str, lines.
    rewrite (join_app newline preamble) by discriminate.
    rewrite (join_app newline (measurements F features)) by discriminate.
    change (Str.join newline (?x :: instructions))
      with (x ++ newline ++ Str.join newline instructions).
    change (Str.join newline ["- Language: " ++ language; EmptyString])
      with (("- Language: " ++ language) ++ newline ++ EmptyString).
    rewrite !string_app_assoc. reflexivity. }
  exists ((lines preamble ++ newline ++ lines (measurements F features) ++ newline)
          ++ "- Language: ").
  exists (newline ++ EmptyString ++ newline ++ lines instructions).
  split; intros language; rewrite H.
  - rewrite !string_app_assoc. reflexivity.
  - apply contains_app.
Qed.

End Prompt.

(** ** The configuration and the Authorization header *)

Section Configuration.

Import Config ApiKey.

(** X20. The configuration is valid exactly when the API key of the service
    is set, that is, when [settings.API_KEY] is a true value: None and the
    empty string make it invalid.  A missing LLM key is a warning only, and
    no other setting counts. *)
Theorem validate_config_api_key (settings : Settings) :
  validate_config settings = py_truthy (API_KEY settings)
  /\ validate_config
       (Build_Settings PNone (LLM_API_KEY settings) (LLM_PROVIDER settings)
          (LLM_MODEL settings) (MAX_AUDIO_DURATION settings) (TEMP_DIR settings))
     = false
  /\ validate_config
       (Build_Settings (PStr EmptyString) (LLM_API_KEY settings)
          (LLM_PROVIDER settings) (LLM_MODEL settings)
          (MAX_AUDIO_DURATION settings) (TEMP_DIR settings))
     = false
  /\ (forall key,
        key <> EmptyString ->
        validate_config
          (Build_Settings (PStr key) PNone (LLM_PROVIDER settings)
             (LLM_MODEL settings) (MAX_AUDIO_DURATION settings)
             (TEMP_DIR settings))
        = true).
Proof.
  assert (H : forall s, validate_config s = py_truthy (API_KEY s)).
  { intros s. unfold validate_config.
    destruct (py_truthy (API_KEY s)), (py_truthy (LLM_API_KEY s));
      vm_compute; reflexivity. }
  split; [apply H | ].
  split; [rewrite H; reflexivity | ].
  split; [rewrite H; reflexivity | ].
  intros key Hk. rewrite H. cbn [API_KEY py_truthy].
  apply String.eqb_neq in Hk. rewrite Hk. reflexivity.
Qed.

Lemma prefix_split (p s : string) :
  prefix p s = true -> exists rest, s = p ++ rest.
Proof.
  revert s. induction p as [ | a p IH]; intros s H.
  - exists s. reflexivity.
  - destruct s as [ | b s]; [discriminate H | ].
    cbn [prefix] in H. destruct (ascii_dec a b) as [<- | N]; [ | discriminate H].
    destruct (IH s H) as [rest ->]. exists rest. reflexivity.
Qed.

Lemma slice_bearer (rest : string) :
  Str.slice ("Bearer " ++ rest) 7 (Str.len ("Bearer " ++ rest)) = rest.
Proof.
  unfold Str.slice, Str.clip.
  assert (Hn : Str.len ("Bearer " ++ rest) = (7 + Z.of_nat (String.length rest))%Z).
  { unfold Str.len. cbn [append String.length]. lia. }
  rewrite Hn.
  destruct (7 <? 0)%Z eqn:E1; [discriminate E1 | ].
  destruct (7 + Z.of_nat (String.length rest) <? 0)%Z eqn:E2;
    [apply Z.ltb_lt in E2; lia | ].
  rewrite Z.min_l by lia. rewrite Z.min_id.
  replace (Z.to_nat (7 + Z.of_nat (String.length rest) - 7))
    with (String.length rest) by lia.
  change (Z.to_nat 7) with 7%nat. cbn [append substring].
  apply substring_0_full. lia.
Qed.

(** X21. The key of an Authorization header is read back exactly: the
    function returns a key exactly for a header that is 'Bearer ' (in this
    spelling, with one space) followed by that key, and None for a missing
    header and for every other header. *)
Theorem api_key_header_round_trip (authorization : option string) (key : string) :
  (get_api_key_from_header authorization = Some key
   <-> authorization = Some ("Bearer " ++ key))
  /\ get_api_key_from_header None = None
  /\ get_api_key_from_header (Some ("Bearer " ++ key)) = Some key.
Proof.
  assert (Hk : get_api_key_from_header (Some ("Bearer " ++ key)) = Some key).
  { unfold get_api_key_from_header. rewrite prefix_app, slice_bearer. reflexivity. }
  split; [ | split; [reflexivity | exact Hk]].
  split.
  - destruct authorization as [h | ]; [ | discriminate].
    unfold get_api_key_from_header.
    destruct (prefix "Bearer " h) eqn:E; [ | discriminate].
    apply prefix_split in E as [rest ->]. rewrite slice_bearer.
    intros H. injection H as ->. reflexivity.
  - intros ->. exact Hk.
Qed.

End Configuration.

(** ** Text around the JSON object of a reply *)

Section Surroundings.

Import AIService.

Lemma lstrip_app (b : string) (c : ascii) (x : string) :
  Str.is_space c = false ->
  Str.lstrip (b ++ String c x) = Str.lstrip b ++ String c x.
Proof.
  intros Hc. induction b as [ | a b IH]; cbn [append Str.lstrip].
  - rewrite Hc. reflexivity.
  - destruct (Str.is_space a); [exact IH | reflexivity].
Qed.

Lemma rstrip_cons (c : ascii) (a : string) :
  Str.is_space c = false -> Str.rstrip (String c a) = String c (Str.rstrip a).
Proof.
  intros Hc. cbn [Str.rstrip]. destruct (Str.rstrip a); [ | reflexivity].
  rewrite Hc. reflexivity.
Qed.

Lemma rstrip_app (x : string) (c : ascii) (a : string) :
  Str.is_space c = false ->
  Str.rstrip (x ++ String c a) = x ++ String c (Str.rstrip a).
Proof.
  intros Hc. induction x as [ | b x IH]; cbn [append].
  - apply rstrip_cons. exact Hc.
  - cbn [Str.rstrip]. rewrite IH.
    destruct x; reflexivity.
Qed.

Lemma find_from_app_char (c : ascii) (b x : string) (i : Z) :
  ~ occurs c b ->
  Str.find_from (char c) (b ++ String c x) i = (i + Str.len b)%Z.
Proof.
  revert i. induction b as [ | a b IH]; intros i Hb; cbn [append].
  - cbn [Str.find_from]. rewrite prefix_char, Ascii.eqb_refl.
    unfold Str.len. cbn [String.length]. lia.
  - cbn [Str.find_from]. rewrite prefix_char.
    destruct (Ascii.eqb c a) eqn:E.
    + apply Ascii.eqb_eq in E. subst a. exfalso. apply Hb.
      apply occurs_cons. left. reflexivity.
    + rewrite IH.
      * unfold Str.len. cbn [String.length]. lia.
      * intros H. apply Hb. apply occurs_cons. right. exact H.
Qed.

Lemma rfind_from_app_char (c : ascii) (x a : string) (i : Z) :
  (0 <= i)%Z -> ~ occurs c a ->
  Str.rfind_from (char c) (x ++ String c a) i = (i + Str.len x)%Z.
Proof.
  revert i. induction x as [ | b x IH]; intros i Hi Ha; cbn [append].
  - cbn [Str.rfind_from]. rewrite (rfind_from_absent c a (i + 1) Ha).
    cbn [Z.leb Z.compare]. rewrite prefix_char, Ascii.eqb_refl.
    unfold Str.len. cbn [String.length]. lia.
  - cbn [Str.rfind_from]. rewrite (IH (i + 1)%Z ltac:(lia) Ha).
    assert (H : (0 <=? i + 1 + Str.len x)%Z = true).
    { apply Z.leb_le. unfold Str.len. lia. }
    rewrite H. unfold Str.len. cbn [String.length]. lia.
Qed.

Lemma length_app (a b : string) :
  String.length (a ++ b) = (String.length a + String.length b)%nat.
Proof. induction a as [ | x a IH]; cbn; [reflexivity | rewrite IH; reflexivity]. Qed.

Lemma substring_0_app (m b : string) :
  substring 0 (String.length m) (m ++ b) = m.
Proof.
  induction m as [ | x m IH]; cbn.
  - destruct b; reflexivity.
  - rewrite IH. reflexivity.
Qed.

Lemma substring_app_middle (a m b : string) :
  substring (String.length a) (String.length m) (a ++ m ++ b) = m.
Proof.
  induction a as [ | x a IH]; cbn [append String.length substring].
  - apply substring_0_app.
  - exact IH.
Qed.

Lemma slice_middle (a m b : string) :
  Str.slice (a ++ m ++ b) (Str.len a) (Str.len a + Str.len m) = m.
Proof.
  unfold Str.slice, Str.clip, Str.len.
  rewrite !length_app.
  destruct (Z.of_nat (String.length a) <? 0)%Z eqn:E1;
    [apply Z.ltb_lt in E1; lia | ].
  destruct (Z.of_nat (String.length a) + Z.of_nat (String.length m) <? 0)%Z eqn:E2;
    [apply Z.ltb_lt in E2; lia | ].
  rewrite !Z.min_l by lia.
  replace (Z.to_nat (Z.of_nat (String.length a))) with (String.length a) by lia.
  replace (Z.to_nat (Z.of_nat (String.length a) + Z.of_nat (String.length m)
                     - Z.of_nat (String.length a)))
    with (String.length m) by lia.
  apply substring_app_middle.
Qed.

(** The JSON text of a reply that is an object between two texts. *)
Lemma extract_json_object (before body after : string) :
  ~ occurs "{" before -> ~ occurs "}" after ->
  extract_json (before ++ "{" ++ body ++ "}" ++ after) =
    Some ("{" ++ body ++ "}").
Proof.
  intros Hb Ha. unfold extract_json, Str.strip.
  assert (Hs : Str.rstrip (Str.lstrip (before ++ "{" ++ body ++ "}" ++ after)) =
               Str.lstrip before ++ ("{" ++ body ++ "}") ++ Str.rstrip after).
  { change ("{" ++ body ++ "}" ++ after) with (String "{" (body ++ "}" ++ after)).
    rewrite lstrip_app by reflexivity.
    change (String "{" (body ++ "}" ++ after))
      with ("{" ++ body ++ String "}" after).
    rewrite <- !string_app_assoc.
    rewrite rstrip_app by reflexivity.
    rewrite !string_app_assoc. reflexivity. }
  rewrite Hs.
  assert (Hb' : ~ occurs "{" (Str.lstrip before)).
  { intros H. apply Hb. apply (lstrip_occurs "{" before eq_refl). exact H. }
  assert (Ha' : ~ occurs "}" (Str.rstrip after)).
  { intros H. apply Ha. apply (rstrip_occurs "}" after eq_refl). exact H. }
  set (lb := Str.lstrip before) in *. set (ra := Str.rstrip after) in *.
  assert (Hf : Str.find "{" (lb ++ ("{" ++ body ++ "}") ++ ra) = Str.len lb).
  { unfold Str.find.
    change (lb ++ ("{" ++ body ++ "}") ++ ra)
      with (lb ++ String "{" ((body ++ "}") ++ ra)).
    rewrite (find_from_app_char "{" lb _ 0 Hb'). lia. }
  assert (Hr : Str.rfind "}" (lb ++ ("{" ++ body ++ "}") ++ ra) =
               (Str.len lb + Str.len ("{" ++ body ++ "}") - 1)%Z).
  { unfold Str.rfind.
    replace (lb ++ ("{" ++ body ++ "}") ++ ra)
      with ((lb ++ "{" ++ body) ++ String "}" ra)
      by (rewrite !string_app_assoc; reflexivity).
    rewrite (rfind_from_app_char "}" _ ra 0 ltac:(lia) Ha').
    unfold Str.len. rewrite !length_app. cbn [String.length]. lia. }
  rewrite Hf, Hr.
  assert (H1 : (Str.len lb =? -1)%Z = false).
  { apply Z.eqb_neq. unfold Str.len. lia. }
  assert (H2 : (Str.len lb + Str.len ("{" ++ body ++ "}") - 1 + 1 =? 0)%Z = false).
  { apply Z.eqb_neq. unfold Str.len. cbn [append String.length]. lia. }
  rewrite H1, H2. cbn [orb].
  replace (Str.len lb + Str.len ("{" ++ body ++ "}") - 1 + 1)%Z
    with (Str.len lb + Str.len ("{" ++ body ++ "}"))%Z by lia.
  rewrite slice_middle. reflexivity.
Qed.

(** X22. Text around the JSON object of a reply is ignored: when the text
    before the object has no opening brace and the text after it has no
    closing brace, the parser takes exactly the object, from its opening to
    its closing brace, and returns what it returns on the object alone. *)
Theorem parse_ignores_surrounding_text (L : Library)
  (before body after : string) :
  ~ occurs "{" before -> ~ occurs "}" after ->
  extract_json (before ++ "{" ++ body ++ "}" ++ after) = Some ("{" ++ body ++ "}")
  /\ _parse_llm_response L (before ++ "{" ++ body ++ "}" ++ after) =
     _parse_llm_response L ("{" ++ body ++ "}").
Proof.
  intros Hb Ha.
  assert (H1 := extract_json_object before body after Hb Ha).
  assert (H2 : extract_json ("{" ++ body ++ "}") = Some ("{" ++ body ++ "}")).
  { assert (H := extract_json_object EmptyString body EmptyString).
    cbn [append] in H.
    replace (body ++ "}")%string with (body ++ String "}" EmptyString) by reflexivity.
    apply H; intros N; exact N. }
  split; [exact H1 | ].
  unfold _parse_llm_response, parse_body. rewrite H1, H2. reflexivity.
Qed.

Lemma parse_ignores_surrounding_text_witness :
  _parse_llm_response Reference.lib reply_example =
  _parse_llm_response Reference.lib json_example.
Proof.
  apply (parse_ignores_surrounding_text Reference.lib "blah "
           (quoted "classification" ++ ":" ++ quoted "ai" ++ ","
            ++ quoted "confidence" ++ ":2," ++ quoted "explanation" ++ ":"
            ++ quoted "x")
           " blah").
  - intros H. apply contains_occurs in H. vm_compute in H. discriminate H.
  - intros H. apply contains_occurs in H. vm_compute in H. discriminate H.
Defined.

End Surroundings.
